(** * PixelHolo Voice Studio front end: streaming playback core

    A shallow embedding of the streaming core of [src/App.tsx] (the React
    component) and of the legacy DOM script that is stored after it in the
    same file:

    - the line reader [streamResponseLines] / [streamTextResponse],
    - the per-line handler of the [/stream] response,
    - the chunk scheduler [scheduleBuffer],
    - the lifecycle functions [startInference], [stopInference],
      [resetAudio], [ensureAudioContext], [stopStream].

    Conventions.
    - A JavaScript string is the list of its UTF-16 code units.
    - A JavaScript number that measures time is an exact rational ([Q]);
      the rounding of IEEE doubles is not modelled.
    - Mutable refs and closure variables are fields of an explicit state.
      The line handler, an [async] function, is cut at its [await] of
      [decodeAudioData]: the part before it runs when the line arrives,
      the part after it when the decode settles, and the environment
      picks the order in which these pieces run (an event list).
      [startInference] (up to its call of [fetch]) is taken as one
      step. [stopInference] is cut at its [await] of [close()]: the
      call, then the settling of the close, with whatever the
      environment lets happen in between; [stopInference] itself is
      the two in a row.
    - Numbers read from the text of a line are doubles: integers
      rounded to 53 bits, the infinities and [NaN].
    - Platform functions ([JSON.parse], [atob], [TextDecoder], number
      formatting) are operations of a type class. *)

From Stdlib Require Import Strings.String Strings.Ascii Strings.Byte.
From Stdlib Require Import List Bool Arith ZArith NArith QArith Qminmax Qround.
From Stdlib Require Import Lia Lqa.
From Equations Require Import Equations.
Import ListNotations.

Set Implicit Arguments.
Set Warnings "-register-all".

(** Lists, not [String], own these names here. *)
Abbreviation length := List.length.
Abbreviation concat := List.concat.

(* ===================================================================== *)
(** ** JavaScript strings *)
(* ===================================================================== *)

Module Js.

(** A string is a sequence of UTF-16 code units. *)
Definition codeunit := N.
Definition jsstring := list codeunit.

(** A string literal of the source. *)
Definition lit (s : string) : jsstring :=
  map N_of_ascii (list_ascii_of_string s).

Definition newline : codeunit := 10%N.

(** The code units removed by [String.prototype.trim]: WhiteSpace and
    LineTerminator of ECMA-262. *)
Definition isWhiteSpace (c : codeunit) : bool :=
  ((9 <=? c) && (c <=? 13) ||
   (c =? 32) || (c =? 160) || (c =? 5760) ||
   (8192 <=? c) && (c <=? 8202) ||
   (c =? 8232) || (c =? 8233) || (c =? 8239) || (c =? 8287) ||
   (c =? 12288) || (c =? 65279))%N.

Fixpoint trimStart (s : jsstring) : jsstring :=
  match s with
  | [] => []
  | c :: s' => if isWhiteSpace c then trimStart s' else s
  end.

Definition trimEnd (s : jsstring) : jsstring := rev (trimStart (rev s)).

Definition trim (s : jsstring) : jsstring := trimEnd (trimStart s).

(** [s.indexOf(c)]: the first position of [c], or [-1]. *)
Fixpoint indexOf (s : jsstring) (c : codeunit) : Z :=
  match s with
  | [] => (-1)%Z
  | x :: s' =>
      if (x =? c)%N then 0%Z
      else let i := indexOf s' c in
           if (i =? -1)%Z then (-1)%Z else (i + 1)%Z
  end.

(** The clamping of a relative index by [slice]. *)
Definition relIndex (len i : Z) : Z :=
  if (i <? 0)%Z then Z.max (len + i) 0 else Z.min i len.

(** [s.slice(from, to)]. *)
Definition slice (s : jsstring) (from to : Z) : jsstring :=
  let len := Z.of_nat (List.length s) in
  let k := relIndex len from in
  let e := relIndex len to in
  firstn (Z.to_nat (e - k)) (skipn (Z.to_nat k) s).

(** [s.slice(from)]. *)
Definition sliceFrom (s : jsstring) (from : Z) : jsstring :=
  slice s from (Z.of_nat (List.length s)).

(** Truthiness of a string: it is not empty. *)
Definition truthy (s : jsstring) : bool :=
  match s with [] => false | _ :: _ => true end.

(** The errors the modelled code can meet. *)
Inductive JsError : Type :=
| SyntaxError            (* JSON.parse *)
| TypeError              (* property access on null *)
| InvalidCharacterError  (* atob *)
| EncodingError          (* decodeAudioData *)
| InvalidStateError      (* close() on a context that is closed *)
| AbortError             (* an aborted fetch or read *)
| NetworkError           (* any other transport failure *)
| HttpError (body : jsstring). (* new Error(await res.text()) *)

Definition isAbortError (e : JsError) : bool :=
  match e with AbortError => true | _ => false end.

End Js.
Import Js.

(* ===================================================================== *)
(** ** JavaScript numbers read from text *)
(* ===================================================================== *)

Module Double.

Local Open Scope Z_scope.

(** The doubles that the arithmetic of the component can produce from
    runs of digits: integers, the two infinities and [NaN]. The integer
    held in [Finite] is one that a double represents. *)
Inductive t : Type :=
| Finite (z : Z)
| Infinity (negative : bool)
| NaN.

(** [m] without its [e] lowest bits, rounded to nearest, a tie to the
    even neighbour. *)
Definition dropBits (m e : Z) : Z :=
  if e <=? 0 then m
  else
    let q := m / 2 ^ e in
    let r := m mod 2 ^ e in
    let half := 2 ^ (e - 1) in
    if r <? half then q
    else if half <? r then q + 1
    else if Z.even q then q else q + 1.

(** The double nearest to an integer: 53 bits are kept, and what
    reaches [2^1024] after rounding is infinite. *)
Definition round (z : Z) : t :=
  let m := Z.abs z in
  let e := Z.max 0 (Z.log2 m + 1 - 53) in
  let r := dropBits m e * 2 ^ e in
  if 2 ^ 1024 <=? r then Infinity (z <? 0)
  else Finite (Z.sgn z * r).

(** [x + y]. *)
Definition add (x y : t) : t :=
  match x, y with
  | NaN, _ | _, NaN => NaN
  | Finite a, Finite b => round (a + b)
  | Infinity s, Finite _ | Finite _, Infinity s => Infinity s
  | Infinity s, Infinity s' => if Bool.eqb s s' then Infinity s else NaN
  end.

Definition opp (x : t) : t :=
  match x with
  | Finite a => Finite (- a)
  | Infinity s => Infinity (negb s)
  | NaN => NaN
  end.

(** [x - y]. *)
Definition sub (x y : t) : t := add x (opp y).

(** [Math.max(x, y)]. *)
Definition max (x y : t) : t :=
  match x, y with
  | NaN, _ | _, NaN => NaN
  | Infinity false, _ | _, Infinity false => Infinity false
  | Infinity true, v | v, Infinity true => v
  | Finite a, Finite b => Finite (Z.max a b)
  end.

(** Truthiness of a number: neither zero nor [NaN]. *)
Definition truthy (x : t) : bool :=
  match x with
  | Finite z => negb (z =? 0)
  | Infinity _ => true
  | NaN => false
  end.

(** The integers that a double holds exactly whatever they are:
    [|z| < 2^53]. *)
Definition safe (z : Z) : Prop := Z.abs z < 2 ^ 53.

End Double.

(* ===================================================================== *)
(** ** The line reader *)
(* ===================================================================== *)

(** [TextDecoder] used with [{stream: true}]: a transducer that consumes
    the bytes one at a time and keeps its state from one call of [decode]
    to the next. The source never makes the final flushing call. *)
Class TextDecoder : Type := {
  decoderState : Type;
  decoderInit : decoderState;
  decodeByte : decoderState -> byte -> decoderState * jsstring
}.

Fixpoint decode `{TextDecoder} (st : decoderState) (value : list byte)
  : decoderState * jsstring :=
  match value with
  | [] => (st, [])
  | b :: value' =>
      let (st1, out1) := decodeByte st b in
      let (st2, out2) := decode st1 value' in
      (st2, out1 ++ out2)
  end.

(** A response body as the reader sees it: the values of the successive
    [reader.read()] calls, then either [done] or a rejected read. *)
Record Body : Type := {
  reads : list (list byte);
  failure : option JsError
}.

Lemma indexOf_range s c : (-1 <= indexOf s c < Z.of_nat (List.length s))%Z.
Proof.
  induction s as [|x s IH]; simpl; [lia|].
  destruct (x =? c)%N; [lia|].
  destruct (indexOf s c =? -1)%Z eqn:E; lia.
Qed.

Lemma slice_shorter s i :
  (0 <= i)%Z -> (i < Z.of_nat (List.length s))%Z ->
  (List.length (sliceFrom s (i + 1)) < List.length s)%nat.
Proof.
  intros H0 H1. unfold sliceFrom, slice, relIndex.
  destruct (i + 1 <? 0)%Z eqn:E1; [apply Z.ltb_lt in E1; lia|].
  destruct (Z.of_nat (List.length s) <? 0)%Z eqn:E2; [apply Z.ltb_lt in E2; lia|].
  rewrite length_firstn, length_skipn. lia.
Qed.

(** Remembers from which expression a matched value comes. *)
Definition inspect {A : Type} (a : A) : {b : A | a = b} := exist _ a eq_refl.

(** The inner loop of the reader:
<<
      let index = buffer.indexOf('\n');
      while (index !== -1) {
        const line = buffer.slice(0, index).trim();
        buffer = buffer.slice(index + 1);
        if (line) onLine(line);
        index = buffer.indexOf('\n');
      }
>>
    It returns the state after the calls of [onLine] and the buffer that
    is left. *)
Equations? drain {St : Type} (onLine : jsstring -> St -> St)
    (buffer : jsstring) (s : St) : St * jsstring
  by wf (List.length buffer) lt :=
drain onLine buffer s with inspect (indexOf buffer newline) => {
  | exist _ index Hidx with inspect (index =? -1)%Z => {
    | exist _ true _ := (s, buffer);
    | exist _ false Hne :=
        let line := trim (slice buffer 0 index) in
        drain onLine (sliceFrom buffer (index + 1))
              (if truthy line then onLine line s else s) } }.
Proof.
  pose proof (indexOf_range buffer newline) as R.
  apply Z.eqb_neq in Hne. apply slice_shorter; lia.
Qed.

(** The outer loop: one iteration per successful read. *)
Fixpoint pump `{TextDecoder} {St : Type} (onLine : jsstring -> St -> St)
    (values : list (list byte)) (decoder : decoderState)
    (buffer : jsstring) (s : St) : St * jsstring :=
  match values with
  | [] => (s, buffer)
  | value :: values' =>
      let (decoder', text) := decode decoder value in
      let (s', buffer') := drain onLine (buffer ++ text) s in
      pump onLine values' decoder' buffer' s'
  end.

(** [streamResponseLines(response, onLine)] of the React component. The
    result is the state after all calls of [onLine], and the error of the
    rejected read if there was one. [None] as response body stands for
    [!response.body]. *)
Definition streamResponseLines `{TextDecoder} {St : Type}
    (response : option Body) (onLine : jsstring -> St -> St) (s : St)
  : St * option JsError :=
  match response with
  | None => (s, None)
  | Some body =>
      let (s', buffer) := pump onLine (reads body) decoderInit [] s in
      match failure body with
      | Some e => (s', Some e)
      | None =>
          if truthy (trim buffer) then (onLine (trim buffer) s', None)
          else (s', None)
      end
  end.

(** [streamTextResponse(response, onChunk)] of the legacy script: the
    same loop, without the test of [response.body]. *)
Definition streamTextResponse `{TextDecoder} {St : Type}
    (response : Body) (onChunk : jsstring -> St -> St) (s : St)
  : St * option JsError :=
  let (s', buffer) := pump onChunk (reads response) decoderInit [] s in
  match failure response with
  | Some e => (s', Some e)
  | None =>
      if truthy (trim buffer) then (onChunk (trim buffer) s', None)
      else (s', None)
  end.

(** The callback that records the lines it is given. *)
Definition record (line : jsstring) (acc : list jsstring) : list jsstring :=
  acc ++ [line].

(** The lines a reader emits for a body. *)
Definition emittedLines `{TextDecoder} (body : Body) : list jsstring :=
  fst (streamResponseLines (Some body) record []).

Definition emittedLinesLegacy `{TextDecoder} (body : Body) : list jsstring :=
  fst (streamTextResponse body record []).

(* ===================================================================== *)
(** ** JSON values and the platform *)
(* ===================================================================== *)

(** The result of [JSON.parse]. An object is the list of its fields, each
    key once. *)
Inductive json : Type :=
| JNull
| JBool (b : bool)
| JNumber (q : Q)
| JString (s : jsstring)
| JArray (items : list json)
| JObject (fields : list (jsstring * json)).

(** A JavaScript value read from parsed JSON: [None] is [undefined]. *)
Definition jsvalue := option json.

Fixpoint jsstring_eqb (a b : jsstring) : bool :=
  match a, b with
  | [], [] => true
  | x :: a', y :: b' => (x =? y)%N && jsstring_eqb a' b'
  | _, _ => false
  end.

Fixpoint field (key : jsstring) (fields : list (jsstring * json)) : jsvalue :=
  match fields with
  | [] => None
  | (k, v) :: rest => if jsstring_eqb k key then Some v else field key rest
  end.

(** [data.key] for one of the keys the source reads ([event],
    [inference_ms], [audio_base64], [chunk_index]): a [TypeError] on
    [null], the field of an object, [undefined] on anything else. *)
Definition member (data : json) (key : string) : JsError + jsvalue :=
  match data with
  | JNull => inl TypeError
  | JObject fields => inr (field (lit key) fields)
  | _ => inr None
  end.

(** [!!v]. JSON has no [NaN]. *)
Definition truthyValue (v : jsvalue) : bool :=
  match v with
  | None => false
  | Some JNull => false
  | Some (JBool b) => b
  | Some (JNumber q) => negb (Qeq_bool q 0)
  | Some (JString s) => truthy s
  | Some (JArray _) => true
  | Some (JObject _) => true
  end.

(** [v === 'done']. *)
Definition isDone (v : jsvalue) : bool :=
  match v with
  | Some (JString s) => jsstring_eqb s (lit "done")
  | _ => false
  end.

(** [v ?? fallback]. *)
Definition nullish (v : jsvalue) (fallback : json) : json :=
  match v with
  | None => fallback
  | Some JNull => fallback
  | Some x => x
  end.

(** [Math.round]: the nearest integer, halves towards plus infinity. *)
Definition Math_round (x : Q) : Z := Qfloor (x + (1 # 2)).

(** What the browser provides and the source calls. *)
Class Host : Type := {
  (** [JSON.parse(line)]; [None] when it throws a [SyntaxError]. *)
  JSON_parse : jsstring -> option json;
  (** [atob(v)]; [None] when it throws an [InvalidCharacterError]. *)
  atob : json -> option jsstring;
  (** [x.toFixed(digits)]. *)
  toFixed : Q -> nat -> jsstring;
  (** The text a template literal inserts for a value. *)
  valueText : jsvalue -> jsstring;
  (** The text a template literal inserts for a number. *)
  numberText : Double.t -> jsstring;
  (** The text a template literal inserts for a caught error. *)
  errorText : JsError -> jsstring
}.

(** A decoded chunk. Only its duration (seconds) matters to the code. *)
Record AudioBuffer : Type := { duration : Q }.

(** The automation calls made on a gain parameter. *)
Inductive GainEvent : Type :=
| setValueAtTime (value time : Q)
| linearRampToValueAtTime (value time : Q).

(** A buffer source that was started: [source.start(startAt)], with the
    envelope of the gain node it was connected through, if any. *)
Record Playback : Type := {
  played : AudioBuffer;
  startAt : Q;
  envelope : list GainEvent
}.

Inductive ContextState : Type := ctxSuspended | ctxRunning | ctxClosed.

(** An [AudioContext] object: its identity and its [state]. Its
    [currentTime] is read from the environment at each use. *)
Record AudioContext : Type := {
  contextId : nat;
  contextState : ContextState
}.

Definition resume (ctx : AudioContext) : AudioContext :=
  {| contextId := contextId ctx; contextState := ctxRunning |}.

(** [ctx.close()] marks the context closed when it is called; its
    promise settles later. *)
Definition close (ctx : AudioContext) : AudioContext :=
  {| contextId := contextId ctx; contextState := ctxClosed |}.

Definition isClosed (ctx : AudioContext) : bool :=
  match contextState ctx with ctxClosed => true | _ => false end.

(** A call of [decodeAudioData] that has not settled yet. *)
Record PendingDecode : Type := {
  decodeSession : nat;       (* the stream whose handler awaits it *)
  decodeData : json;         (* [data] of that handler *)
  decodeBytes : list N       (* the [Uint8Array] handed over *)
}.

(** [atob] then the loop [bytes[i] = binary.charCodeAt(i)]. *)
Definition toBytes (binary : jsstring) : list N :=
  map (fun c => N.modulo c 256) binary.

Fixpoint removeNth {A : Type} (k : nat) (l : list A) : list A :=
  match l, k with
  | [], _ => []
  | _ :: l', O => l'
  | x :: l', S k' => x :: removeNth k' l'
  end.

(* ===================================================================== *)
(** ** The React component ([src/App.tsx]) *)
(* ===================================================================== *)

Module React.

Inductive StepStatus : Type := idle | running | done | error.

Inductive LogLevel : Type := info | warn | errorLevel | success.

Record LogEntry : Type := { level : LogLevel; message : jsstring }.

(** [InferenceChunk] of [types.ts]. [index] is [data.chunk_index] as it
    was parsed. *)
Record InferenceChunk : Type := {
  index : jsvalue;
  chunkDuration : Q;
  receivedAt : Q
}.

(** The [latency] state: [{ ttfa, total }]. [total] holds whatever
    [inference_ms] held, or a rounded number. *)
Record Latency : Type := { ttfa : Z; total : json }.

(** The variables that one call of [startInference] closes over. *)
Record Session : Type := {
  controller : nat;      (* [controller], by the identity of the object *)
  startTime : Q;         (* [performance.now()] at the start, ms *)
  firstChunk : bool
}.

(** The refs and the state of the component that streaming touches, and
    the objects of the environment it acts on. *)
Record World : Type := {
  audioContextRef : option AudioContext;
  nextStartTimeRef : Q;
  streamAbortRef : option nat;
  inferenceStatus : StepStatus;          (* [stepStatuses.inference] *)
  inferenceChunks : list InferenceChunk;
  latency : option Latency;
  logPanels : list LogEntry;             (* [preprocessLogs], [trainLogs] *)
  created : nat;                         (* AudioContexts created so far *)
  controllers : nat;                     (* AbortControllers created so far *)
  aborted : list nat;                    (* controllers whose [abort()] ran *)
  sessions : list Session;
  pending : list PendingDecode;
  scheduled : list Playback;             (* [source.start] calls, in order *)
  unhandled : list JsError               (* rejections nobody awaits *)
}.

Definition initial : World := {|
  audioContextRef := None; nextStartTimeRef := 0; streamAbortRef := None;
  inferenceStatus := idle; inferenceChunks := []; latency := None;
  logPanels := []; created := 0; controllers := 0; aborted := [];
  sessions := []; pending := []; scheduled := []; unhandled := [] |}.

(** *** Field updates *)

Definition setAudioContext (v : option AudioContext) (w : World) : World :=
  {| audioContextRef := v; nextStartTimeRef := nextStartTimeRef w;
     streamAbortRef := streamAbortRef w; inferenceStatus := inferenceStatus w;
     inferenceChunks := inferenceChunks w; latency := latency w;
     logPanels := logPanels w; created := created w;
     controllers := controllers w; aborted := aborted w;
     sessions := sessions w; pending := pending w;
     scheduled := scheduled w; unhandled := unhandled w |}.

Definition setNextStartTime (v : Q) (w : World) : World :=
  {| audioContextRef := audioContextRef w; nextStartTimeRef := v;
     streamAbortRef := streamAbortRef w; inferenceStatus := inferenceStatus w;
     inferenceChunks := inferenceChunks w; latency := latency w;
     logPanels := logPanels w; created := created w;
     controllers := controllers w; aborted := aborted w;
     sessions := sessions w; pending := pending w;
     scheduled := scheduled w; unhandled := unhandled w |}.

Definition setStreamAbort (v : option nat) (w : World) : World :=
  {| audioContextRef := audioContextRef w;
     nextStartTimeRef := nextStartTimeRef w;
     streamAbortRef := v; inferenceStatus := inferenceStatus w;
     inferenceChunks := inferenceChunks w; latency := latency w;
     logPanels := logPanels w; created := created w;
     controllers := controllers w; aborted := aborted w;
     sessions := sessions w; pending := pending w;
     scheduled := scheduled w; unhandled := unhandled w |}.

Definition setInferenceStatus (v : StepStatus) (w : World) : World :=
  {| audioContextRef := audioContextRef w;
     nextStartTimeRef := nextStartTimeRef w;
     streamAbortRef := streamAbortRef w; inferenceStatus := v;
     inferenceChunks := inferenceChunks w; latency := latency w;
     logPanels := logPanels w; created := created w;
     controllers := controllers w; aborted := aborted w;
     sessions := sessions w; pending := pending w;
     scheduled := scheduled w; unhandled := unhandled w |}.

Definition setInferenceChunks (v : list InferenceChunk) (w : World) : World :=
  {| audioContextRef := audioContextRef w;
     nextStartTimeRef := nextStartTimeRef w;
     streamAbortRef := streamAbortRef w; inferenceStatus := inferenceStatus w;
     inferenceChunks := v; latency := latency w;
     logPanels := logPanels w; created := created w;
     controllers := controllers w; aborted := aborted w;
     sessions := sessions w; pending := pending w;
     scheduled := scheduled w; unhandled := unhandled w |}.

Definition setLatency (v : option Latency) (w : World) : World :=
  {| audioContextRef := audioContextRef w;
     nextStartTimeRef := nextStartTimeRef w;
     streamAbortRef := streamAbortRef w; inferenceStatus := inferenceStatus w;
     inferenceChunks := inferenceChunks w; latency := v;
     logPanels := logPanels w; created := created w;
     controllers := controllers w; aborted := aborted w;
     sessions := sessions w; pending := pending w;
     scheduled := scheduled w; unhandled := unhandled w |}.

Definition setCreated (v : nat) (w : World) : World :=
  {| audioContextRef := audioContextRef w;
     nextStartTimeRef := nextStartTimeRef w;
     streamAbortRef := streamAbortRef w; inferenceStatus := inferenceStatus w;
     inferenceChunks := inferenceChunks w; latency := latency w;
     logPanels := logPanels w; created := v;
     controllers := controllers w; aborted := aborted w;
     sessions := sessions w; pending := pending w;
     scheduled := scheduled w; unhandled := unhandled w |}.

Definition setControllers (v : nat) (w : World) : World :=
  {| audioContextRef := audioContextRef w;
     nextStartTimeRef := nextStartTimeRef w;
     streamAbortRef := streamAbortRef w; inferenceStatus := inferenceStatus w;
     inferenceChunks := inferenceChunks w; latency := latency w;
     logPanels := logPanels w; created := created w;
     controllers := v; aborted := aborted w;
     sessions := sessions w; pending := pending w;
     scheduled := scheduled w; unhandled := unhandled w |}.

Definition setAborted (v : list nat) (w : World) : World :=
  {| audioContextRef := audioContextRef w;
     nextStartTimeRef := nextStartTimeRef w;
     streamAbortRef := streamAbortRef w; inferenceStatus := inferenceStatus w;
     inferenceChunks := inferenceChunks w; latency := latency w;
     logPanels := logPanels w; created := created w;
     controllers := controllers w; aborted := v;
     sessions := sessions w; pending := pending w;
     scheduled := scheduled w; unhandled := unhandled w |}.

Definition setSessions (v : list Session) (w : World) : World :=
  {| audioContextRef := audioContextRef w;
     nextStartTimeRef := nextStartTimeRef w;
     streamAbortRef := streamAbortRef w; inferenceStatus := inferenceStatus w;
     inferenceChunks := inferenceChunks w; latency := latency w;
     logPanels := logPanels w; created := created w;
     controllers := controllers w; aborted := aborted w;
     sessions := v; pending := pending w;
     scheduled := scheduled w; unhandled := unhandled w |}.

Definition setPending (v : list PendingDecode) (w : World) : World :=
  {| audioContextRef := audioContextRef w;
     nextStartTimeRef := nextStartTimeRef w;
     streamAbortRef := streamAbortRef w; inferenceStatus := inferenceStatus w;
     inferenceChunks := inferenceChunks w; latency := latency w;
     logPanels := logPanels w; created := created w;
     controllers := controllers w; aborted := aborted w;
     sessions := sessions w; pending := v;
     scheduled := scheduled w; unhandled := unhandled w |}.

Definition setScheduled (v : list Playback) (w : World) : World :=
  {| audioContextRef := audioContextRef w;
     nextStartTimeRef := nextStartTimeRef w;
     streamAbortRef := streamAbortRef w; inferenceStatus := inferenceStatus w;
     inferenceChunks := inferenceChunks w; latency := latency w;
     logPanels := logPanels w; created := created w;
     controllers := controllers w; aborted := aborted w;
     sessions := sessions w; pending := pending w;
     scheduled := v; unhandled := unhandled w |}.

Definition setUnhandled (v : list JsError) (w : World) : World :=
  {| audioContextRef := audioContextRef w;
     nextStartTimeRef := nextStartTimeRef w;
     streamAbortRef := streamAbortRef w; inferenceStatus := inferenceStatus w;
     inferenceChunks := inferenceChunks w; latency := latency w;
     logPanels := logPanels w; created := created w;
     controllers := controllers w; aborted := aborted w;
     sessions := sessions w; pending := pending w;
     scheduled := scheduled w; unhandled := v |}.

(** A rejection of a promise that nothing awaits or catches. *)
Definition reject (e : JsError) (w : World) : World :=
  setUnhandled (unhandled w ++ [e]) w.

(** [controller.abort()]. *)
Definition abort (c : nat) (w : World) : World :=
  setAborted (c :: aborted w) w.

Fixpoint findSession (sid : nat) (l : list Session) : option Session :=
  match l with
  | [] => None
  | x :: l' => if (controller x =? sid)%nat then Some x else findSession sid l'
  end.

(** [firstChunk = false] in the closure of session [sid]. *)
Fixpoint clearFirstChunk (sid : nat) (l : list Session) : list Session :=
  match l with
  | [] => []
  | x :: l' =>
      if (controller x =? sid)%nat
      then {| controller := controller x; startTime := startTime x;
              firstChunk := false |} :: l'
      else x :: clearFirstChunk sid l'
  end.

(** *** The audio context

<<
  const ensureAudioContext = async () => {
    if (!audioContextRef.current) {
      audioContextRef.current = new (window.AudioContext || ...)();
    }
    if (audioContextRef.current.state === 'suspended') {
      await audioContextRef.current.resume();
    }
  };
>>
    [fresh] is the state in which the browser creates a context. *)
Definition ensureAudioContext (fresh : ContextState) (w : World) : World :=
  let w1 :=
    match audioContextRef w with
    | None =>
        setCreated (S (created w))
          (setAudioContext
             (Some {| contextId := created w; contextState := fresh |}) w)
    | Some _ => w
    end in
  match audioContextRef w1 with
  | Some ctx =>
      match contextState ctx with
      | ctxSuspended => setAudioContext (Some (resume ctx)) w1
      | _ => w1
      end
  | None => w1
  end.

(** [resetAudio] from the point where the promise of [close()] has
    resolved; with no context, all of it:
<<
  const resetAudio = async () => {
    if (audioContextRef.current) {
      await audioContextRef.current.close();
      audioContextRef.current = null;
    }
    nextStartTimeRef.current = 0;
  };
>> *)
Definition resetAudio (w : World) : World :=
  let w1 :=
    match audioContextRef w with
    | Some _ => setAudioContext None w
    | None => w
    end in
  setNextStartTime 0 w1.

(** *** The scheduler *)

Definition attack : Q := 1 # 100.       (* 0.01 *)
Definition release : Q := 1 # 100.      (* 0.01 *)
Definition overlap : Q := 8 # 1000.     (* 0.008 *)
Definition safetyMargin : Q := 5 # 100. (* the 0.05 added to currentTime *)
Definition fadeFloor : Q := 2 # 1000.   (* the 0.002 inside Math.max *)

(**
<<
    const startAt = Math.max(ctx.currentTime + 0.05, nextStartTimeRef.current);
    const safeRelease = Math.min(release, Math.max(0.002, buffer.duration / 4));
    const safeAttack = Math.min(attack, Math.max(0.002, buffer.duration / 4));
>> *)
Definition startAtOf (currentTime next : Q) : Q :=
  Qmax (currentTime + safetyMargin) next.

Definition safeRelease (buffer : AudioBuffer) : Q :=
  Qmin release (Qmax fadeFloor (duration buffer / 4)).

Definition safeAttack (buffer : AudioBuffer) : Q :=
  Qmin attack (Qmax fadeFloor (duration buffer / 4)).

(**
<<
    gain.gain.setValueAtTime(0, startAt);
    gain.gain.linearRampToValueAtTime(1, startAt + safeAttack);
    gain.gain.setValueAtTime(1, Math.max(startAt + safeAttack,
                                         startAt + buffer.duration - safeRelease));
    gain.gain.linearRampToValueAtTime(0, startAt + buffer.duration);
>> *)
Definition gainEnvelope (buffer : AudioBuffer) (startAt : Q) : list GainEvent :=
  [ setValueAtTime 0 startAt;
    linearRampToValueAtTime 1 (startAt + safeAttack buffer);
    setValueAtTime 1 (Qmax (startAt + safeAttack buffer)
                           (startAt + duration buffer - safeRelease buffer));
    linearRampToValueAtTime 0 (startAt + duration buffer) ].

(** [scheduleBuffer(buffer)], with [ctx.currentTime] read as
    [currentTime]:
<<
    if (!audioContextRef.current) return;
    ...
    source.start(startAt);
    nextStartTimeRef.current = startAt + buffer.duration - overlap;
>> *)
Definition scheduleBuffer (buffer : AudioBuffer) (currentTime : Q) (w : World)
  : World :=
  match audioContextRef w with
  | None => w
  | Some ctx =>
      let startAt := startAtOf currentTime (nextStartTimeRef w) in
      let source := {| played := buffer; startAt := startAt;
                       envelope := gainEnvelope buffer startAt |} in
      setNextStartTime (startAt + duration buffer - overlap)
        (setScheduled (scheduled w ++ [source]) w)
  end.

(** *** Starting and stopping

    [startInference], from the click to the call of [fetch]. [profileName]
    and [inferenceText] are the state the callback closes over, [fresh]
    the state of a context the browser would create, [currentTime] the
    clock of the context after [ensureAudioContext], [now] the value of
    [performance.now()].
<<
    if (!profile.name || !inferenceText) return;
    await ensureAudioContext();
    setStepStatuses(prev => ({ ...prev, inference: 'running' }));
    setInferenceChunks([]);
    setLatency(null);
    nextStartTimeRef.current = audioContextRef.current?.currentTime || 0;

    if (streamAbortRef.current) {
      streamAbortRef.current.abort();
    }
    const controller = new AbortController();
    streamAbortRef.current = controller;

    const startTime = performance.now();
    let firstChunk = true;
>> *)
Definition startInference (profileName inferenceText : jsstring)
    (fresh : ContextState) (currentTime now : Q) (w : World) : World :=
  if negb (truthy profileName) || negb (truthy inferenceText) then w
  else
    let w1 := ensureAudioContext fresh w in
    let w2 := setLatency None
                (setInferenceChunks [] (setInferenceStatus running w1)) in
    let w3 := setNextStartTime
                (match audioContextRef w2 with
                 | Some _ => currentTime
                 | None => 0
                 end) w2 in
    let w4 := match streamAbortRef w3 with
              | Some prior => abort prior w3
              | None => w3
              end in
    let controller := controllers w4 in
    let w5 := setStreamAbort (Some controller)
                (setControllers (S controller) w4) in
    setSessions ({| controller := controller; startTime := now;
                    firstChunk := true |} :: sessions w5) w5.

(** [stopInference] up to the point where it waits. With a context it
    waits for [close()], which marks the context closed at once; a
    context that is closed already makes [close()] reject, and with it
    the whole call. With no context [resetAudio] has nothing to wait
    for and nothing outside the call can run before its end.
<<
  const stopInference = async () => {
    if (streamAbortRef.current) streamAbortRef.current.abort();
    await resetAudio();       // if (audioContextRef.current) await close()
>> *)
Definition stopRequested (w : World) : World :=
  let w1 := match streamAbortRef w with
            | Some c => abort c w
            | None => w
            end in
  match audioContextRef w1 with
  | Some ctx =>
      if isClosed ctx then reject InvalidStateError w1
      else setAudioContext (Some (close ctx)) w1
  | None => setInferenceStatus idle (resetAudio w1)
  end.

(** The promise of [close()] resolves: the rest of [resetAudio] and of
    [stopInference]. It acts on what the refs hold by then. A close is
    pending exactly while the ref holds a context that was closed: only
    this continuation empties the ref.
<<
      audioContextRef.current = null;
    }
    nextStartTimeRef.current = 0;
    ...
    setStepStatuses(prev => ({ ...prev, inference: 'idle' }));
  };
>> *)
Definition onContextClosed (w : World) : World :=
  match audioContextRef w with
  | Some ctx =>
      if isClosed ctx then setInferenceStatus idle (resetAudio w) else w
  | None => w
  end.

(** [stopInference] from the click to its end, when [close()] resolves
    before anything else happens. *)
Definition stopInference (w : World) : World :=
  onContextClosed (stopRequested w).

(** The [catch] of [startInference], reached when [fetch], the status
    test or a read fails:
<<
      if ((err as Error).name !== 'AbortError') {
        setStepStatuses(prev => ({ ...prev, inference: 'error' }));
      }
>> *)
Definition onStreamError (err : JsError) (w : World) : World :=
  if isAbortError err then w else setInferenceStatus error w.

(** *** The line handler

    The callback given to [streamResponseLines], up to its [await]. It is
    an [async] function whose promise the reader drops: a [throw] in it
    rejects that promise and goes nowhere else.
<<
        const data = JSON.parse(line);
        if (data.event === 'done') {
          setLatency(prev => prev ? { ...prev,
            total: data.inference_ms ?? Math.round(performance.now() - startTime) }
            : null);
          setStepStatuses(prev => ({ ...prev, inference: 'done' }));
          return;
        }
        if (!data.audio_base64) return;
        if (firstChunk) {
          firstChunk = false;
          setLatency({ ttfa: Math.round(performance.now() - startTime), total: 0 });
        }
        const binary = atob(data.audio_base64);
        ... bytes ...
        const buffer = await audioContextRef.current!.decodeAudioData(bytes.buffer);
>> *)
Definition onDone (data : json) (session : Session) (now : Q) (w : World)
  : World :=
  let measured := JNumber (inject_Z (Math_round (now - startTime session))) in
  let reported := match member data "inference_ms" with
                  | inr v => v
                  | inl _ => None
                  end in
  let latency' :=
    match latency w with
    | Some prev => Some {| ttfa := ttfa prev; total := nullish reported measured |}
    | None => None
    end in
  setInferenceStatus done (setLatency latency' w).

Definition onAudio `{Host} (data : json) (payload : json) (session : Session)
    (now : Q) (w : World) : World :=
  let sid := controller session in
  let w1 :=
    if firstChunk session then
      setLatency (Some {| ttfa := Math_round (now - startTime session);
                          total := JNumber 0 |})
        (setSessions (clearFirstChunk sid (sessions w)) w)
    else w in
  match atob payload with
  | None => reject InvalidCharacterError w1
  | Some binary =>
      match audioContextRef w1 with
      | None => reject TypeError w1
      | Some _ =>
          setPending (pending w1 ++
                      [{| decodeSession := sid; decodeData := data;
                          decodeBytes := toBytes binary |}]) w1
      end
  end.

Definition onStreamLine `{Host} (sid : nat) (now : Q) (line : jsstring)
    (w : World) : World :=
  match findSession sid (sessions w) with
  | None => w
  | Some session =>
      match JSON_parse line with
      | None => reject SyntaxError w
      | Some data =>
          match member data "event" with
          | inl e => reject e w
          | inr event =>
              if isDone event then onDone data session now w
              else
                match member data "audio_base64" with
                | inl e => reject e w
                | inr None => w
                | inr (Some payload) =>
                    if negb (truthyValue (Some payload)) then w
                    else onAudio data payload session now w
                end
          end
      end
  end.

(** The rest of the handler, run when the [k]-th pending
    [decodeAudioData] resolves with [buffer]:
<<
        scheduleBuffer(buffer);
        setInferenceChunks(prev => [...prev, { index: data.chunk_index,
          duration: buffer.duration, receivedAt: Date.now() }]);
>> *)
Definition onDecoded (k : nat) (buffer : AudioBuffer) (currentTime date : Q)
    (w : World) : World :=
  match nth_error (pending w) k with
  | None => w
  | Some p =>
      let w1 := setPending (removeNth k (pending w)) w in
      let w2 := scheduleBuffer buffer currentTime w1 in
      let chunkIndex := match member (decodeData p) "chunk_index" with
                        | inr v => v
                        | inl _ => None
                        end in
      setInferenceChunks
        (inferenceChunks w2 ++
         [{| index := chunkIndex; chunkDuration := duration buffer;
             receivedAt := date |}]) w2
  end.

(** The [k]-th pending [decodeAudioData] rejects: the [await] throws and
    the handler's promise is rejected. *)
Definition onDecodeFailed (k : nat) (w : World) : World :=
  match nth_error (pending w) k with
  | None => w
  | Some _ => reject EncodingError (setPending (removeNth k (pending w)) w)
  end.

(** *** The component as a transition system *)

Inductive Event : Type :=
| Start (profileName inferenceText : jsstring) (fresh : ContextState)
        (currentTime now : Q)                 (* click on "Stream Voice" *)
| Line (sid : nat) (now : Q) (line : jsstring) (* the reader calls onLine *)
| Decoded (k : nat) (buffer : AudioBuffer) (currentTime date : Q)
| DecodeFailed (k : nat)
| StreamError (err : JsError)
| Stop               (* [StopClicked] and [ContextClosed] in a row *)
| StopClicked        (* click on "Stop", up to the wait for close() *)
| ContextClosed.     (* the pending close() resolves *)

Definition step `{Host} (w : World) (e : Event) : World :=
  match e with
  | Start profileName inferenceText fresh currentTime now =>
      startInference profileName inferenceText fresh currentTime now w
  | Line sid now line => onStreamLine sid now line w
  | Decoded k buffer currentTime date => onDecoded k buffer currentTime date w
  | DecodeFailed k => onDecodeFailed k w
  | StreamError err => onStreamError err w
  | Stop => stopInference w
  | StopClicked => stopRequested w
  | ContextClosed => onContextClosed w
  end.

Definition run `{Host} (w : World) (events : list Event) : World :=
  fold_left step events w.

Definition isStart (e : Event) : bool :=
  match e with Start _ _ _ _ _ => true | _ => false end.

Definition isStop (e : Event) : bool :=
  match e with Stop | StopClicked | ContextClosed => true | _ => false end.

(** The chunks of an event that a scheduling step may receive. *)
Definition decodedBuffer (e : Event) : option AudioBuffer :=
  match e with Decoded _ buffer _ _ => Some buffer | _ => None end.

(** Feeding decoded chunks to the scheduler one after the other, each
    with the clock reading at its turn. *)
Definition scheduleAll (chunks : list (AudioBuffer * Q)) (w : World) : World :=
  fold_left (fun w c => scheduleBuffer (fst c) (snd c) w) chunks w.

End React.

(* ===================================================================== *)
(** ** The legacy DOM script (stored after the component in [src/App.tsx]) *)
(* ===================================================================== *)

Module Legacy.

(** The variables that one run of the click handler of [streamBtn]
    closes over. *)
Record Session : Type := {
  controller : nat;
  start : Q;                        (* [performance.now()] at the click *)
  firstChunkTime : option Q         (* [null] until the first audio line *)
}.

(** The [state] object, the three DOM nodes the stream writes to, and the
    objects of the environment. *)
Record State : Type := {
  streamAbort : option nat;
  audioCtx : option AudioContext;
  nextStart : Q;
  streamLog : jsstring;
  streamStatus : jsstring;
  streamTiming : jsstring;
  created : nat;
  controllers : nat;
  aborted : list nat;
  sessions : list Session;
  pending : list PendingDecode;
  scheduled : list Playback
}.

Definition initial : State := {|
  streamAbort := None; audioCtx := None; nextStart := 0;
  streamLog := []; streamStatus := []; streamTiming := [];
  created := 0; controllers := 0; aborted := []; sessions := [];
  pending := []; scheduled := [] |}.

(** *** Field updates *)

Definition setStreamAbort (v : option nat) (s : State) : State :=
  {| streamAbort := v; audioCtx := audioCtx s; nextStart := nextStart s;
     streamLog := streamLog s; streamStatus := streamStatus s;
     streamTiming := streamTiming s; created := created s;
     controllers := controllers s; aborted := aborted s;
     sessions := sessions s; pending := pending s;
     scheduled := scheduled s |}.

Definition setAudioCtx (v : option AudioContext) (s : State) : State :=
  {| streamAbort := streamAbort s; audioCtx := v; nextStart := nextStart s;
     streamLog := streamLog s; streamStatus := streamStatus s;
     streamTiming := streamTiming s; created := created s;
     controllers := controllers s; aborted := aborted s;
     sessions := sessions s; pending := pending s;
     scheduled := scheduled s |}.

Definition setNextStart (v : Q) (s : State) : State :=
  {| streamAbort := streamAbort s; audioCtx := audioCtx s; nextStart := v;
     streamLog := streamLog s; streamStatus := streamStatus s;
     streamTiming := streamTiming s; created := created s;
     controllers := controllers s; aborted := aborted s;
     sessions := sessions s; pending := pending s;
     scheduled := scheduled s |}.

Definition setStreamLog (v : jsstring) (s : State) : State :=
  {| streamAbort := streamAbort s; audioCtx := audioCtx s;
     nextStart := nextStart s; streamLog := v;
     streamStatus := streamStatus s; streamTiming := streamTiming s;
     created := created s; controllers := controllers s;
     aborted := aborted s; sessions := sessions s; pending := pending s;
     scheduled := scheduled s |}.

Definition setStreamStatus (v : jsstring) (s : State) : State :=
  {| streamAbort := streamAbort s; audioCtx := audioCtx s;
     nextStart := nextStart s; streamLog := streamLog s; streamStatus := v;
     streamTiming := streamTiming s; created := created s;
     controllers := controllers s; aborted := aborted s;
     sessions := sessions s; pending := pending s;
     scheduled := scheduled s |}.

Definition setStreamTiming (v : jsstring) (s : State) : State :=
  {| streamAbort := streamAbort s; audioCtx := audioCtx s;
     nextStart := nextStart s; streamLog := streamLog s;
     streamStatus := streamStatus s; streamTiming := v;
     created := created s; controllers := controllers s;
     aborted := aborted s; sessions := sessions s; pending := pending s;
     scheduled := scheduled s |}.

Definition setCreated (v : nat) (s : State) : State :=
  {| streamAbort := streamAbort s; audioCtx := audioCtx s;
     nextStart := nextStart s; streamLog := streamLog s;
     streamStatus := streamStatus s; streamTiming := streamTiming s;
     created := v; controllers := controllers s; aborted := aborted s;
     sessions := sessions s; pending := pending s;
     scheduled := scheduled s |}.

Definition setControllers (v : nat) (s : State) : State :=
  {| streamAbort := streamAbort s; audioCtx := audioCtx s;
     nextStart := nextStart s; streamLog := streamLog s;
     streamStatus := streamStatus s; streamTiming := streamTiming s;
     created := created s; controllers := v; aborted := aborted s;
     sessions := sessions s; pending := pending s;
     scheduled := scheduled s |}.

Definition setAborted (v : list nat) (s : State) : State :=
  {| streamAbort := streamAbort s; audioCtx := audioCtx s;
     nextStart := nextStart s; streamLog := streamLog s;
     streamStatus := streamStatus s; streamTiming := streamTiming s;
     created := created s; controllers := controllers s; aborted := v;
     sessions := sessions s; pending := pending s;
     scheduled := scheduled s |}.

Definition setSessions (v : list Session) (s : State) : State :=
  {| streamAbort := streamAbort s; audioCtx := audioCtx s;
     nextStart := nextStart s; streamLog := streamLog s;
     streamStatus := streamStatus s; streamTiming := streamTiming s;
     created := created s; controllers := controllers s;
     aborted := aborted s; sessions := v; pending := pending s;
     scheduled := scheduled s |}.

Definition setPending (v : list PendingDecode) (s : State) : State :=
  {| streamAbort := streamAbort s; audioCtx := audioCtx s;
     nextStart := nextStart s; streamLog := streamLog s;
     streamStatus := streamStatus s; streamTiming := streamTiming s;
     created := created s; controllers := controllers s;
     aborted := aborted s; sessions := sessions s; pending := v;
     scheduled := scheduled s |}.

Definition setScheduled (v : list Playback) (s : State) : State :=
  {| streamAbort := streamAbort s; audioCtx := audioCtx s;
     nextStart := nextStart s; streamLog := streamLog s;
     streamStatus := streamStatus s; streamTiming := streamTiming s;
     created := created s; controllers := controllers s;
     aborted := aborted s; sessions := sessions s; pending := pending s;
     scheduled := v |}.

(** [setLog(el, text)] and [appendLog(el, text)] on [streamLog]. *)
Definition setLog (text : jsstring) (s : State) : State :=
  setStreamLog text s.

Definition appendLog (text : jsstring) (s : State) : State :=
  setStreamLog (streamLog s ++ text) s.

Definition abort (c : nat) (s : State) : State :=
  setAborted (c :: aborted s) s.

Fixpoint findSession (sid : nat) (l : list Session) : option Session :=
  match l with
  | [] => None
  | x :: l' => if (controller x =? sid)%nat then Some x else findSession sid l'
  end.

(** [firstChunkTime = t] in the closure of session [sid]. *)
Fixpoint setFirstChunkTime (sid : nat) (t : Q) (l : list Session)
  : list Session :=
  match l with
  | [] => []
  | x :: l' =>
      if (controller x =? sid)%nat
      then {| controller := controller x; start := start x;
              firstChunkTime := Some t |} :: l'
      else x :: setFirstChunkTime sid t l'
  end.

(** [!firstChunkTime]: [null] and [0] are falsy. *)
Definition noFirstChunkTime (t : option Q) : bool :=
  match t with
  | None => true
  | Some q => Qeq_bool q 0
  end.

(** The same [ensureAudioContext] as in the component. *)
Definition ensureAudioContext (fresh : ContextState) (s : State) : State :=
  let s1 :=
    match audioCtx s with
    | None =>
        setCreated (S (created s))
          (setAudioCtx
             (Some {| contextId := created s; contextState := fresh |}) s)
    | Some _ => s
    end in
  match audioCtx s1 with
  | Some ctx =>
      match contextState ctx with
      | ctxSuspended => setAudioCtx (Some (resume ctx)) s1
      | _ => s1
      end
  | None => s1
  end.

(**
<<
const scheduleBuffer = (buffer) => {
  if (!state.audioCtx) return;
  const source = state.audioCtx.createBufferSource();
  source.buffer = buffer;
  source.connect(state.audioCtx.destination);
  const startAt = Math.max(state.nextStart, state.audioCtx.currentTime + 0.05);
  source.start(startAt);
  state.nextStart = startAt + buffer.duration;
};
>> *)
Definition scheduleBuffer (buffer : AudioBuffer) (currentTime : Q) (s : State)
  : State :=
  match audioCtx s with
  | None => s
  | Some ctx =>
      let startAt := Qmax (nextStart s) (currentTime + (5 # 100)) in
      let source := {| played := buffer; startAt := startAt;
                       envelope := [] |} in
      setNextStart (startAt + duration buffer)
        (setScheduled (scheduled s ++ [source]) s)
  end.

(**
<<
const stopStream = () => {
  if (state.streamAbort) {
    state.streamAbort.abort();
    state.streamAbort = null;
  }
  streamStatus.textContent = "Stopped.";
};
>> *)
Definition stopStream (s : State) : State :=
  let s1 := match streamAbort s with
            | Some c => setStreamAbort None (abort c s)
            | None => s
            end in
  setStreamStatus (lit "Stopped.") s1.

(** The click handler of [streamBtn], up to the call of [fetch].
    [inferProfile] and [inferText] are the values of the two inputs.
<<
  const profile = document.getElementById("inferProfile").value.trim();
  const text = document.getElementById("inferText").value.trim();
  if (!profile || !text) {
    streamStatus.textContent = "Provide profile name and text.";
    return;
  }
  streamStatus.textContent = "Streaming...";
  streamTiming.textContent = "";
  setLog(streamLog, "");
  await ensureAudioContext();
  state.nextStart = state.audioCtx.currentTime + 0.1;
  ...
  const controller = new AbortController();
  state.streamAbort = controller;
  const start = performance.now();
  let firstChunkTime = null;
>> *)
Definition streamClick (inferProfile inferText : jsstring)
    (fresh : ContextState) (currentTime now : Q) (s : State) : State :=
  let profile := trim inferProfile in
  let text := trim inferText in
  if negb (truthy profile) || negb (truthy text)
  then setStreamStatus (lit "Provide profile name and text.") s
  else
    let s1 := setLog [] (setStreamTiming []
                (setStreamStatus (lit "Streaming...") s)) in
    let s2 := ensureAudioContext fresh s1 in
    let s3 := setNextStart (currentTime + (1 # 10)) s2 in
    let controller := controllers s3 in
    let s4 := setStreamAbort (Some controller)
                (setControllers (S controller) s3) in
    setSessions ({| controller := controller; start := now;
                    firstChunkTime := None |} :: sessions s4) s4.

(** The [catch] inside the line handler:
<<
      } catch (err) {
        appendLog(streamLog, `Parse error: ${err}\n`);
      }
>> *)
Definition caught `{Host} (err : JsError) (s : State) : State :=
  appendLog (lit "Parse error: " ++ errorText err ++ [newline]) s.

(** The line handler up to its [await]:
<<
      try {
        const data = JSON.parse(line);
        if (data.event === "done") {
          const totalMs = (performance.now() - start).toFixed(0);
          streamTiming.textContent = `Total: ${totalMs} ms`;
          streamStatus.textContent = "Done.";
          return;
        }
        if (!data.audio_base64) return;
        if (!firstChunkTime) {
          firstChunkTime = performance.now() - start;
          streamTiming.textContent = `First audio: ${firstChunkTime.toFixed(0)} ms`;
        }
        const arrayBuffer = base64ToArrayBuffer(data.audio_base64);
        const buffer = await state.audioCtx.decodeAudioData(arrayBuffer);
>> *)
Definition onDone `{Host} (session : Session) (now : Q) (s : State) : State :=
  let totalMs := toFixed (now - start session) 0 in
  setStreamStatus (lit "Done.")
    (setStreamTiming (lit "Total: " ++ totalMs ++ lit " ms") s).

Definition onAudio `{Host} (data : json) (payload : json) (session : Session)
    (now : Q) (s : State) : State :=
  let sid := controller session in
  let s1 :=
    if noFirstChunkTime (firstChunkTime session) then
      let t := now - start session in
      setStreamTiming (lit "First audio: " ++ toFixed t 0 ++ lit " ms")
        (setSessions (setFirstChunkTime sid t (sessions s)) s)
    else s in
  match atob payload with
  | None => caught InvalidCharacterError s1
  | Some binary =>
      match audioCtx s1 with
      | None => caught TypeError s1
      | Some _ =>
          setPending (pending s1 ++
                      [{| decodeSession := sid; decodeData := data;
                          decodeBytes := toBytes binary |}]) s1
      end
  end.

Definition onStreamLine `{Host} (sid : nat) (now : Q) (line : jsstring)
    (s : State) : State :=
  match findSession sid (sessions s) with
  | None => s
  | Some session =>
      match JSON_parse line with
      | None => caught SyntaxError s
      | Some data =>
          match member data "event" with
          | inl e => caught e s
          | inr event =>
              if isDone event then onDone session now s
              else
                match member data "audio_base64" with
                | inl e => caught e s
                | inr None => s
                | inr (Some payload) =>
                    if negb (truthyValue (Some payload)) then s
                    else onAudio data payload session now s
                end
          end
      end
  end.

(** The rest of the [try] block, run when the [k]-th pending
    [decodeAudioData] resolves:
<<
        scheduleBuffer(buffer);
        appendLog(streamLog, `Chunk ${data.chunk_index} (${buffer.duration.toFixed(2)}s)\n`);
>> *)
Definition onDecoded `{Host} (k : nat) (buffer : AudioBuffer) (currentTime : Q)
    (s : State) : State :=
  match nth_error (pending s) k with
  | None => s
  | Some p =>
      let s1 := setPending (removeNth k (pending s)) s in
      let s2 := scheduleBuffer buffer currentTime s1 in
      let chunkIndex := match member (decodeData p) "chunk_index" with
                        | inr v => v
                        | inl _ => None
                        end in
      appendLog (lit "Chunk " ++ valueText chunkIndex ++ lit " (" ++
                 toFixed (duration buffer) 2 ++ lit "s)" ++ [newline]) s2
  end.

(** The [k]-th pending [decodeAudioData] rejects inside the [try]. *)
Definition onDecodeFailed `{Host} (k : nat) (s : State) : State :=
  match nth_error (pending s) k with
  | None => s
  | Some _ => caught EncodingError (setPending (removeNth k (pending s)) s)
  end.

(** The outer [catch] of the click handler:
<<
    if (err.name !== "AbortError") {
      streamStatus.textContent = `Error: ${err}`;
    }
>> *)
Definition onStreamError `{Host} (err : JsError) (s : State) : State :=
  if isAbortError err then s
  else setStreamStatus (lit "Error: " ++ errorText err) s.

Inductive Event : Type :=
| Click (inferProfile inferText : jsstring) (fresh : ContextState)
        (currentTime now : Q)                  (* click on [streamBtn] *)
| Line (sid : nat) (now : Q) (line : jsstring)
| Decoded (k : nat) (buffer : AudioBuffer) (currentTime : Q)
| DecodeFailed (k : nat)
| StreamError (err : JsError)
| Stop.                                         (* click on [stopBtn] *)

Definition step `{Host} (s : State) (e : Event) : State :=
  match e with
  | Click inferProfile inferText fresh currentTime now =>
      streamClick inferProfile inferText fresh currentTime now s
  | Line sid now line => onStreamLine sid now line s
  | Decoded k buffer currentTime => onDecoded k buffer currentTime s
  | DecodeFailed k => onDecodeFailed k s
  | StreamError err => onStreamError err s
  | Stop => stopStream s
  end.

Definition run `{Host} (s : State) (events : list Event) : State :=
  fold_left step events s.

Definition scheduleAll (chunks : list (AudioBuffer * Q)) (s : State) : State :=
  fold_left (fun s c => scheduleBuffer (fst c) (snd c) s) chunks s.

End Legacy.

(* ===================================================================== *)
(** ** Vocabulary of the statements *)
(* ===================================================================== *)

(** Consecutive playbacks follow each other with the gap [overlap]: each
    starts where the one before ends, minus [overlap]. *)
Fixpoint chained (overlap : Q) (l : list Playback) : Prop :=
  match l with
  | p :: (q :: _) as rest =>
      startAt q == startAt p + duration (played p) - overlap /\
      chained overlap rest
  | _ => True
  end.

(** Each chunk of the list finds the schedule ahead of the clock floor:
    [currentTime + 0.05 <= nextStartTime] when it is scheduled. *)
Fixpoint pastFloor (chunks : list (AudioBuffer * Q)) (w : React.World)
  : Prop :=
  match chunks with
  | [] => True
  | (buffer, currentTime) :: rest =>
      currentTime + React.safetyMargin <= React.nextStartTimeRef w /\
      pastFloor rest (React.scheduleBuffer buffer currentTime w)
  end.

Fixpoint pastFloorLegacy (chunks : list (AudioBuffer * Q)) (s : Legacy.State)
  : Prop :=
  match chunks with
  | [] => True
  | (buffer, currentTime) :: rest =>
      currentTime + (5 # 100) <= Legacy.nextStart s /\
      pastFloorLegacy rest (Legacy.scheduleBuffer buffer currentTime s)
  end.

(* ===================================================================== *)
(** ** A concrete platform, for examples *)
(* ===================================================================== *)

Module Utf8.

(** The UTF-8 decoder of the Encoding standard, as [TextDecoder] runs it
    with [fatal: false] and [ignoreBOM: false]. *)
Record State : Type := {
  codePoint : N;
  bytesSeen : N;
  bytesNeeded : N;
  lowerBoundary : N;
  upperBoundary : N;
  bomSeen : bool
}.

Definition reset (bom : bool) : State :=
  {| codePoint := 0; bytesSeen := 0; bytesNeeded := 0;
     lowerBoundary := 128; upperBoundary := 191; bomSeen := bom |}.

Definition lead (needed cp lower upper : N) (st : State) : State :=
  {| codePoint := cp; bytesSeen := 0; bytesNeeded := needed;
     lowerBoundary := lower; upperBoundary := upper; bomSeen := bomSeen st |}.

Inductive Result : Type :=
| Continue
| Scalar (cp : N)
| Malformed (restoreByte : bool).

(** The handler of the decoder, for one byte. *)
Definition handler (st : State) (b : N) : State * Result :=
  (if bytesNeeded st =? 0 then
     if b <=? 127 then (st, Scalar b)
     else if (194 <=? b) && (b <=? 223) then
       (lead 1 (N.land b 31) 128 191 st, Continue)
     else if (224 <=? b) && (b <=? 239) then
       (lead 2 (N.land b 15)
          (if b =? 224 then 160 else 128)
          (if b =? 237 then 159 else 191) st, Continue)
     else if (240 <=? b) && (b <=? 244) then
       (lead 3 (N.land b 7)
          (if b =? 240 then 144 else 128)
          (if b =? 244 then 143 else 191) st, Continue)
     else (st, Malformed false)
   else if negb ((lowerBoundary st <=? b) && (b <=? upperBoundary st)) then
     (reset (bomSeen st), Malformed true)
   else
     let cp := N.lor (N.shiftl (codePoint st) 6) (N.land b 63) in
     let seen := bytesSeen st + 1 in
     if seen =? bytesNeeded st then (reset (bomSeen st), Scalar cp)
     else ({| codePoint := cp; bytesSeen := seen;
              bytesNeeded := bytesNeeded st;
              lowerBoundary := 128; upperBoundary := 191;
              bomSeen := bomSeen st |}, Continue))%N.

(** A scalar value as UTF-16 code units. *)
Definition utf16 (cp : N) : jsstring :=
  (if cp <? 65536 then [cp]
   else let c := cp - 65536 in
        [55296 + N.shiftr c 10; 56320 + N.land c 1023])%N.

(** Output of one scalar value; a byte order mark in first position is
    dropped. *)
Definition emit (st : State) (cp : N) : State * jsstring :=
  let st' := {| codePoint := codePoint st; bytesSeen := bytesSeen st;
                bytesNeeded := bytesNeeded st;
                lowerBoundary := lowerBoundary st;
                upperBoundary := upperBoundary st; bomSeen := true |} in
  if negb (bomSeen st) && (cp =? 65279)%N then (st', [])
  else (st', utf16 cp).

Definition replacement : N := 65533.

Definition output (st : State) (r : Result) : State * jsstring :=
  match r with
  | Continue => (st, [])
  | Scalar cp => emit st cp
  | Malformed _ => emit st replacement
  end.

Definition step (st : State) (b : byte) : State * jsstring :=
  let n := Byte.to_N b in
  let (st1, r1) := handler st n in
  let (st2, out1) := output st1 r1 in
  match r1 with
  | Malformed true =>
      (* the byte is put back and read again *)
      let (st3, r2) := handler st2 n in
      let (st4, out2) := output st3 r2 in
      (st4, out1 ++ out2)
  | _ => (st2, out1)
  end.

#[export] Instance decoder : TextDecoder := {|
  decoderState := State;
  decoderInit := reset false;
  decodeByte := step
|}.

(** The UTF-8 bytes of an ASCII literal. *)
Definition ascii (s : string) : list byte :=
  map byte_of_ascii (list_ascii_of_string s).

End Utf8.

Module Fixture.

(** A stand-in for the browser that knows the lines of the examples. *)

Definition quote : jsstring := [34%N].

Definition quoted (s : string) : jsstring := quote ++ lit s ++ quote.

(** [{"event":"done","inference_ms":900}] *)
Definition doneLine : jsstring :=
  lit "{" ++ quoted "event" ++ lit ":" ++ quoted "done" ++ lit "," ++
  quoted "inference_ms" ++ lit ":900}".

Definition doneData : json :=
  JObject [(lit "event", JString (lit "done"));
           (lit "inference_ms", JNumber 900)].

(** [{"event":"done"}] *)
Definition bareDoneLine : jsstring :=
  lit "{" ++ quoted "event" ++ lit ":" ++ quoted "done" ++ lit "}".

Definition bareDoneData : json :=
  JObject [(lit "event", JString (lit "done"))].

(** [{"chunk_index":0,"audio_base64":"UklGRg=="}] *)
Definition audioLine : jsstring :=
  lit "{" ++ quoted "chunk_index" ++ lit ":0," ++
  quoted "audio_base64" ++ lit ":" ++ quoted "UklGRg==" ++ lit "}".

Definition audioData : json :=
  JObject [(lit "chunk_index", JNumber 0);
           (lit "audio_base64", JString (lit "UklGRg=="))].

(** [{"audio_base64":"<invalid>"}] *)
Definition badAudioLine : jsstring :=
  lit "{" ++ quoted "audio_base64" ++ lit ":" ++ quoted "<invalid>" ++ lit "}".

Definition badAudioData : json :=
  JObject [(lit "audio_base64", JString (lit "<invalid>"))].

(** [{}] *)
Definition emptyObjectLine : jsstring := lit "{}".

(** [{"status":"warming up"}] *)
Definition statusLine : jsstring :=
  lit "{" ++ quoted "status" ++ lit ":" ++ quoted "warming up" ++ lit "}".

Definition statusData : json :=
  JObject [(lit "status", JString (lit "warming up"))].

(** A progress message, not JSON. *)
Definition progressLine : jsstring := lit "Loading model...".

Definition parseTable : list (jsstring * json) :=
  [ (doneLine, doneData); (bareDoneLine, bareDoneData);
    (audioLine, audioData); (badAudioLine, badAudioData);
    (emptyObjectLine, JObject []); (statusLine, statusData);
    (lit "null", JNull) ].

(** Decimal digits of a natural number. *)
Fixpoint digits (fuel : nat) (n : N) (acc : jsstring) : jsstring :=
  match fuel with
  | O => acc
  | S fuel' =>
      let acc' := (48 + N.modulo n 10)%N :: acc in
      if (n <? 10)%N then acc' else digits fuel' (n / 10)%N acc'
  end.

Definition decimal (n : N) : jsstring := digits 400 n [].

(** [n] written with at least [width] digits. *)
Definition padded (width : nat) (n : N) : jsstring :=
  let text := decimal n in
  repeat 48%N (width - List.length text) ++ text.

(** [x.toFixed(places)]: [x] times [10^places] rounded to the nearest
    integer, the larger one at a tie, written with the point [places]
    digits from the end. *)
Definition fixed (x : Q) (places : nat) : jsstring :=
  let scale := (10 ^ Z.of_nat places)%Z in
  let size := if Qle_bool 0 x then x else (- x)%Q in
  let n := Z.to_N (Math_round (size * inject_Z scale)) in
  let whole := (n / Z.to_N scale)%N in
  let part := (n mod Z.to_N scale)%N in
  (if Qle_bool 0 x then [] else lit "-") ++
  decimal whole ++
  match places with
  | O => []
  | S _ => lit "." ++ padded places part
  end.

(** The text of a number that is an integer below [2^53] in absolute
    value, of an infinity and of [NaN]. Larger integers, which a browser
    writes with the fewest digits that give the same double, do not
    occur in the examples. *)
Definition numeral (x : Double.t) : jsstring :=
  match x with
  | Double.Finite z =>
      (if (z <? 0)%Z then lit "-" else []) ++ decimal (Z.to_N (Z.abs z))
  | Double.Infinity negative =>
      (if negative then lit "-" else []) ++ lit "Infinity"
  | Double.NaN => lit "NaN"
  end.

(** The text of each error as a Chromium browser words it for the lines
    of the examples. *)
Definition errorMessage (e : JsError) : jsstring :=
  match e with
  | SyntaxError =>
      lit "SyntaxError: Unexpected token 'L', " ++ quote ++
      lit "Loading model..." ++ quote ++ lit " is not valid JSON"
  | TypeError =>
      lit "TypeError: Cannot read properties of null (reading 'event')"
  | InvalidCharacterError =>
      lit "InvalidCharacterError: Failed to execute 'atob' on 'Window': The string to be decoded is not correctly encoded."
  | EncodingError => lit "EncodingError: Unable to decode audio data"
  | InvalidStateError =>
      lit "InvalidStateError: Cannot close a closed AudioContext."
  | AbortError => lit "AbortError: signal is aborted without reason"
  | NetworkError => lit "TypeError: Failed to fetch"
  | HttpError body => lit "Error: " ++ body
  end.

#[export] Instance host : Host := {|
  JSON_parse := fun line => field line parseTable;
  atob := fun v =>
    match v with
    | JString s =>
        if jsstring_eqb s (lit "UklGRg==") then Some (lit "RIFF") else None
    | _ => None
    end;
  toFixed := fixed;
  valueText := fun v =>
    match v with
    | Some (JNumber q) => decimal (Z.to_N (Qfloor q))
    | _ => lit "undefined"
    end;
  numberText := numeral;
  errorText := errorMessage
|}.

Definition liveContext : AudioContext :=
  {| contextId := 0; contextState := ctxRunning |}.

(** The bytes of a line made of ASCII code units, with its newline. *)
Definition bytesOf (line : jsstring) : list byte :=
  map (fun c => match Byte.of_N c with Some b => b | None => x00 end)
      (line ++ [newline]).

(** A click on "Stream Voice" with a profile and a text, audio clock and
    wall clock at zero. *)
Definition startEvent : React.Event :=
  React.Start (lit "alvin") (lit "hello") ctxRunning 0 0.

(** The component after the click. *)
Definition started : React.World := React.run React.initial [startEvent].

(** The component after the click and one audio line: one decode is
    pending. *)
Definition streaming : React.World :=
  React.run React.initial [startEvent; React.Line 0 120 audioLine].

(** The same two moments in the legacy script. *)
Definition clickEvent : Legacy.Event :=
  Legacy.Click (lit "alvin") (lit "hello") ctxRunning 0 0.

Definition legacyStarted : Legacy.State :=
  Legacy.run Legacy.initial [clickEvent].

Definition legacyStreaming : Legacy.State :=
  Legacy.run Legacy.initial [clickEvent; Legacy.Line 0 120 audioLine].

End Fixture.

(** The length of the fade-in of a playback: from the first automation
    event to the end of the first ramp. *)
Definition fadeIn (p : Playback) : option Q :=
  match envelope p with
  | setValueAtTime _ t0 :: linearRampToValueAtTime _ t1 :: _ => Some (t1 - t0)
  | _ => None
  end.

(** The length of its fade-out: from the hold point to the end of the
    last ramp. *)
Definition fadeOut (p : Playback) : option Q :=
  match envelope p with
  | [_; _; setValueAtTime _ t2; linearRampToValueAtTime _ t3] => Some (t3 - t2)
  | _ => None
  end.

(** Two worlds with the same audio side: context, schedule, started
    sources, and the same log panels. *)
Definition sameAudio (w w' : React.World) : Prop :=
  React.audioContextRef w' = React.audioContextRef w /\
  React.nextStartTimeRef w' = React.nextStartTimeRef w /\
  React.scheduled w' = React.scheduled w /\
  React.logPanels w' = React.logPanels w.

(** Events other than a session start. *)
Definition noStart (events : list React.Event) : Prop :=
  Forall (fun e => React.isStart e = false) events.

(** Events that neither start nor stop a session, and whose decoded
    chunks last at least [floor] seconds. *)
Definition withinSession (floor : Q) (e : React.Event) : Prop :=
  React.isStart e = false /\ React.isStop e = false /\
  forall buffer, React.decodedBuffer e = Some buffer -> floor <= duration buffer.

(** Events that neither schedule, start nor stop: a stream line, a
    rejected decode, a stream error. *)
Definition isQuiet (e : React.Event) : bool :=
  match e with
  | React.Line _ _ _ | React.DecodeFailed _ | React.StreamError _ => true
  | _ => false
  end.

(** Events of the stream of session [sid] that schedule nothing: one of
    its lines, a decode that rejects, an error of a stream. *)
Definition ofSession (sid : nat) (e : React.Event) : Prop :=
  match e with
  | React.Line sid' _ _ => sid' = sid
  | React.DecodeFailed _ | React.StreamError _ => True
  | _ => False
  end.

(** Events that are neither a start nor any part of a stop. *)
Definition duringSession (e : React.Event) : Prop :=
  React.isStart e = false /\ React.isStop e = false.

(** The sessions whose request has not been aborted. *)
Definition liveSessions (w : React.World) : list nat :=
  filter (fun c => negb (existsb (Nat.eqb c) (React.aborted w)))
         (map React.controller (React.sessions w)).

Definition liveSessionsLegacy (s : Legacy.State) : list nat :=
  filter (fun c => negb (existsb (Nat.eqb c) (Legacy.aborted s)))
         (map Legacy.controller (Legacy.sessions s)).

(** Every session is the current one or has been aborted. *)
Definition oneLive (w : React.World) : Prop :=
  forall c, In c (map React.controller (React.sessions w)) ->
            React.streamAbortRef w = Some c \/ In c (React.aborted w).

(* ===================================================================== *)
(** ** Further vocabulary: the reader *)
(* ===================================================================== *)

(** A text cut at its newlines: the segments that a newline ends, in
    order, and the tail after the last newline. *)
Fixpoint splitAtNewlines (text : jsstring) : list jsstring * jsstring :=
  match text with
  | [] => ([], [])
  | c :: rest =>
      let (segments, tail) := splitAtNewlines rest in
      if (c =? newline)%N then ([] :: segments, tail)
      else match segments with
           | [] => ([], c :: tail)
           | first :: others => ((c :: first) :: others, tail)
           end
  end.

(** The text a body decodes to when read to its end. *)
Definition decodedText `{TextDecoder} (body : Body) : jsstring :=
  snd (decode decoderInit (concat (reads body))).

(** The non-empty ones among the trimmed strings of a list. *)
Definition trimmedNonEmpty (l : list jsstring) : list jsstring :=
  filter truthy (map trim l).

(** A string neither starts nor ends with a code unit that [trim]
    removes. *)
Definition isTrimmed (s : jsstring) : Prop :=
  (forall c rest, s = c :: rest -> isWhiteSpace c = false) /\
  (forall c front, s = front ++ [c] -> isWhiteSpace c = false).

(* ===================================================================== *)
(** ** Further vocabulary: the scheduler and the sessions *)
(* ===================================================================== *)

(** Consecutive playbacks overlap by at most [overlap]: each starts no
    earlier than the end of the one before minus [overlap]. *)
Fixpoint spaced (overlap : Q) (l : list Playback) : Prop :=
  match l with
  | p :: (q :: _) as rest =>
      startAt p + duration (played p) - overlap <= startAt q /\
      spaced overlap rest
  | _ => True
  end.

(** The first playback of a list, if any, starts at [bound] or later. *)
Definition startsFrom (bound : Q) (l : list Playback) : Prop :=
  match l with
  | [] => True
  | p :: _ => bound <= startAt p
  end.

(** [l] is [l'] with some of its elements left out. *)
Inductive subsequence {A : Type} : list A -> list A -> Prop :=
| subsequence_nil : subsequence [] []
| subsequence_skip x l l' : subsequence l l' -> subsequence l (x :: l')
| subsequence_take x l l' : subsequence l l' -> subsequence (x :: l) (x :: l').

(** The decodes that resolve in a list of events: the buffer each gives
    and the clock of the audio context at that moment. *)
Definition decodes (events : list React.Event) : list (AudioBuffer * Q) :=
  flat_map (fun e => match e with
                     | React.Decoded _ buffer currentTime _ =>
                         [(buffer, currentTime)]
                     | _ => []
                     end) events.

Definition legacyDecodes (events : list Legacy.Event)
  : list (AudioBuffer * Q) :=
  flat_map (fun e => match e with
                     | Legacy.Decoded _ buffer currentTime =>
                         [(buffer, currentTime)]
                     | _ => []
                     end) events.

(** Legacy events other than a click on the stream button. *)
Definition noClick (events : list Legacy.Event) : Prop :=
  Forall (fun e => match e with
                   | Legacy.Click _ _ _ _ _ => False
                   | _ => True
                   end) events.

Definition eventTime (e : GainEvent) : Q :=
  match e with
  | setValueAtTime _ time => time
  | linearRampToValueAtTime _ time => time
  end.

Definition eventValue (e : GainEvent) : Q :=
  match e with
  | setValueAtTime value _ => value
  | linearRampToValueAtTime value _ => value
  end.

Fixpoint nondecreasing (l : list Q) : Prop :=
  match l with
  | x :: (y :: _) as rest => x <= y /\ nondecreasing rest
  | _ => True
  end.

(** Legacy events inside a session whose decoded chunks have a duration
    that is not negative. *)
Definition legacyWithinSession (e : Legacy.Event) : Prop :=
  match e with
  | Legacy.Click _ _ _ _ _ => False
  | Legacy.Decoded _ buffer _ => 0 <= duration buffer
  | _ => True
  end.

(** Every stream error of the list is the [AbortError] of an abort. *)
Definition onlyAborts (events : list React.Event) : Prop :=
  Forall (fun e => match e with
                   | React.StreamError err => isAbortError err = true
                   | _ => True
                   end) events.

(* ===================================================================== *)
(** ** Text matching *)
(* ===================================================================== *)

Module Text.

(** [\d] of a regular expression without the [u] flag: an ASCII digit. *)
Definition isDigit (c : codeunit) : bool := ((48 <=? c) && (c <=? 57))%N.

Fixpoint isPrefix (p s : jsstring) : bool :=
  match p, s with
  | [], _ => true
  | x :: p', y :: s' => (x =? y)%N && isPrefix p' s'
  | _ :: _, [] => false
  end.

(** [s.includes(p)]. *)
Fixpoint includes (s p : jsstring) : bool :=
  isPrefix p s ||
  match s with
  | [] => false
  | _ :: s' => includes s' p
  end.

(** The two regular expressions of the component are sequences of
    literal text and groups [(\d+)]; every group is followed by a
    literal that starts with a character that is not a digit, or ends
    the expression, so the group always takes the longest run of digits
    and nothing is ever given back. *)
Inductive Item : Type :=
| Literal (text : string)
| Digits.

(** The longest run of digits at the start of a string, and the rest. *)
Fixpoint takeDigits (s : jsstring) : jsstring * jsstring :=
  match s with
  | c :: s' =>
      if isDigit c then let (ds, rest) := takeDigits s' in (c :: ds, rest)
      else ([], s)
  | [] => ([], [])
  end.

(** A match of the pattern that starts at the start of [s]: the text of
    the groups. *)
Fixpoint matchAt (pattern : list Item) (s : jsstring) : option (list jsstring) :=
  match pattern with
  | [] => Some []
  | Literal text :: pattern' =>
      if isPrefix (lit text) s
      then matchAt pattern' (skipn (length (lit text)) s)
      else None
  | Digits :: pattern' =>
      match takeDigits s with
      | ([], _) => None
      | (ds, rest) =>
          match matchAt pattern' rest with
          | Some groups => Some (ds :: groups)
          | None => None
          end
      end
  end.

(** [s.match(pattern)] for a pattern without flags: the leftmost match,
    or [null]. *)
Fixpoint search (pattern : list Item) (s : jsstring) : option (list jsstring) :=
  match matchAt pattern s with
  | Some groups => Some groups
  | None =>
      match s with
      | [] => None
      | _ :: s' => search pattern s'
      end
  end.

(** The integer that a run of ASCII digits writes in base ten. *)
Definition digitsValue (digits : jsstring) : Z :=
  fold_left (fun n c => (10 * n + (Z.of_N c - 48))%Z) digits 0%Z.

(** [Number(digits)] for a run of ASCII digits: the double nearest to
    the integer written, as the engines of the browsers compute it
    (ECMA-262 lets an engine look at the first twenty significant
    digits only). *)
Definition Number (digits : jsstring) : Double.t :=
  Double.round (digitsValue digits).

(** [parts.filter(Boolean).join(' ')]. *)
Fixpoint join (parts : list jsstring) : jsstring :=
  match parts with
  | [] => []
  | [p] => p
  | p :: rest => p ++ lit " " ++ join rest
  end.

End Text.

(* ===================================================================== *)
(** ** The steps of the React component *)
(* ===================================================================== *)

Module Workflow.

(** [Profile] and [ProfileInfo] of [types.ts]; the [name] of a
    [ProfileInfo] is [infoName] here. *)
Record Profile : Type := {
  name : jsstring;
  lastUploadedFile : option jsstring;
  fileSize : option jsstring
}.

Record ProfileInfo : Type := {
  infoName : jsstring;
  has_data : bool;
  raw_files : Z;
  processed_wavs : Z;
  has_profile : bool;
  best_checkpoint : option jsstring;
  latest_checkpoint : option jsstring
}.

Inductive ProfilesStatus : Type := profilesIdle | profilesLoading | profilesError.

(** [stepStatuses]. *)
Record StepStatuses : Type := {
  upload : React.StepStatus;
  preprocess : React.StepStatus;
  train : React.StepStatus;
  inference : React.StepStatus
}.

(** [LogEntry] of [types.ts]. *)
Record LogEntry : Type := {
  id : jsstring;
  timestamp : jsstring;
  level : React.LogLevel;
  message : jsstring
}.

(** What [createLog] takes from the environment: the random id and the
    time of day. *)
Record Stamp : Type := { stampId : jsstring; stampTime : jsstring }.

Record PreprocessStats : Type := {
  statsDuration : jsstring;
  segmentsKept : Double.t;
  segmentsFiltered : Double.t;
  avgClipLength : jsstring;
  sampleRate : jsstring
}.

Record TrainStats : Type := {
  currentEpoch : Double.t;
  totalEpochs : Double.t;
  steps : Double.t;
  eta : jsstring;
  gpuMemory : jsstring;
  bestCheckpoint : jsstring
}.

(** A file picked in the upload input. *)
Record File : Type := { fileName : jsstring; fileBytes : Q }.

(** The state of the component that the first three steps and the
    navigation use. *)
Record State : Type := {
  activeStep : Z;
  profile : Profile;
  lastUploadedFilename : option jsstring;
  profiles : list ProfileInfo;
  profilesStatus : ProfilesStatus;
  stepStatuses : StepStatuses;
  preprocessLogs : list LogEntry;
  trainLogs : list LogEntry;
  preprocessStats : option PreprocessStats;
  trainStats : option TrainStats
}.

Definition initial : State := {|
  activeStep := 1;
  profile := {| name := []; lastUploadedFile := None; fileSize := None |};
  lastUploadedFilename := None;
  profiles := [];
  profilesStatus := profilesIdle;
  stepStatuses := {| upload := React.idle; preprocess := React.idle;
                     train := React.idle; inference := React.idle |};
  preprocessLogs := []; trainLogs := [];
  preprocessStats := None; trainStats := None |}.

(** *** Field updates *)

Definition setActiveStep (v : Z) (s : State) : State :=
  {| activeStep := v; profile := profile s;
     lastUploadedFilename := lastUploadedFilename s;
     profiles := profiles s; profilesStatus := profilesStatus s;
     stepStatuses := stepStatuses s; preprocessLogs := preprocessLogs s;
     trainLogs := trainLogs s; preprocessStats := preprocessStats s;
     trainStats := trainStats s |}.

Definition setProfile (v : Profile) (s : State) : State :=
  {| activeStep := activeStep s; profile := v;
     lastUploadedFilename := lastUploadedFilename s;
     profiles := profiles s; profilesStatus := profilesStatus s;
     stepStatuses := stepStatuses s; preprocessLogs := preprocessLogs s;
     trainLogs := trainLogs s; preprocessStats := preprocessStats s;
     trainStats := trainStats s |}.

Definition setLastUploadedFilename (v : option jsstring) (s : State) : State :=
  {| activeStep := activeStep s; profile := profile s;
     lastUploadedFilename := v; profiles := profiles s;
     profilesStatus := profilesStatus s; stepStatuses := stepStatuses s;
     preprocessLogs := preprocessLogs s; trainLogs := trainLogs s;
     preprocessStats := preprocessStats s; trainStats := trainStats s |}.

Definition setProfiles (v : list ProfileInfo) (s : State) : State :=
  {| activeStep := activeStep s; profile := profile s;
     lastUploadedFilename := lastUploadedFilename s; profiles := v;
     profilesStatus := profilesStatus s; stepStatuses := stepStatuses s;
     preprocessLogs := preprocessLogs s; trainLogs := trainLogs s;
     preprocessStats := preprocessStats s; trainStats := trainStats s |}.

Definition setProfilesStatus (v : ProfilesStatus) (s : State) : State :=
  {| activeStep := activeStep s; profile := profile s;
     lastUploadedFilename := lastUploadedFilename s;
     profiles := profiles s; profilesStatus := v;
     stepStatuses := stepStatuses s; preprocessLogs := preprocessLogs s;
     trainLogs := trainLogs s; preprocessStats := preprocessStats s;
     trainStats := trainStats s |}.

Definition setStepStatuses (v : StepStatuses) (s : State) : State :=
  {| activeStep := activeStep s; profile := profile s;
     lastUploadedFilename := lastUploadedFilename s;
     profiles := profiles s; profilesStatus := profilesStatus s;
     stepStatuses := v; preprocessLogs := preprocessLogs s;
     trainLogs := trainLogs s; preprocessStats := preprocessStats s;
     trainStats := trainStats s |}.

Definition setPreprocessLogs (v : list LogEntry) (s : State) : State :=
  {| activeStep := activeStep s; profile := profile s;
     lastUploadedFilename := lastUploadedFilename s;
     profiles := profiles s; profilesStatus := profilesStatus s;
     stepStatuses := stepStatuses s; preprocessLogs := v;
     trainLogs := trainLogs s; preprocessStats := preprocessStats s;
     trainStats := trainStats s |}.

Definition setTrainLogs (v : list LogEntry) (s : State) : State :=
  {| activeStep := activeStep s; profile := profile s;
     lastUploadedFilename := lastUploadedFilename s;
     profiles := profiles s; profilesStatus := profilesStatus s;
     stepStatuses := stepStatuses s; preprocessLogs := preprocessLogs s;
     trainLogs := v; preprocessStats := preprocessStats s;
     trainStats := trainStats s |}.

Definition setPreprocessStats (v : option PreprocessStats) (s : State) : State :=
  {| activeStep := activeStep s; profile := profile s;
     lastUploadedFilename := lastUploadedFilename s;
     profiles := profiles s; profilesStatus := profilesStatus s;
     stepStatuses := stepStatuses s; preprocessLogs := preprocessLogs s;
     trainLogs := trainLogs s; preprocessStats := v;
     trainStats := trainStats s |}.

Definition setTrainStats (v : option TrainStats) (s : State) : State :=
  {| activeStep := activeStep s; profile := profile s;
     lastUploadedFilename := lastUploadedFilename s;
     profiles := profiles s; profilesStatus := profilesStatus s;
     stepStatuses := stepStatuses s; preprocessLogs := preprocessLogs s;
     trainLogs := trainLogs s; preprocessStats := preprocessStats s;
     trainStats := v |}.

Definition setUploadStatus (v : React.StepStatus) (s : State) : State :=
  setStepStatuses
    {| upload := v; preprocess := preprocess (stepStatuses s);
       train := train (stepStatuses s);
       inference := inference (stepStatuses s) |} s.

Definition setPreprocessStatus (v : React.StepStatus) (s : State) : State :=
  setStepStatuses
    {| upload := upload (stepStatuses s); preprocess := v;
       train := train (stepStatuses s);
       inference := inference (stepStatuses s) |} s.

Definition setTrainStatus (v : React.StepStatus) (s : State) : State :=
  setStepStatuses
    {| upload := upload (stepStatuses s);
       preprocess := preprocess (stepStatuses s); train := v;
       inference := inference (stepStatuses s) |} s.

Definition statusIs (a b : React.StepStatus) : bool :=
  match a, b with
  | React.idle, React.idle | React.running, React.running
  | React.done, React.done | React.error, React.error => true
  | _, _ => false
  end.

(**
<<
const createLog = (message: string, level: LogEntry['level'] = 'info'): LogEntry => ({
  id: Math.random().toString(36).slice(2, 10),
  timestamp: new Date().toLocaleTimeString([], {...}),
  level,
  message,
});
>> *)
Definition createLog (stamp : Stamp) (message : jsstring)
    (level : React.LogLevel) : LogEntry :=
  {| id := stampId stamp; timestamp := stampTime stamp;
     level := level; message := message |}.

(**
<<
  const currentProfileInfo = profiles.find((item) => item.name === profile.name);
  const hasTrainedProfile = Boolean(currentProfileInfo?.has_profile);
  const hasData = Boolean(currentProfileInfo?.has_data);
>> *)
Definition currentProfileInfo (s : State) : option ProfileInfo :=
  find (fun item => jsstring_eqb (infoName item) (name (profile s)))
       (profiles s).

Definition hasTrainedProfile (s : State) : bool :=
  match currentProfileInfo s with
  | Some info => has_profile info
  | None => false
  end.

Definition hasData (s : State) : bool :=
  match currentProfileInfo s with
  | Some info => has_data info
  | None => false
  end.

(**
<<
  const canProceedTo = (step: number) => {
    if (step === 1) return true;
    if (step === 2) return Boolean(profile.name);
    if (step === 3) return stepStatuses.preprocess === 'done' || hasData;
    if (step === 4) return stepStatuses.train === 'done' || hasTrainedProfile;
    return false;
  };
>> *)
Definition canProceedTo (step : Z) (s : State) : bool :=
  if (step =? 1)%Z then true
  else if (step =? 2)%Z then truthy (name (profile s))
  else if (step =? 3)%Z then
    statusIs (preprocess (stepStatuses s)) React.done || hasData s
  else if (step =? 4)%Z then
    statusIs (train (stepStatuses s)) React.done || hasTrainedProfile s
  else false.

(** *** Loading the profiles

    [loadProfiles] up to its [fetch]; then its two ends. [listed] is
    [data.profiles] when that is an array.
<<
    setProfilesStatus('loading');
    try {
      ...
      setProfiles(Array.isArray(data.profiles) ? data.profiles : []);
      setProfilesStatus('idle');
    } catch (err) {
      setProfilesStatus('error');
    }
>> *)
Definition loadProfiles (s : State) : State :=
  setProfilesStatus profilesLoading s.

Definition onProfilesLoaded (listed : option (list ProfileInfo)) (s : State)
  : State :=
  setProfilesStatus profilesIdle
    (setProfiles (match listed with Some l => l | None => [] end) s).

Definition onProfilesFailed (s : State) : State :=
  setProfilesStatus profilesError s.

(** *** Upload

    [handleUpload(file)] up to its [fetch], then its two ends.
<<
    if (!profile.name || !file) return;
    setStepStatuses(prev => ({ ...prev, upload: 'running' }));
    ...
      setProfile(prev => ({ ...prev, lastUploadedFile: file.name,
        fileSize: `${(file.size / (1024 * 1024)).toFixed(2)} MB` }));
      setLastUploadedFilename(data.filename);
      setStepStatuses(prev => ({ ...prev, upload: 'done' }));
      setActiveStep(2);
      loadProfiles();
    } catch (err) {
      setStepStatuses(prev => ({ ...prev, upload: 'error' }));
      setPreprocessLogs([createLog(`Upload failed: ${String(err)}`, 'error')]);
    }
>> *)
Definition handleUpload (file : option File) (s : State) : State :=
  match file with
  | None => s
  | Some _ =>
      if negb (truthy (name (profile s))) then s
      else setUploadStatus React.running s
  end.

Definition onUploaded `{Host} (file : File) (filename : option jsstring)
    (s : State) : State :=
  let s1 :=
    setProfile
      {| name := name (profile s);
         lastUploadedFile := Some (fileName file);
         fileSize := Some (toFixed (fileBytes file / (1024 * 1024)) 2 ++
                           lit " MB") |} s in
  let s2 := setLastUploadedFilename filename s1 in
  let s3 := setUploadStatus React.done s2 in
  loadProfiles (setActiveStep 2 s3).

Definition onUploadFailed `{Host} (stamp : Stamp) (err : JsError) (s : State)
  : State :=
  setPreprocessLogs
    [createLog stamp (lit "Upload failed: " ++ errorText err)
       React.errorLevel]
    (setUploadStatus React.error s).

(** *** Preprocessing *)

Definition segmentsPattern : list Text.Item :=
  [Text.Literal "Segments: raw="; Text.Digits;
   Text.Literal " merged="; Text.Digits;
   Text.Literal " kept="; Text.Digits].

(** The level [createLog] is given for a streamed line. *)
Definition lineLevel (line : jsstring) : React.LogLevel :=
  if Text.includes line (lit "Error") then React.errorLevel else React.info.

Definition emDash : jsstring := [8212%N].

(**
<<
    if (!profile.name || !lastUploadedFilename) return;
    setStepStatuses(prev => ({ ...prev, preprocess: 'running' }));
    setPreprocessLogs([createLog('Pipeline starting...', 'info')]);
    setPreprocessStats(null);
>> *)
Definition startPreprocess (stamp : Stamp) (s : State) : State :=
  if negb (truthy (name (profile s))) ||
     negb (match lastUploadedFilename s with
           | Some f => truthy f
           | None => false
           end)
  then s
  else
    setPreprocessStats None
      (setPreprocessLogs
         [createLog stamp (lit "Pipeline starting...") React.info]
         (setPreprocessStatus React.running s)).

(** The callback given to [streamResponseLines]:
<<
        setPreprocessLogs(prev => [...prev, createLog(line,
          line.includes('Error') ? 'error' : 'info')]);
        const match = line.match(/Segments: raw=(\d+) merged=(\d+) kept=(\d+)/);
        if (match) {
          const raw = Number(match[1]);
          const merged = Number(match[2]);
          const kept = Number(match[3]);
          setPreprocessStats({ duration: '\u2014', segmentsKept: kept,
            segmentsFiltered: merged - kept, avgClipLength: '\u2014',
            sampleRate: '24 kHz' });
        }
>> *)
Definition onPreprocessLine (stamp : Stamp) (line : jsstring) (s : State)
  : State :=
  let s1 := setPreprocessLogs
              (preprocessLogs s ++ [createLog stamp line (lineLevel line)]) s in
  match Text.search segmentsPattern line with
  | Some [_; mergedText; keptText] =>
      let merged := Text.Number mergedText in
      let kept := Text.Number keptText in
      setPreprocessStats
        (Some {| statsDuration := emDash; segmentsKept := kept;
                 segmentsFiltered := Double.sub merged kept;
                 avgClipLength := emDash;
                 sampleRate := lit "24 kHz" |}) s1
  | _ => s1
  end.

(**
<<
      setStepStatuses(prev => ({ ...prev, preprocess: 'done' }));
      setActiveStep(3);
      loadProfiles();
    } catch (err) {
      setStepStatuses(prev => ({ ...prev, preprocess: 'error' }));
      setPreprocessLogs(prev => [...prev,
        createLog(`Preprocess failed: ${String(err)}`, 'error')]);
    }
>> *)
Definition onPreprocessed (s : State) : State :=
  loadProfiles (setActiveStep 3 (setPreprocessStatus React.done s)).

Definition onPreprocessFailed `{Host} (stamp : Stamp) (err : JsError)
    (s : State) : State :=
  let s1 := setPreprocessStatus React.error s in
  setPreprocessLogs
    (preprocessLogs s1 ++
     [createLog stamp (lit "Preprocess failed: " ++ errorText err)
        React.errorLevel]) s1.

(** *** Training *)

Definition epochPattern : list Text.Item :=
  [Text.Literal "Epoch ["; Text.Digits; Text.Literal "/"; Text.Digits;
   Text.Literal "], Step ["; Text.Digits; Text.Literal "/"; Text.Digits;
   Text.Literal "]"].

(**
<<
    if (!profile.name) return;
    setStepStatuses(prev => ({ ...prev, train: 'running' }));
    setTrainLogs([createLog('Launching trainer...', 'info')]);
    setTrainStats(null);
>> *)
Definition startTraining (stamp : Stamp) (s : State) : State :=
  if negb (truthy (name (profile s))) then s
  else
    setTrainStats None
      (setTrainLogs [createLog stamp (lit "Launching trainer...") React.info]
         (setTrainStatus React.running s)).

(** The callback given to [streamResponseLines]; [profileName] is the
    [profile.name] that [startTraining] closed over.
<<
        setTrainLogs(prev => [...prev, createLog(line,
          line.includes('Error') ? 'error' : 'info')]);
        const epochMatch = line.match(/Epoch \[(\d+)\/(\d+)\], Step \[(\d+)\/(\d+)\]/);
        if (epochMatch) {
          const currentEpoch = Number(epochMatch[1]);
          const totalEpochs = Number(epochMatch[2]);
          const step = Number(epochMatch[3]);
          setTrainStats(prev => ({
            currentEpoch,
            totalEpochs,
            steps: prev?.steps ? prev.steps + step : step,
            eta: `${Math.max(0, totalEpochs - currentEpoch)} epochs`,
            gpuMemory: 'GPU active',
            bestCheckpoint: `outputs/training/${profile.name}`,
          }));
        }
>> *)
Definition epochsLeft (total current : Double.t) : Double.t :=
  Double.max (Double.Finite 0) (Double.sub total current).

Definition onTrainLine `{Host} (profileName : jsstring) (stamp : Stamp)
    (line : jsstring) (s : State) : State :=
  let s1 := setTrainLogs
              (trainLogs s ++ [createLog stamp line (lineLevel line)]) s in
  match Text.search epochPattern line with
  | Some [currentText; totalText; stepText; _] =>
      let current := Text.Number currentText in
      let total := Text.Number totalText in
      let step := Text.Number stepText in
      setTrainStats
        (Some {| currentEpoch := current;
                 totalEpochs := total;
                 steps := match trainStats s1 with
                          | Some prev =>
                              if Double.truthy (steps prev)
                              then Double.add (steps prev) step
                              else step
                          | None => step
                          end;
                 eta := numberText (epochsLeft total current) ++
                        lit " epochs";
                 gpuMemory := lit "GPU active";
                 bestCheckpoint := lit "outputs/training/" ++ profileName |})
        s1
  | _ => s1
  end.

Definition onTrained (s : State) : State :=
  loadProfiles (setActiveStep 4 (setTrainStatus React.done s)).

Definition onTrainingFailed `{Host} (stamp : Stamp) (err : JsError)
    (s : State) : State :=
  let s1 := setTrainStatus React.error s in
  setTrainLogs
    (trainLogs s1 ++
     [createLog stamp (lit "Training failed: " ++ errorText err)
        React.errorLevel]) s1.

(** *** Navigation *)

(** A step button: [onClick={() => canProceedTo(step) && setActiveStep(step)}]. *)
Definition clickStep (step : Z) (s : State) : State :=
  if canProceedTo step s then setActiveStep step s else s.

(** "Previous", rendered when [activeStep > 1]:
    [setActiveStep(prev => prev - 1)]. *)
Definition previous (s : State) : State :=
  if (activeStep s >? 1)%Z then setActiveStep (activeStep s - 1) s else s.

(** "Next Stage", rendered when
    [canProceedTo(activeStep + 1) && activeStep < 4]:
    [setActiveStep(prev => prev + 1)]. *)
Definition next (s : State) : State :=
  if canProceedTo (activeStep s + 1) s && (activeStep s <? 4)%Z
  then setActiveStep (activeStep s + 1) s else s.

(** The name input: [setProfile(prev => ({ ...prev, name: e.target.value }))]. *)
Definition typeName (value : jsstring) (s : State) : State :=
  setProfile {| name := value;
                lastUploadedFile := lastUploadedFile (profile s);
                fileSize := fileSize (profile s) |} s.

(** A button of the list of existing profiles:
<<
                              setProfile(prev => ({ ...prev, name: item.name }));
                              setLastUploadedFilename(null);
                              setActiveStep(item.has_profile ? 4 : 2);
>> *)
Definition selectProfile (item : ProfileInfo) (s : State) : State :=
  setActiveStep (if has_profile item then 4 else 2)
    (setLastUploadedFilename None (typeName (infoName item) s)).

(** *** The steps as a transition system *)

Inductive Event : Type :=
| TypeName (value : jsstring)
| SelectProfile (item : ProfileInfo)
| ClickStep (step : Z)
| Previous
| Next
| LoadProfiles
| ProfilesLoaded (listed : option (list ProfileInfo))
| ProfilesFailed
| Upload (file : option File)
| Uploaded (file : File) (filename : option jsstring)
| UploadFailed (stamp : Stamp) (err : JsError)
| StartPreprocess (stamp : Stamp)
| PreprocessLine (stamp : Stamp) (line : jsstring)
| Preprocessed
| PreprocessFailed (stamp : Stamp) (err : JsError)
| StartTraining (stamp : Stamp)
| TrainLine (profileName : jsstring) (stamp : Stamp) (line : jsstring)
| Trained
| TrainingFailed (stamp : Stamp) (err : JsError).

Definition step `{Host} (s : State) (e : Event) : State :=
  match e with
  | TypeName value => typeName value s
  | SelectProfile item => selectProfile item s
  | ClickStep n => clickStep n s
  | Previous => previous s
  | Next => next s
  | LoadProfiles => loadProfiles s
  | ProfilesLoaded listed => onProfilesLoaded listed s
  | ProfilesFailed => onProfilesFailed s
  | Upload file => handleUpload file s
  | Uploaded file filename => onUploaded file filename s
  | UploadFailed stamp err => onUploadFailed stamp err s
  | StartPreprocess stamp => startPreprocess stamp s
  | PreprocessLine stamp line => onPreprocessLine stamp line s
  | Preprocessed => onPreprocessed s
  | PreprocessFailed stamp err => onPreprocessFailed stamp err s
  | StartTraining stamp => startTraining stamp s
  | TrainLine profileName stamp line => onTrainLine profileName stamp line s
  | Trained => onTrained s
  | TrainingFailed stamp err => onTrainingFailed stamp err s
  end.

Definition run `{Host} (s : State) (events : list Event) : State :=
  fold_left step events s.

End Workflow.

(* ===================================================================== *)
(** ** Further vocabulary: the steps *)
(* ===================================================================== *)

(** The lines of a preprocess or training stream as events, each with
    the stamp its log entry gets. *)
Definition preprocessEvents (lines : list (Workflow.Stamp * jsstring))
  : list Workflow.Event :=
  map (fun l => Workflow.PreprocessLine (fst l) (snd l)) lines.

Definition trainEvents (profileName : jsstring)
    (lines : list (Workflow.Stamp * jsstring)) : list Workflow.Event :=
  map (fun l => Workflow.TrainLine profileName (fst l) (snd l)) lines.

(** The log entries that a list of streamed lines gives. *)
Definition lineEntries (lines : list (Workflow.Stamp * jsstring))
  : list Workflow.LogEntry :=
  map (fun l => Workflow.createLog (fst l) (snd l) (Workflow.lineLevel (snd l)))
      lines.

(** What a line reports when it matches the epoch expression: current
    epoch, total epochs, step. *)
Definition epochReport (line : jsstring)
  : option (Double.t * Double.t * Double.t) :=
  match Text.search Workflow.epochPattern line with
  | Some [currentText; totalText; stepText; _] =>
      Some (Text.Number currentText, Text.Number totalText,
            Text.Number stepText)
  | _ => None
  end.

(** What a line reports when it matches the segments expression: merged
    and kept. *)
Definition segmentsReport (line : jsstring) : option (Double.t * Double.t) :=
  match Text.search Workflow.segmentsPattern line with
  | Some [_; mergedText; keptText] =>
      Some (Text.Number mergedText, Text.Number keptText)
  | _ => None
  end.

(** The reports of the lines that have one, in order. *)
Fixpoint reports {A B : Type} (report : A -> option B) (lines : list A)
  : list B :=
  match lines with
  | [] => []
  | line :: rest =>
      match report line with
      | Some r => r :: reports report rest
      | None => reports report rest
      end
  end.

Definition sumZ (l : list Z) : Z := fold_right Z.add 0%Z l.

(** The event is not the end of a successful upload. *)
Definition notUploaded (e : Workflow.Event) : Prop :=
  match e with Workflow.Uploaded _ _ => False | _ => True end.

(** The last element of a list, if any. *)
Fixpoint lastOf {A : Type} (l : list A) : option A :=
  match l with
  | [] => None
  | x :: rest =>
      match lastOf rest with
      | Some y => Some y
      | None => Some x
      end
  end.

(** The steps counted so far; none before the first report. *)
Definition stepsSoFar (s : Workflow.State) : Double.t :=
  match Workflow.trainStats s with
  | Some stats => Workflow.steps stats
  | None => Double.Finite 0
  end.

(** One more report counted: the sum as a double, or the step alone
    when nothing has been counted. *)
Definition addStep (counted step : Double.t) : Double.t :=
  if Double.truthy counted then Double.add counted step else step.

(** Integers from zero to [2^53 - 1]. *)
Definition isCount (n : Z) : Prop := (0 <= n < 2 ^ 53)%Z.

(** The text a pattern stands for once its groups are filled in. *)
Fixpoint render (pattern : list Text.Item) (groups : list jsstring)
  : jsstring :=
  match pattern, groups with
  | Text.Literal text :: pattern', _ => lit text ++ render pattern' groups
  | Text.Digits :: pattern', g :: groups' => g ++ render pattern' groups'
  | _, _ => []
  end.

(** A non-empty run of ASCII digits. *)
Definition isNumeral (g : jsstring) : Prop :=
  g <> [] /\ Forall (fun c => Text.isDigit c = true) g.

(* ===================================================================== *)
(** ** Sample data for the steps *)
(* ===================================================================== *)

Module Samples.

Definition stamp : Workflow.Stamp :=
  {| Workflow.stampId := lit "k3j9x2ab"; Workflow.stampTime := lit "12:00:00" |}.

Definition trained : Workflow.ProfileInfo :=
  {| Workflow.infoName := lit "alvin"; Workflow.has_data := true;
     Workflow.raw_files := 1; Workflow.processed_wavs := 42;
     Workflow.has_profile := true;
     Workflow.best_checkpoint := Some (lit "epoch_00012.pth");
     Workflow.latest_checkpoint := Some (lit "epoch_00024.pth") |}.

(** A profile that has a trained model but no data. *)
Definition modelOnly : Workflow.ProfileInfo :=
  {| Workflow.infoName := lit "guest"; Workflow.has_data := false;
     Workflow.raw_files := 0; Workflow.processed_wavs := 0;
     Workflow.has_profile := true;
     Workflow.best_checkpoint := None; Workflow.latest_checkpoint := None |}.

Definition epochLine : jsstring :=
  lit "Epoch [3/25], Step [120/400], Loss: 0.412".

Definition laterEpochLine : jsstring :=
  lit "Epoch [4/25], Step [80/400], Loss: 0.398".

Definition segmentsLine : jsstring :=
  lit "Segments: raw=12 merged=10 kept=8".

Definition errorLine : jsstring := lit "RuntimeError: CUDA out of memory".

(** A report whose kept count is beyond what a double holds exactly. *)
Definition hugeSegmentsLine : jsstring :=
  lit "Segments: raw=1 merged=1 kept=100000000000000000000".

(** A report whose step is [2^53 + 1]. *)
Definition hugeEpochLine : jsstring :=
  lit "Epoch [1/2], Step [9007199254740993/1]".

End Samples.

(* ===================================================================== *)
(** ** Properties of the line reader *)
(* ===================================================================== *)

Section LineReader.
Context `{TextDecoder}.

Lemma drain_step {St : Type} (onLine : jsstring -> St -> St) buffer s :
  drain onLine buffer s =
  let index := indexOf buffer newline in
  if (index =? -1)%Z then (s, buffer)
  else drain onLine (sliceFrom buffer (index + 1))
         (if truthy (trim (slice buffer 0 index))
          then onLine (trim (slice buffer 0 index)) s else s).
Proof.
  funelim (drain onLine buffer s); cbv zeta;
    match goal with E : (_ =? _)%Z = _ |- _ => rewrite E end; reflexivity.
Qed.

Lemma indexOf_app_found a b c :
  indexOf a c <> (-1)%Z -> indexOf (a ++ b) c = indexOf a c.
Proof.
  induction a as [|x a IH]; simpl; [congruence|].
  destruct (x =? c)%N; [reflexivity|].
  destruct (indexOf a c =? -1)%Z eqn:E; [congruence|].
  intros _. apply Z.eqb_neq in E. rewrite (IH E).
  apply Z.eqb_neq in E. rewrite E. reflexivity.
Qed.

Lemma slice_prefix_app (a b : jsstring) i :
  (0 <= i < Z.of_nat (List.length a))%Z ->
  slice (a ++ b) 0 i = slice a 0 i.
Proof.
  intros Hi. unfold slice, relIndex. rewrite length_app, Nat2Z.inj_add.
  change (0 <? 0)%Z with false. cbv iota.
  destruct (i <? 0)%Z eqn:E; [apply Z.ltb_lt in E; lia|].
  rewrite !Z.min_l by lia. change (Z.to_nat 0) with 0%nat. simpl skipn.
  rewrite firstn_app.
  replace (Z.to_nat (i - 0) - List.length a)%nat with 0%nat by lia.
  simpl. apply app_nil_r.
Qed.

Lemma sliceFrom_app (a b : jsstring) i :
  (0 <= i < Z.of_nat (List.length a))%Z ->
  sliceFrom (a ++ b) (i + 1) = sliceFrom a (i + 1) ++ b.
Proof.
  intros Hi. unfold sliceFrom, slice, relIndex.
  rewrite length_app, Nat2Z.inj_add.
  destruct (i + 1 <? 0)%Z eqn:E; [apply Z.ltb_lt in E; lia|].
  destruct (Z.of_nat (List.length a) + Z.of_nat (List.length b) <? 0)%Z eqn:E1;
    [apply Z.ltb_lt in E1; lia|].
  destruct (Z.of_nat (List.length a) <? 0)%Z eqn:E2;
    [apply Z.ltb_lt in E2; lia|].
  rewrite !Z.min_id. rewrite !Z.min_l by lia.
  rewrite skipn_app.
  replace (Z.to_nat (i + 1) - List.length a)%nat with 0%nat by lia.
  simpl skipn.
  rewrite !firstn_all2; [reflexivity| |].
  - rewrite length_skipn. lia.
  - rewrite length_app, length_skipn. lia.
Qed.

(** Draining a buffer to which more text is appended: the lines that were
    complete before are emitted first, then the rest is scanned. *)
Lemma drain_app {St : Type} (onLine : jsstring -> St -> St) a b s :
  drain onLine (a ++ b) s =
  let (s1, rest) := drain onLine a s in drain onLine (rest ++ b) s1.
Proof.
  remember (List.length a) as n eqn:Hn.
  revert a s Hn. induction n as [n IH] using lt_wf_ind. intros a s Hn.
  rewrite (drain_step onLine a s). cbv zeta.
  destruct (indexOf a newline =? -1)%Z eqn:E; [reflexivity|].
  apply Z.eqb_neq in E.
  pose proof (indexOf_range a newline) as R.
  rewrite (drain_step onLine (a ++ b) s). cbv zeta.
  rewrite indexOf_app_found by assumption.
  apply Z.eqb_neq in E. rewrite E. apply Z.eqb_neq in E.
  rewrite slice_prefix_app, sliceFrom_app by lia.
  eapply IH; [|reflexivity].
  subst n. apply slice_shorter; lia.
Qed.

Lemma decode_app st (a b : list byte) :
  decode st (a ++ b) =
  let (st1, out1) := decode st a in
  let (st2, out2) := decode st1 b in (st2, out1 ++ out2).
Proof.
  revert st. induction a as [|x a IH]; intros st; simpl.
  - destruct (decode st b); reflexivity.
  - destruct (decodeByte st x) as [st1 o1]. rewrite IH.
    destruct (decode st1 a) as [st2 o2].
    destruct (decode st2 b) as [st3 o3].
    rewrite app_assoc. reflexivity.
Qed.

(** The buffer that the inner loop leaves holds no newline. *)
Lemma drain_rest {St : Type} (onLine : jsstring -> St -> St) buffer s :
  indexOf (snd (drain onLine buffer s)) newline = (-1)%Z.
Proof.
  funelim (drain onLine buffer s); [|assumption].
  simpl. apply Z.eqb_eq. assumption.
Qed.

(** The outer loop over several reads does what one scan of the whole
    decoded text does. *)
Lemma pump_concat {St : Type} (onLine : jsstring -> St -> St)
    values decoder buffer s :
  indexOf buffer newline = (-1)%Z ->
  pump onLine values decoder buffer s =
  drain onLine (buffer ++ snd (decode decoder (concat values))) s.
Proof.
  revert decoder buffer s.
  induction values as [|v vs IH]; intros decoder buffer s Hb; simpl.
  - rewrite app_nil_r, drain_step. cbv zeta. rewrite Hb. reflexivity.
  - rewrite decode_app.
    destruct (decode decoder v) as [d1 t1].
    destruct (decode d1 (concat vs)) as [d2 t2] eqn:E2. simpl snd.
    rewrite app_assoc, (drain_app onLine (buffer ++ t1) t2 s).
    pose proof (drain_rest onLine (buffer ++ t1) s) as Hr.
    destruct (drain onLine (buffer ++ t1) s) as [s1 b1]. simpl in Hr.
    rewrite (IH d1 b1 s1 Hr), E2. reflexivity.
Qed.

(** Split invariance for any callback: the reads can be regrouped into a
    single read without changing the calls of [onLine]. *)
Lemma streamResponseLines_split {St : Type} (onLine : jsstring -> St -> St)
    values failure s :
  streamResponseLines (Some {| reads := values; failure := failure |}) onLine s =
  streamResponseLines (Some {| reads := [concat values]; failure := failure |})
    onLine s.
Proof.
  unfold streamResponseLines. simpl reads.
  rewrite !pump_concat by reflexivity. simpl concat. rewrite app_nil_r.
  reflexivity.
Qed.

Lemma streamTextResponse_split {St : Type} (onChunk : jsstring -> St -> St)
    values failure s :
  streamTextResponse {| reads := values; failure := failure |} onChunk s =
  streamTextResponse {| reads := [concat values]; failure := failure |}
    onChunk s.
Proof.
  unfold streamTextResponse. simpl reads.
  rewrite !pump_concat by reflexivity. simpl concat. rewrite app_nil_r.
  reflexivity.
Qed.

(** The reader hands every line to the callback and never looks at what
    the callback did: for any callback, the final state is the fold of
    the callback over the lines emitted. *)
Lemma drain_record_acc buffer : forall acc,
  drain record buffer acc =
  (acc ++ fst (drain record buffer []), snd (drain record buffer [])).
Proof.
  remember (length buffer) as n eqn:Hn.
  revert buffer Hn. induction n as [n IH] using lt_wf_ind. intros buffer Hn acc.
  rewrite (drain_step record buffer acc), (drain_step record buffer []).
  cbv zeta.
  destruct (indexOf buffer newline =? -1)%Z eqn:E.
  - simpl. rewrite app_nil_r. reflexivity.
  - apply Z.eqb_neq in E.
    pose proof (indexOf_range buffer newline) as R.
    assert (Hlt : (length (sliceFrom buffer (indexOf buffer newline + 1)) < n)%nat)
      by (subst n; apply slice_shorter; lia).
    rewrite (IH _ Hlt _ eq_refl).
    rewrite (IH _ Hlt _ eq_refl
               (if truthy (trim (slice buffer 0 (indexOf buffer newline)))
                then record (trim (slice buffer 0 (indexOf buffer newline))) []
                else [])).
    simpl. destruct (truthy (trim (slice buffer 0 (indexOf buffer newline))));
      unfold record; simpl; rewrite <- ?app_assoc; reflexivity.
Qed.

Lemma drain_fold {St : Type} (onLine : jsstring -> St -> St) buffer : forall s,
  drain onLine buffer s =
  (fold_left (fun s line => onLine line s) (fst (drain record buffer [])) s,
   snd (drain record buffer [])).
Proof.
  remember (length buffer) as n eqn:Hn.
  revert buffer Hn. induction n as [n IH] using lt_wf_ind. intros buffer Hn s.
  rewrite (drain_step onLine buffer s), (drain_step record buffer []).
  cbv zeta.
  destruct (indexOf buffer newline =? -1)%Z eqn:E; [reflexivity|].
  apply Z.eqb_neq in E.
  pose proof (indexOf_range buffer newline) as R.
  assert (Hlt : (length (sliceFrom buffer (indexOf buffer newline + 1)) < n)%nat)
    by (subst n; apply slice_shorter; lia).
  rewrite (IH _ Hlt _ eq_refl).
  destruct (truthy (trim (slice buffer 0 (indexOf buffer newline))));
    [|reflexivity].
  rewrite (drain_record_acc (sliceFrom buffer (indexOf buffer newline + 1))
             (record (trim (slice buffer 0 (indexOf buffer newline))) [])).
  reflexivity.
Qed.

Lemma streamResponseLines_fold {St : Type} (onLine : jsstring -> St -> St)
    body s :
  streamResponseLines (Some body) onLine s =
  (fold_left (fun s line => onLine line s) (emittedLines body) s,
   failure body).
Proof.
  unfold emittedLines, streamResponseLines.
  rewrite !pump_concat by reflexivity. simpl app.
  rewrite (drain_fold onLine).
  destruct (drain record (snd (decode decoderInit (concat (reads body)))) [])
    as [lines rest]. simpl fst. simpl snd.
  destruct (failure body); [reflexivity|].
  destruct (truthy (trim rest)); simpl; [|reflexivity].
  unfold record. rewrite fold_left_app. reflexivity.
Qed.

Lemma streamTextResponse_fold {St : Type} (onChunk : jsstring -> St -> St)
    body s :
  streamTextResponse body onChunk s =
  (fold_left (fun s line => onChunk line s) (emittedLinesLegacy body) s,
   failure body).
Proof.
  unfold emittedLinesLegacy, streamTextResponse.
  rewrite !pump_concat by reflexivity. simpl app.
  rewrite (drain_fold onChunk).
  destruct (drain record (snd (decode decoderInit (concat (reads body)))) [])
    as [lines rest]. simpl fst. simpl snd.
  destruct (failure body); [reflexivity|].
  destruct (truthy (trim rest)); simpl; [|reflexivity].
  unfold record. rewrite fold_left_app. reflexivity.
Qed.

(** C2. For every byte sequence and every way of cutting it into
    successive reads, the reader emits the lines it emits when the whole
    sequence arrives in one read; this holds for [streamResponseLines]
    and for the legacy [streamTextResponse], whether the stream ends
    normally or with a failed read. *)
Theorem line_reader_split_invariant (values : list (list byte))
    (failure : option JsError) :
  let whole := concat values in
  emittedLines {| reads := values; failure := failure |} =
  emittedLines {| reads := [whole]; failure := failure |} /\
  emittedLinesLegacy {| reads := values; failure := failure |} =
  emittedLinesLegacy {| reads := [whole]; failure := failure |}.
Proof.
  cbv zeta. unfold emittedLines, emittedLinesLegacy.
  rewrite streamResponseLines_split, streamTextResponse_split.
  split; reflexivity.
Qed.

End LineReader.

(* ===================================================================== *)
(** ** The scheduler *)
(* ===================================================================== *)

Section Scheduler.

Open Scope Q_scope.

Lemma scheduleBuffer_null buffer currentTime w :
  React.audioContextRef w = None ->
  React.scheduleBuffer buffer currentTime w = w.
Proof. intros E. unfold React.scheduleBuffer. rewrite E. reflexivity. Qed.

Lemma scheduleBuffer_live buffer currentTime w ctx :
  React.audioContextRef w = Some ctx ->
  React.scheduleBuffer buffer currentTime w =
  let startAt := React.startAtOf currentTime (React.nextStartTimeRef w) in
  React.setNextStartTime (startAt + duration buffer - React.overlap)
    (React.setScheduled
       (React.scheduled w ++
        [{| played := buffer; startAt := startAt;
            envelope := React.gainEnvelope buffer startAt |}]) w).
Proof. intros E. unfold React.scheduleBuffer. rewrite E. reflexivity. Qed.

Lemma scheduleBuffer_context buffer currentTime w :
  React.audioContextRef (React.scheduleBuffer buffer currentTime w) =
  React.audioContextRef w.
Proof.
  unfold React.scheduleBuffer.
  destruct (React.audioContextRef w) eqn:E; [simpl; exact E | exact E].
Qed.

Lemma legacy_scheduleBuffer_live buffer currentTime s ctx :
  Legacy.audioCtx s = Some ctx ->
  Legacy.scheduleBuffer buffer currentTime s =
  let startAt := Qmax (Legacy.nextStart s) (currentTime + (5 # 100)) in
  Legacy.setNextStart (startAt + duration buffer)
    (Legacy.setScheduled
       (Legacy.scheduled s ++
        [{| played := buffer; startAt := startAt; envelope := [] |}]) s).
Proof. intros E. unfold Legacy.scheduleBuffer. rewrite E. reflexivity. Qed.

Lemma legacy_scheduleBuffer_context buffer currentTime s :
  Legacy.audioCtx (Legacy.scheduleBuffer buffer currentTime s) =
  Legacy.audioCtx s.
Proof.
  unfold Legacy.scheduleBuffer.
  destruct (Legacy.audioCtx s) eqn:E; [simpl; exact E | exact E].
Qed.

Lemma chained_cons overlap p q l :
  chained overlap (p :: q :: l) <->
  startAt q == startAt p + duration (played p) - overlap /\
  chained overlap (q :: l).
Proof. reflexivity. Qed.

(** In a chained list, neighbours are at the stated distance. *)
Lemma chained_nth overlap l i p q :
  chained overlap l ->
  nth_error l i = Some p -> nth_error l (S i) = Some q ->
  startAt q == startAt p + duration (played p) - overlap.
Proof.
  revert i. induction l as [|a l IH]; intros i Hc Hp Hq.
  - destruct i; discriminate.
  - destruct l as [|b l]; [destruct i; simpl in Hq; [discriminate|destruct i; discriminate]|].
    apply chained_cons in Hc. destruct Hc as [Hab Hc].
    destruct i as [|i].
    + simpl in Hp, Hq. injection Hp as <-. injection Hq as <-. exact Hab.
    + apply (IH i Hc Hp Hq).
Qed.

(** What the scheduler has started after a list of chunks, given the
    playback [p] it started last and that the schedule stands at the end
    of [p] minus the overlap. *)
Lemma scheduleAll_chained chunks : forall w ctx p before,
  React.audioContextRef w = Some ctx ->
  React.scheduled w = before ++ [p] ->
  React.nextStartTimeRef w == startAt p + duration (played p) - React.overlap ->
  pastFloor chunks w ->
  exists news,
    React.scheduled (React.scheduleAll chunks w) = before ++ p :: news /\
    chained React.overlap (p :: news).
Proof.
  induction chunks as [|[buffer t] rest IH]; intros w ctx p before Hctx Hs Hn Hf.
  - exists []. simpl. split; [exact Hs | exact I].
  - simpl in Hf. destruct Hf as [Hfloor Hf].
    unfold React.scheduleAll. simpl fold_left.
    fold (React.scheduleAll rest (React.scheduleBuffer buffer t w)).
    pose proof (scheduleBuffer_live buffer t w Hctx) as E. cbv zeta in E.
    set (q := {| played := buffer;
                 startAt := React.startAtOf t (React.nextStartTimeRef w);
                 envelope := React.gainEnvelope buffer
                   (React.startAtOf t (React.nextStartTimeRef w)) |}) in *.
    destruct (IH (React.scheduleBuffer buffer t w) ctx q (before ++ [p]))
      as [news [Hnews Hch]].
    + rewrite scheduleBuffer_context. exact Hctx.
    + rewrite E. simpl. rewrite Hs. reflexivity.
    + rewrite E. simpl. reflexivity.
    + exact Hf.
    + exists (q :: news). split.
      * rewrite Hnews, <- app_assoc. reflexivity.
      * apply chained_cons. split; [|exact Hch].
        subst q. simpl. unfold React.startAtOf.
        rewrite Q.max_r by exact Hfloor. exact Hn.
Qed.

Lemma legacy_scheduleAll_chained chunks : forall s ctx p before,
  Legacy.audioCtx s = Some ctx ->
  Legacy.scheduled s = before ++ [p] ->
  Legacy.nextStart s == startAt p + duration (played p) - 0 ->
  pastFloorLegacy chunks s ->
  exists news,
    Legacy.scheduled (Legacy.scheduleAll chunks s) = before ++ p :: news /\
    chained 0 (p :: news).
Proof.
  induction chunks as [|[buffer t] rest IH]; intros s ctx p before Hctx Hs Hn Hf.
  - exists []. simpl. split; [exact Hs | exact I].
  - simpl in Hf. destruct Hf as [Hfloor Hf].
    unfold Legacy.scheduleAll. simpl fold_left.
    fold (Legacy.scheduleAll rest (Legacy.scheduleBuffer buffer t s)).
    pose proof (legacy_scheduleBuffer_live buffer t s Hctx) as E.
    cbv zeta in E.
    set (q := {| played := buffer;
                 startAt := Qmax (Legacy.nextStart s) (t + (5 # 100));
                 envelope := [] |}) in *.
    destruct (IH (Legacy.scheduleBuffer buffer t s) ctx q (before ++ [p]))
      as [news [Hnews Hch]].
    + rewrite legacy_scheduleBuffer_context. exact Hctx.
    + rewrite E. simpl. rewrite Hs. reflexivity.
    + rewrite E. subst q. simpl. ring.
    + exact Hf.
    + exists (q :: news). split.
      * rewrite Hnews, <- app_assoc. reflexivity.
      * apply chained_cons. split; [|exact Hch].
        subst q. simpl. rewrite Q.max_l by exact Hfloor. exact Hn.
Qed.

(** The React scheduler on a sequence: neighbours among the chunks it
    started are [duration - overlap] apart. *)
Lemma react_consecutive w ctx b0 t0 rest i p q :
  React.audioContextRef w = Some ctx ->
  pastFloor rest (React.scheduleBuffer b0 t0 w) ->
  let w' := React.scheduleAll ((b0, t0) :: rest) w in
  let n := length (React.scheduled w) in
  nth_error (React.scheduled w') (n + i) = Some p ->
  nth_error (React.scheduled w') (n + S i) = Some q ->
  startAt q == startAt p + duration (played p) - React.overlap.
Proof.
  intros Hctx Hf w' n Hp Hq.
  pose proof (scheduleBuffer_live b0 t0 w Hctx) as E. cbv zeta in E.
  set (p0 := {| played := b0;
                startAt := React.startAtOf t0 (React.nextStartTimeRef w);
                envelope := React.gainEnvelope b0
                  (React.startAtOf t0 (React.nextStartTimeRef w)) |}) in *.
  destruct (@scheduleAll_chained rest (React.scheduleBuffer b0 t0 w) ctx p0
              (React.scheduled w)) as [news [Hnews Hch]].
  - rewrite scheduleBuffer_context. exact Hctx.
  - rewrite E. reflexivity.
  - rewrite E. simpl. reflexivity.
  - exact Hf.
  - subst w'. unfold React.scheduleAll in Hp, Hq. simpl fold_left in Hp, Hq.
    fold (React.scheduleAll rest (React.scheduleBuffer b0 t0 w)) in Hp, Hq.
    rewrite Hnews in Hp, Hq. subst n.
    rewrite nth_error_app2 in Hp, Hq by lia.
    replace (length (React.scheduled w) + i - length (React.scheduled w))%nat
      with i in Hp by lia.
    replace (length (React.scheduled w) + S i - length (React.scheduled w))%nat
      with (S i) in Hq by lia.
    exact (@chained_nth _ _ _ _ _ Hch Hp Hq).
Qed.

Lemma legacy_consecutive s ctx b0 t0 rest i p q :
  Legacy.audioCtx s = Some ctx ->
  pastFloorLegacy rest (Legacy.scheduleBuffer b0 t0 s) ->
  let s' := Legacy.scheduleAll ((b0, t0) :: rest) s in
  let n := length (Legacy.scheduled s) in
  nth_error (Legacy.scheduled s') (n + i) = Some p ->
  nth_error (Legacy.scheduled s') (n + S i) = Some q ->
  startAt q == startAt p + duration (played p).
Proof.
  intros Hctx Hf s' n Hp Hq.
  pose proof (legacy_scheduleBuffer_live b0 t0 s Hctx) as E. cbv zeta in E.
  set (p0 := {| played := b0;
                startAt := Qmax (Legacy.nextStart s) (t0 + (5 # 100));
                envelope := [] |}) in *.
  destruct (@legacy_scheduleAll_chained rest (Legacy.scheduleBuffer b0 t0 s)
              ctx p0 (Legacy.scheduled s)) as [news [Hnews Hch]].
  - rewrite legacy_scheduleBuffer_context. exact Hctx.
  - rewrite E. reflexivity.
  - rewrite E. subst p0. simpl. ring.
  - exact Hf.
  - subst s'. unfold Legacy.scheduleAll in Hp, Hq. simpl fold_left in Hp, Hq.
    fold (Legacy.scheduleAll rest (Legacy.scheduleBuffer b0 t0 s)) in Hp, Hq.
    rewrite Hnews in Hp, Hq. subst n.
    rewrite nth_error_app2 in Hp, Hq by lia.
    replace (length (Legacy.scheduled s) + i - length (Legacy.scheduled s))%nat
      with i in Hp by lia.
    replace (length (Legacy.scheduled s) + S i - length (Legacy.scheduled s))%nat
      with (S i) in Hq by lia.
    pose proof (@chained_nth _ _ _ _ _ Hch Hp Hq) as R. rewrite R. ring.
Qed.

End Scheduler.

(** The decoder on a euro sign, a character outside the basic plane, a
    stray byte, a lead byte without its continuation, and a byte order
    mark in first and in later position. *)
Example utf8_decoder_cases :
  map (fun bytes => snd (@decode Utf8.decoder decoderInit bytes))
    [ [xe2; x82; xac]; [xf0; x9f; x98; x80]; [xff; x41]; [xc3; x41];
      [xef; xbb; xbf; x41; xef; xbb; xbf] ]
  = [ [8364]; [55357; 56832]; [65533; 65]; [65533; 65]; [65; 65279] ]%N.
Proof. vm_compute. reflexivity. Qed.

(** "caf\u00e9" and "ok", with the two bytes of the accented letter in
    different reads. *)
Example utf8_split_read :
  @emittedLines Utf8.decoder
    {| reads := [[x63; x61; x66; xc3]; [xa9; x0a; x6f]; [x6b]];
       failure := None |}
  = [[99; 97; 102; 233]; [111; 107]]%N.
Proof. vm_compute. reflexivity. Qed.

Section SchedulerClaims.

Open Scope Q_scope.

(** C1, as the sources listed for it behave. When the audio context
    exists, both schedulers start a chunk at
    [max(currentTime + 0.05, nextStartTime)]. The React scheduler then
    sets [nextStartTime] to [startAt + duration - 0.008], and in a
    sequence whose chunks after the first find the schedule past the
    floor, each chunk starts at the start of the one before plus its
    duration minus 0.008. The legacy scheduler sets [nextStart] to
    [startAt + duration], and there each chunk starts at the start of the
    one before plus its duration: it has no overlap. *)
Theorem scheduler_start_and_next :
  (forall w ctx buffer t,
      React.audioContextRef w = Some ctx ->
      let w' := React.scheduleBuffer buffer t w in
      let at0 := Qmax (t + (5 # 100)) (React.nextStartTimeRef w) in
      map startAt (React.scheduled w') =
        map startAt (React.scheduled w) ++ [at0] /\
      React.nextStartTimeRef w' = at0 + duration buffer - (8 # 1000)) /\
  (forall w ctx b0 t0 rest i p q,
      React.audioContextRef w = Some ctx ->
      pastFloor rest (React.scheduleBuffer b0 t0 w) ->
      let w' := React.scheduleAll ((b0, t0) :: rest) w in
      let n := length (React.scheduled w) in
      nth_error (React.scheduled w') (n + i) = Some p ->
      nth_error (React.scheduled w') (n + S i) = Some q ->
      startAt q == startAt p + duration (played p) - (8 # 1000)) /\
  (forall s ctx buffer t,
      Legacy.audioCtx s = Some ctx ->
      let s' := Legacy.scheduleBuffer buffer t s in
      let at0 := Qmax (Legacy.nextStart s) (t + (5 # 100)) in
      map startAt (Legacy.scheduled s') =
        map startAt (Legacy.scheduled s) ++ [at0] /\
      Legacy.nextStart s' = at0 + duration buffer) /\
  (forall s ctx b0 t0 rest i p q,
      Legacy.audioCtx s = Some ctx ->
      pastFloorLegacy rest (Legacy.scheduleBuffer b0 t0 s) ->
      let s' := Legacy.scheduleAll ((b0, t0) :: rest) s in
      let n := length (Legacy.scheduled s) in
      nth_error (Legacy.scheduled s') (n + i) = Some p ->
      nth_error (Legacy.scheduled s') (n + S i) = Some q ->
      startAt q == startAt p + duration (played p)).
Proof.
  split; [|split; [|split]].
  - intros w ctx buffer t Hctx w' at0. subst w' at0.
    rewrite (scheduleBuffer_live buffer t w Hctx). simpl.
    rewrite map_app. split; reflexivity.
  - intros w ctx b0 t0 rest i p q Hctx Hf w' n Hp Hq.
    exact (react_consecutive _ _ _ _ _ Hctx Hf Hp Hq).
  - intros s ctx buffer t Hctx s' at0. subst s' at0.
    rewrite (legacy_scheduleBuffer_live buffer t s Hctx). simpl.
    rewrite map_app. split; reflexivity.
  - intros s ctx b0 t0 rest i p q Hctx Hf s' n Hp Hq.
    exact (legacy_consecutive _ _ _ _ _ Hctx Hf Hp Hq).
Qed.

(** A world in which an audio context exists and nothing has played. *)
Lemma scheduler_start_and_next_witness :
  let w := React.setAudioContext (Some Fixture.liveContext) React.initial in
  let half := {| duration := 1 # 2 |} in
  let w' := React.scheduleAll [(half, 0); (half, 2 # 10)] w in
  exists p q,
    nth_error (React.scheduled w') 0 = Some p /\
    nth_error (React.scheduled w') 1 = Some q /\
    startAt q == startAt p + duration (played p) - (8 # 1000).
Proof.
  cbv zeta. eexists. eexists.
  split; [reflexivity|]. split; [reflexivity|].
  eapply (proj1 (proj2 scheduler_start_and_next)
            (React.setAudioContext (Some Fixture.liveContext) React.initial)
            Fixture.liveContext {| duration := 1 # 2 |} 0
            [({| duration := 1 # 2 |}, 2 # 10)] 0%nat).
  - reflexivity.
  - simpl. split; [|exact I]. unfold Qle. simpl. lia.
  - reflexivity.
  - reflexivity.
Defined.

(** C1 as stated fails on the legacy scheduler, one of its two sources:
    a half-second chunk scheduled at clock 0 moves [nextStart] to 0.55,
    the end of the chunk, not to 0.542. *)
Lemma legacy_scheduler_no_overlap :
  let s := Legacy.setAudioCtx (Some Fixture.liveContext) Legacy.initial in
  let buffer := {| duration := 1 # 2 |} in
  let s' := Legacy.scheduleBuffer buffer 0 s in
  let at0 := Qmax (0 + (5 # 100)) (Legacy.nextStart s) in
  map startAt (Legacy.scheduled s') = [at0] /\
  Legacy.nextStart s' == 55 # 100 /\
  ~ Legacy.nextStart s' == at0 + duration buffer - (8 # 1000).
Proof.
  cbv zeta. split; [reflexivity|]. split.
  - vm_compute. reflexivity.
  - vm_compute. discriminate.
Qed.

(** The envelope of the chunk the scheduler starts. *)
Lemma scheduleBuffer_envelope w ctx buffer t :
  React.audioContextRef w = Some ctx ->
  let at0 := Qmax (t + (5 # 100)) (React.nextStartTimeRef w) in
  React.scheduled (React.scheduleBuffer buffer t w) =
  React.scheduled w ++
  [{| played := buffer; startAt := at0;
      envelope := React.gainEnvelope buffer at0 |}].
Proof.
  intros Hctx. rewrite (scheduleBuffer_live _ _ _ Hctx). reflexivity.
Qed.

Lemma quarter_fade d :
  8 # 1000 <= d ->
  Qmin (1 # 100) (Qmax (2 # 1000) (d / 4)) == Qmin (1 # 100) (d / 4).
Proof.
  intros Hd.
  assert (Hq : 2 # 1000 <= d / 4).
  { apply Qle_shift_div_l; [reflexivity|]. 
    apply Qle_trans with (8 # 1000); [unfold Qle; simpl; lia | exact Hd]. }
  rewrite (Q.max_r _ _ Hq). reflexivity.
Qed.

Lemma quarter_fade_bound d :
  8 # 1000 <= d ->
  Qmin (1 # 100) (d / 4) <= d / 4 /\
  2 * Qmin (1 # 100) (d / 4) <= d.
Proof.
  intros Hd.
  assert (Hx : 4 * (d / 4) == d) by field.
  set (x := d / 4) in *. clearbody x.
  destruct (Q.min_spec (1 # 100) x) as [[Hlt Hm] | [Hle Hm]];
    rewrite Hm; split; lra.
Qed.

(** C10, as the code computes the fades. The chunk that the scheduler
    starts carries the envelope: gain 0 at [startAt], a linear ramp to 1
    at [startAt + a], gain 1 set at
    [max(startAt + a, startAt + duration - r)], a linear ramp to 0 at
    [startAt + duration], where [a = r = min(0.01, max(0.002, duration/4))].
    For a chunk of at least 0.008 s, the fade-in and the fade-out both
    last [min(0.01, duration/4)], at most a quarter of the chunk. *)
Theorem fade_envelope w ctx buffer t :
  React.audioContextRef w = Some ctx ->
  let d := duration buffer in
  let a := Qmin (1 # 100) (Qmax (2 # 1000) (d / 4)) in
  exists p,
    React.scheduled (React.scheduleBuffer buffer t w) =
      React.scheduled w ++ [p] /\
    played p = buffer /\
    envelope p =
      [ setValueAtTime 0 (startAt p);
        linearRampToValueAtTime 1 (startAt p + a);
        setValueAtTime 1 (Qmax (startAt p + a) (startAt p + d - a));
        linearRampToValueAtTime 0 (startAt p + d) ] /\
    (8 # 1000 <= d ->
     exists fi fo,
       fadeIn p = Some fi /\ fadeOut p = Some fo /\
       fi == Qmin (1 # 100) (d / 4) /\ fo == Qmin (1 # 100) (d / 4) /\
       fi <= d / 4 /\ fo <= d / 4).
Proof.
  intros Hctx d a.
  eexists. split; [eapply scheduleBuffer_envelope; exact Hctx|].
  split; [reflexivity|]. split; [reflexivity|].
  intros Hd. eexists. eexists.
  split; [reflexivity|]. split; [reflexivity|].
  cbv [startAt played envelope].
  fold d.
  set (s := Qmax (t + (5 # 100)) (React.nextStartTimeRef w)).
  pose proof (quarter_fade Hd) as Ha.
  pose proof (quarter_fade_bound Hd) as [Hq Hh].
  assert (Hsa : React.safeAttack buffer == Qmin (1 # 100) (d / 4)) by exact Ha.
  assert (Hsr : React.safeRelease buffer == Qmin (1 # 100) (d / 4)) by exact Ha.
  assert (Hfi : s + React.safeAttack buffer - s == Qmin (1 # 100) (d / 4))
    by (rewrite Hsa; ring).
  assert (Hfo : s + d - Qmax (s + React.safeAttack buffer)
                              (s + d - React.safeRelease buffer)
                == Qmin (1 # 100) (d / 4)).
  { rewrite Q.max_r by (rewrite Hsa, Hsr; lra). rewrite Hsr. ring. }
  repeat split.
  - exact Hfi.
  - exact Hfo.
  - rewrite Hfi. exact Hq.
  - rewrite Hfo. exact Hq.
Qed.

Lemma fade_envelope_witness :
  let w := React.setAudioContext (Some Fixture.liveContext) React.initial in
  let buffer := {| duration := 1 # 2 |} in
  exists p,
    React.scheduled (React.scheduleBuffer buffer 0 w) = [p] /\
    fadeIn p = Some (startAt p + (1 # 100) - startAt p) /\
    (exists fi fo, fadeIn p = Some fi /\ fadeOut p = Some fo /\
                   fi == 1 # 100 /\ fo == 1 # 100).
Proof.
  cbv zeta.
  destruct (@fade_envelope
              (React.setAudioContext (Some Fixture.liveContext) React.initial)
              Fixture.liveContext {| duration := 1 # 2 |} 0 eq_refl)
    as [p [Hs [Hp [He Hq]]]].
  exists p. split; [exact Hs|]. split.
  - unfold fadeIn. rewrite He. reflexivity.
  - destruct Hq as [fi [fo [H1 [H2 [H3 [H4 _]]]]]].
    + unfold Qle. simpl. lia.
    + exists fi, fo.
      repeat split; assumption.
Defined.

(** C10 as stated fails for a chunk shorter than 0.008 s: a chunk of
    0.004 s fades in over 0.002 s, which is neither
    [min(0.01, duration/4) = 0.001] nor within a quarter of the chunk. *)
Lemma short_chunk_fade_floor :
  let w := React.setAudioContext (Some Fixture.liveContext) React.initial in
  let buffer := {| duration := 4 # 1000 |} in
  exists p fi,
    React.scheduled (React.scheduleBuffer buffer 0 w) = [p] /\
    fadeIn p = Some fi /\
    fi == 2 # 1000 /\
    ~ fi == Qmin (1 # 100) (duration buffer / 4) /\
    duration buffer / 4 < fi.
Proof.
  cbv zeta. eexists. eexists.
  split; [reflexivity|]. split; [reflexivity|].
  split; [vm_compute; reflexivity|].
  split; [vm_compute; discriminate | vm_compute; reflexivity].
Qed.

End SchedulerClaims.

(* ===================================================================== *)
(** ** The component as a transition system *)
(* ===================================================================== *)

Section Lifecycle.
Context `{Host}.

Open Scope Q_scope.

(** Case analysis on every [match] of the goal. *)
Ltac cases :=
  repeat match goal with
         | |- context [match ?x with _ => _ end] => destruct x eqn:?
         | |- context [if ?x then _ else _] => destruct x eqn:?
         end.

Lemma sameAudio_refl w : sameAudio w w.
Proof. unfold sameAudio. auto. Qed.

Lemma sameAudio_trans w1 w2 w3 :
  sameAudio w1 w2 -> sameAudio w2 w3 -> sameAudio w1 w3.
Proof.
  unfold sameAudio. intros [A1 [A2 [A3 A4]]] [B1 [B2 [B3 B4]]].
  repeat split; congruence.
Qed.

(** A stream line never touches the audio side. *)
Lemma onStreamLine_sameAudio sid now line w :
  sameAudio w (React.onStreamLine sid now line w).
Proof.
  unfold React.onStreamLine, React.onDone, React.onAudio, React.reject.
  cases; unfold sameAudio; simpl; auto.
Qed.

Lemma onDecodeFailed_sameAudio k w :
  sameAudio w (React.onDecodeFailed k w).
Proof.
  unfold React.onDecodeFailed, React.reject.
  cases; unfold sameAudio; simpl; auto.
Qed.

Lemma onStreamError_sameAudio err w :
  sameAudio w (React.onStreamError err w).
Proof.
  unfold React.onStreamError. cases; unfold sameAudio; simpl; auto.
Qed.

(** The continuation of a decode acts on the audio side as
    [scheduleBuffer] does. *)
Lemma onDecoded_audio k buffer t date w :
  React.onDecoded k buffer t date w = w \/
  sameAudio (React.scheduleBuffer buffer t w)
            (React.onDecoded k buffer t date w).
Proof.
  unfold React.onDecoded.
  destruct (nth_error (React.pending w) k); [right | left; reflexivity].
  unfold React.scheduleBuffer. simpl.
  destruct (React.audioContextRef w) eqn:E; unfold sameAudio; simpl; auto.
Qed.

Lemma stopInference_audio w :
  React.audioContextRef (React.stopInference w) = None /\
  React.nextStartTimeRef (React.stopInference w) = 0 /\
  React.scheduled (React.stopInference w) = React.scheduled w.
Proof.
  unfold React.stopInference, React.onContextClosed, React.stopRequested,
    React.resetAudio, React.abort, React.reject, isClosed, close.
  destruct w as [ctx0 next abortRef status chunks lat logs made ctrls
                 gone sess pend sched unh].
  simpl. destruct abortRef, ctx0 as [[id st]|]; try destruct st; simpl; auto.
Qed.

(** With no audio context, an event other than a start leaves the audio
    side silent: no context, nothing started, schedule at zero. *)
Lemma silent_step w e :
  React.isStart e = false ->
  React.audioContextRef w = None ->
  React.audioContextRef (React.step w e) = None /\
  React.scheduled (React.step w e) = React.scheduled w /\
  (React.nextStartTimeRef w = 0 -> React.nextStartTimeRef (React.step w e) = 0).
Proof.
  intros Hs Hctx. destruct e; simpl in *; try discriminate.
  - destruct (onStreamLine_sameAudio sid now line w) as [A [B [C _]]].
    rewrite A, B, C. auto.
  - destruct (onDecoded_audio k buffer currentTime date w) as [E | S].
    + rewrite E. auto.
    + destruct S as [A [B [C _]]].
      rewrite A, B, C, (scheduleBuffer_null _ _ _ Hctx). auto.
  - destruct (onDecodeFailed_sameAudio k w) as [A [B [C _]]].
    rewrite A, B, C. auto.
  - destruct (onStreamError_sameAudio err w) as [A [B [C _]]].
    rewrite A, B, C. auto.
  - destruct (stopInference_audio w) as [A [B C]].
    split; [exact A|]. split; [exact C|]. intros _. exact B.
  - unfold React.stopRequested, React.resetAudio, React.abort, React.reject.
    destruct (React.streamAbortRef w); simpl; rewrite Hctx; simpl;
      rewrite ?Hctx; simpl; auto.
  - unfold React.onContextClosed. rewrite Hctx. auto.
Qed.

(** C5, as the code behaves. After [stopInference] has run and until a
    session is started again, whatever happens -- stream lines, decodes
    issued earlier that resolve or reject, errors, further stops --
    starts no source and leaves the schedule at zero: the scheduling
    step of a late decode finds no audio context and is a no-op. *)
Theorem no_scheduling_after_stop w events :
  noStart events ->
  let stopped := React.stopInference w in
  let w' := React.run stopped events in
  React.scheduled w' = React.scheduled stopped /\
  React.nextStartTimeRef w' = 0 /\
  React.audioContextRef w' = None.
Proof.
  intros Hn stopped w'.
  destruct (stopInference_audio w) as [Hc [Hz _]].
  fold stopped in Hc, Hz. subst w'.
  generalize dependent stopped. intros stopped. revert stopped.
  induction events as [|e events IH]; intros stopped Hc Hz.
  - simpl. auto.
  - inversion Hn as [|? ? He Hrest]; subst.
    destruct (silent_step stopped e He Hc) as [A [B C]].
    unfold React.run. simpl fold_left.
    fold (React.run (React.step stopped e) events).
    destruct (IH Hrest (React.step stopped e) A (C Hz)) as [P [Q R]].
    rewrite P, B. auto.
Qed.

(** Scheduling a chunk moves the schedule at least to where it was plus
    the duration of the chunk minus the overlap. *)
Lemma scheduleBuffer_next_lower w ctx buffer t :
  React.audioContextRef w = Some ctx ->
  React.nextStartTimeRef w + duration buffer - (8 # 1000) <=
  React.nextStartTimeRef (React.scheduleBuffer buffer t w).
Proof.
  intros Hctx. rewrite (scheduleBuffer_live buffer t w Hctx). simpl.
  unfold React.startAtOf, React.overlap.
  pose proof (Q.le_max_r (t + React.safetyMargin) (React.nextStartTimeRef w)).
  lra.
Qed.

Lemma scheduleBuffer_monotone w buffer t :
  8 # 1000 <= duration buffer ->
  React.nextStartTimeRef w <=
  React.nextStartTimeRef (React.scheduleBuffer buffer t w).
Proof.
  intros Hd. destruct (React.audioContextRef w) as [ctx|] eqn:Hctx.
  - pose proof (scheduleBuffer_next_lower w buffer t Hctx). lra.
  - rewrite (scheduleBuffer_null _ _ _ Hctx). apply Qle_refl.
Qed.

Lemma step_monotone w e :
  withinSession (8 # 1000) e ->
  React.nextStartTimeRef w <= React.nextStartTimeRef (React.step w e).
Proof.
  intros [Hs [Hp Hd]]. destruct e; simpl in *; try discriminate.
  - destruct (onStreamLine_sameAudio sid now line w) as [_ [B _]].
    rewrite B. apply Qle_refl.
  - destruct (onDecoded_audio k buffer currentTime date w) as [E | S].
    + rewrite E. apply Qle_refl.
    + destruct S as [_ [B _]]. rewrite B.
      apply scheduleBuffer_monotone. apply Hd. reflexivity.
  - destruct (onDecodeFailed_sameAudio k w) as [_ [B _]].
    rewrite B. apply Qle_refl.
  - destruct (onStreamError_sameAudio err w) as [_ [B _]].
    rewrite B. apply Qle_refl.
Qed.

Lemma run_monotone events : forall w,
  Forall (withinSession (8 # 1000)) events ->
  React.nextStartTimeRef w <= React.nextStartTimeRef (React.run w events).
Proof.
  induction events as [|e events IH]; intros w Hall.
  - apply Qle_refl.
  - inversion Hall as [|? ? He Hrest]; subst.
    unfold React.run. simpl fold_left.
    fold (React.run (React.step w e) events).
    apply Qle_trans with (React.nextStartTimeRef (React.step w e)).
    + apply step_monotone. exact He.
    + apply IH. exact Hrest.
Qed.

(** C4, as the code behaves. A scheduling step moves [nextStartTime] to
    at least its old value plus [duration - 0.008]; so within a session
    -- over every event that is neither a start nor a stop --
    [nextStartTime] does not decrease as long as the chunks scheduled
    last at least 0.008 s each. Only a start and a stop set it afresh. *)
Theorem nextStartTime_monotone :
  (forall w ctx buffer t,
      React.audioContextRef w = Some ctx ->
      React.nextStartTimeRef w + duration buffer - (8 # 1000) <=
      React.nextStartTimeRef (React.scheduleBuffer buffer t w)) /\
  (forall w events,
      Forall (withinSession (8 # 1000)) events ->
      React.nextStartTimeRef w <= React.nextStartTimeRef (React.run w events)).
Proof.
  split.
  - intros w ctx buffer t Hctx. exact (scheduleBuffer_next_lower w buffer t Hctx).
  - intros w events. apply run_monotone.
Qed.

Lemma startInference_audio profileName inferenceText fresh t0 now w :
  truthy profileName = true -> truthy inferenceText = true ->
  let w' := React.startInference profileName inferenceText fresh t0 now w in
  React.nextStartTimeRef w' = t0 /\
  React.scheduled w' = React.scheduled w /\
  (exists ctx, React.audioContextRef w' = Some ctx) /\
  (React.audioContextRef w = None ->
   exists ctx, React.audioContextRef w' = Some ctx /\
               contextId ctx = React.created w).
Proof.
  intros Hp Ht. unfold React.startInference. rewrite Hp, Ht.
  destruct w as [ctx0 next abortRef status chunks lat logs made ctrls
                 gone sess pend sched unh].
  unfold React.ensureAudioContext, React.abort. simpl.
  destruct ctx0 as [[id st]|];
    [destruct st | destruct fresh]; simpl;
    destruct abortRef; simpl;
    (repeat split;
     [eexists; reflexivity
     | first [discriminate | intros _; eexists; split; reflexivity]]).
Qed.

Lemma quiet_sameAudio events : forall w,
  Forall (fun e => isQuiet e = true) events ->
  sameAudio w (React.run w events).
Proof.
  induction events as [|e events IH]; intros w Hall.
  - apply sameAudio_refl.
  - inversion Hall as [|? ? He Hrest]; subst.
    unfold React.run. simpl fold_left.
    fold (React.run (React.step w e) events).
    apply sameAudio_trans with (React.step w e); [|apply IH; exact Hrest].
    destruct e; simpl in He; try discriminate.
    + apply onStreamLine_sameAudio.
    + apply onDecodeFailed_sameAudio.
    + apply onStreamError_sameAudio.
Qed.

(** The world after a stop does not remember where the schedule stood. *)
Lemma stopInference_forgets x w :
  React.stopInference (React.setNextStartTime x w) = React.stopInference w.
Proof.
  unfold React.stopInference, React.onContextClosed, React.stopRequested,
    React.resetAudio, React.abort, React.reject, isClosed, close.
  destruct w as [ctx0 next abortRef status chunks lat logs made ctrls
                 gone sess pend sched unh].
  simpl. destruct abortRef, ctx0 as [[id st]|]; try destruct st; reflexivity.
Qed.

Lemma step_keeps_context w e :
  duringSession e ->
  React.audioContextRef (React.step w e) = React.audioContextRef w.
Proof.
  intros [Hs Hp]. destruct e; simpl in *; try discriminate.
  - exact (proj1 (onStreamLine_sameAudio sid now line w)).
  - destruct (onDecoded_audio k buffer currentTime date w) as [E | S].
    + rewrite E. reflexivity.
    + rewrite (proj1 S). apply scheduleBuffer_context.
  - exact (proj1 (onDecodeFailed_sameAudio k w)).
  - exact (proj1 (onStreamError_sameAudio err w)).
Qed.

Lemma run_keeps_context events : forall w,
  Forall duringSession events ->
  React.audioContextRef (React.run w events) = React.audioContextRef w.
Proof.
  induction events as [|e events IH]; intros w Hall; [reflexivity|].
  inversion Hall as [|? ? He Hrest]; subst.
  unfold React.run. simpl fold_left.
  fold (React.run (React.step w e) events).
  rewrite (IH _ Hrest). apply step_keeps_context. exact He.
Qed.

(** With no audio context, events other than a start leave the audio
    side silent. *)
Lemma silent_run events : forall w,
  noStart events ->
  React.audioContextRef w = None -> React.nextStartTimeRef w = 0 ->
  React.audioContextRef (React.run w events) = None /\
  React.nextStartTimeRef (React.run w events) = 0.
Proof.
  induction events as [|e events IH]; intros w Hn Hc Hz; [auto|].
  inversion Hn as [|? ? He Hrest]; subst.
  destruct (silent_step w e He Hc) as [A [_ C]].
  unfold React.run. simpl fold_left.
  fold (React.run (React.step w e) events).
  apply IH; auto.
Qed.

(** A stop, with whatever a session lets happen while [close()] is
    pending, ends with no context and the schedule at zero. *)
Lemma stop_completes w window :
  Forall duringSession window ->
  let stopped :=
    React.onContextClosed (React.run (React.stopRequested w) window) in
  React.nextStartTimeRef stopped = 0 /\ React.audioContextRef stopped = None.
Proof.
  intros Hwin stopped. subst stopped.
  destruct (React.audioContextRef w) as [ctx|] eqn:Hctx.
  - assert (Hreq : exists ctx', React.audioContextRef (React.stopRequested w) =
                                Some ctx' /\ isClosed ctx' = true).
    { unfold React.stopRequested, React.abort, React.reject.
      destruct (React.streamAbortRef w); simpl; rewrite Hctx;
        destruct (isClosed ctx) eqn:E; simpl; eauto. }
    destruct Hreq as [ctx' [Hreq Hclosed]].
    unfold React.onContextClosed.
    rewrite (run_keeps_context _ Hwin), Hreq, Hclosed.
    unfold React.resetAudio. simpl.
    rewrite (run_keeps_context _ Hwin), Hreq. simpl. auto.
  - assert (Hreq : React.audioContextRef (React.stopRequested w) = None /\
                   React.nextStartTimeRef (React.stopRequested w) = 0).
    { unfold React.stopRequested, React.resetAudio, React.abort.
      destruct (React.streamAbortRef w); simpl; rewrite Hctx; simpl; auto. }
    destruct Hreq as [Hc Hz].
    assert (Hn : noStart window).
    { unfold noStart. eapply Forall_impl; [|exact Hwin].
      intros e [He _]. exact He. }
    destruct (silent_run (React.stopRequested w) Hn Hc Hz) as [A B].
    unfold React.onContextClosed. rewrite A. auto.
Qed.

Lemma findSession_controller sid l session :
  React.findSession sid l = Some session -> React.controller session = sid.
Proof.
  induction l as [|x l IH]; simpl; [discriminate|].
  destruct (React.controller x =? sid)%nat eqn:E; [|exact IH].
  intros Hx. injection Hx as <-. apply Nat.eqb_eq. exact E.
Qed.

Lemma Forall_removeNth {A : Type} (P : A -> Prop) k : forall l,
  Forall P l -> Forall P (removeNth k l).
Proof.
  induction k as [|k IH]; intros [|x l] Hl; simpl; auto;
    inversion Hl; subst; auto.
Qed.

(** The decodes pending after an event of the stream of session [sid]
    are those pending before, and decodes issued by [sid]. *)
Lemma ofSession_pending sid w e :
  ofSession sid e ->
  Forall (fun p => decodeSession p = sid) (React.pending w) ->
  Forall (fun p => decodeSession p = sid) (React.pending (React.step w e)).
Proof.
  intros He Hw. destruct e; simpl in *; try contradiction.
  - subst sid0. unfold React.onStreamLine.
    destruct (React.findSession sid (React.sessions w)) as [session|] eqn:Hs;
      [|exact Hw].
    pose proof (findSession_controller _ _ Hs) as Hc.
    unfold React.onDone, React.onAudio, React.reject.
    cases; simpl; try exact Hw;
      (apply Forall_app; split; [exact Hw|];
       constructor; [exact Hc | constructor]).
  - unfold React.onDecodeFailed, React.reject.
    destruct (nth_error (React.pending w) k); [simpl|exact Hw].
    apply Forall_removeNth. exact Hw.
  - unfold React.onStreamError. cases; exact Hw.
Qed.

Lemma ofSession_quiet sid e : ofSession sid e -> isQuiet e = true.
Proof. destruct e; simpl; intros He; auto; contradiction. Qed.

Lemma ofSession_run sid events : forall w,
  Forall (ofSession sid) events ->
  Forall (fun p => decodeSession p = sid) (React.pending w) ->
  Forall (fun p => decodeSession p = sid)
         (React.pending (React.run w events)) /\
  sameAudio w (React.run w events).
Proof.
  intros w Hall Hw. split.
  - revert w Hw. induction Hall as [|e events He Hrest IH]; intros w Hw;
      [exact Hw|].
    unfold React.run. simpl fold_left.
    fold (React.run (React.step w e) events).
    apply IH. apply ofSession_pending; assumption.
  - apply quiet_sameAudio. eapply Forall_impl; [|exact Hall].
    intros e. apply ofSession_quiet.
Qed.

Lemma startInference_session profileName inferenceText fresh t0 now w :
  truthy profileName = true -> truthy inferenceText = true ->
  let w' := React.startInference profileName inferenceText fresh t0 now w in
  React.streamAbortRef w' = Some (React.controllers w) /\
  React.pending w' = React.pending w /\
  React.findSession (React.controllers w) (React.sessions w') =
    Some {| React.controller := React.controllers w;
            React.startTime := now; React.firstChunk := true |}.
Proof.
  intros Hp Ht. unfold React.startInference. rewrite Hp, Ht.
  destruct w as [ctx0 next abortRef status chunks lat logs made ctrls
                 gone sess pend sched unh].
  unfold React.ensureAudioContext, React.abort. simpl.
  destruct ctx0 as [[id st]|];
    [destruct st | destruct fresh]; simpl;
    destruct abortRef; simpl; rewrite Nat.eqb_refl; auto.
Qed.

(** C7, as the code behaves. A stop -- the call, whatever a session
    lets happen while [close()] is pending, and the settling of the
    close -- leaves [nextStartTime] at zero and no audio context; so
    does [stopInference], the stop with nothing in between, and the
    world it leaves is the same whatever value [nextStartTime] had
    before. When a session is started after a stop has completed, with
    no decode still in flight, a context is created for it, and as long
    as only its own stream is heard every pending decode is one of its
    own: the first of them to resolve gives the first source started
    since the restart, at [max(currentTime + 0.05, t0)], where [t0] is
    the clock of the new context read at the start and [currentTime]
    its clock when the chunk is scheduled: that is [currentTime + 0.05],
    as the clock does not run backwards. *)
Theorem restart_after_stop :
  (forall w window,
      Forall duringSession window ->
      let stopped :=
        React.onContextClosed (React.run (React.stopRequested w) window) in
      React.nextStartTimeRef stopped = 0 /\
      React.audioContextRef stopped = None) /\
  (forall w,
      let stopped := React.stopInference w in
      React.nextStartTimeRef stopped = 0 /\
      React.audioContextRef stopped = None /\
      (forall x, React.stopInference (React.setNextStartTime x w) = stopped)) /\
  (forall w profileName inferenceText fresh t0 now events k buffer t date p,
      truthy profileName = true -> truthy inferenceText = true ->
      React.audioContextRef w = None -> React.pending w = [] ->
      let sid := React.controllers w in
      let started :=
        React.startInference profileName inferenceText fresh t0 now w in
      Forall (ofSession sid) events ->
      let before := React.run started events in
      nth_error (React.pending before) k = Some p ->
      let w' := React.step before (React.Decoded k buffer t date) in
      (exists ctx, React.audioContextRef started = Some ctx /\
                   contextId ctx = React.created w) /\
      React.streamAbortRef started = Some sid /\
      decodeSession p = sid /\
      React.scheduled before = React.scheduled w /\
      map startAt (React.scheduled w') =
        map startAt (React.scheduled w) ++ [Qmax (t + (5 # 100)) t0] /\
      (t0 <= t -> Qmax (t + (5 # 100)) t0 == t + (5 # 100))).
Proof.
  split; [|split].
  - intros w window. apply stop_completes.
  - intros w stopped. subst stopped.
    destruct (stopInference_audio w) as [Hc [Hz _]].
    split; [exact Hz|]. split; [exact Hc|].
    intros x. apply stopInference_forgets.
  - intros w profileName inferenceText fresh t0 now events k buffer t date p
      Hp Ht Hnone Hpend sid started Hev before Hk w'.
    destruct (startInference_audio profileName inferenceText fresh t0 now
                w Hp Ht) as [Hn [Hsch [_ Hnew]]].
    destruct (startInference_session profileName inferenceText fresh t0 now
                w Hp Ht) as [Habort [Hsame _]].
    fold started in Hn, Hsch, Hnew, Habort, Hsame. fold sid in Habort.
    destruct (Hnew Hnone) as [ctx [Hctx Hid]].
    assert (Hown : Forall (fun p => decodeSession p = sid)
                     (React.pending started))
      by (rewrite Hsame, Hpend; constructor).
    destruct (ofSession_run started Hev Hown) as [Hmine [A [B [C _]]]].
    fold before in Hmine, A, B, C.
    split; [exists ctx; split; assumption|].
    split; [exact Habort|].
    split; [exact (proj1 (Forall_forall _ _) Hmine p (nth_error_In _ _ Hk))|].
    split; [rewrite C; exact Hsch|].
    split.
    + subst w'. simpl. unfold React.onDecoded. rewrite Hk.
      assert (Hlive : React.audioContextRef
                        (React.setPending (removeNth k (React.pending before))
                           before) = Some ctx)
        by (simpl; rewrite A; exact Hctx).
      rewrite (scheduleBuffer_live buffer t _ Hlive). simpl.
      rewrite map_app, C, B, Hsch, Hn. reflexivity.
    + intros Hle. apply Q.max_l. lra.
Qed.

Lemma clearFirstChunk_controllers sid l :
  map React.controller (React.clearFirstChunk sid l) = map React.controller l.
Proof.
  induction l as [|x l IH]; simpl; [reflexivity|].
  destruct (React.controller x =? sid)%nat; simpl; [reflexivity|].
  rewrite IH. reflexivity.
Qed.

Lemma oneLive_step w e : oneLive w -> oneLive (React.step w e).
Proof.
  intros Hw.
  destruct w as [ctx0 next abortRef status chunks lat logs made ctrls
                 gone sess pend sched unh].
  unfold oneLive in *. simpl in Hw.
  destruct e; simpl.
  - unfold React.startInference.
    destruct (negb (truthy profileName) || negb (truthy inferenceText));
      [exact Hw|].
    unfold React.ensureAudioContext, React.abort. simpl.
    destruct ctx0 as [[id st]|]; [destruct st | destruct fresh]; simpl;
      destruct abortRef as [prior|]; simpl;
      intros c [Hc | Hc]; auto;
      destruct (Hw c Hc) as [E | E]; auto; try discriminate;
      injection E as ->; auto.
  - unfold React.onStreamLine, React.onDone, React.onAudio, React.reject.
    simpl. cases; simpl; try exact Hw;
      rewrite clearFirstChunk_controllers; exact Hw.
  - unfold React.onDecoded, React.scheduleBuffer. simpl.
    cases; simpl; exact Hw.
  - unfold React.onDecodeFailed, React.reject. simpl.
    cases; simpl; exact Hw.
  - unfold React.onStreamError. cases; simpl; exact Hw.
  - unfold React.stopInference, React.onContextClosed, React.stopRequested,
      React.resetAudio, React.abort, React.reject, isClosed, close. simpl.
    destruct abortRef as [c0|], ctx0 as [[id st]|]; try destruct st; simpl;
      intros c Hc; destruct (Hw c Hc) as [E | E]; auto; try discriminate.
  - unfold React.stopRequested, React.resetAudio, React.abort, React.reject,
      isClosed. simpl.
    destruct abortRef as [c0|], ctx0 as [[id st]|]; try destruct st; simpl;
      intros c Hc; destruct (Hw c Hc) as [E | E]; auto; try discriminate.
  - unfold React.onContextClosed, React.resetAudio, isClosed. simpl.
    destruct ctx0 as [[id st]|]; try destruct st; simpl; exact Hw.
Qed.

Lemma oneLive_run events : forall w,
  oneLive w -> oneLive (React.run w events).
Proof.
  induction events as [|e events IH]; intros w Hw; [exact Hw|].
  unfold React.run. simpl fold_left.
  fold (React.run (React.step w e) events).
  apply IH. apply oneLive_step. exact Hw.
Qed.

(** In the React component at most one session is live: after any
    events, a session whose request has not been aborted is the one
    [streamAbortRef] holds. *)
Lemma react_one_live_session events c :
  In c (liveSessions (React.run React.initial events)) ->
  React.streamAbortRef (React.run React.initial events) = Some c.
Proof.
  unfold liveSessions. intros Hc. apply filter_In in Hc.
  destruct Hc as [Hin Hlive].
  assert (Hone : oneLive (React.run React.initial events))
    by (apply oneLive_run; intros x []).
  destruct (Hone c Hin) as [E | E]; [exact E|].
  apply negb_true_iff in Hlive.
  assert (Hex : existsb (Nat.eqb c)
                  (React.aborted (React.run React.initial events)) = true).
  { apply existsb_exists. exists c. split; [exact E | apply Nat.eqb_refl]. }
  congruence.
Qed.

End Lifecycle.

(* ===================================================================== *)
(** ** The line handler *)
(* ===================================================================== *)

Section Handler.
Context `{Host} `{TextDecoder}.

Open Scope Q_scope.

Ltac cases :=
  repeat match goal with
         | |- context [match ?x with _ => _ end] => destruct x eqn:?
         | |- context [if ?x then _ else _] => destruct x eqn:?
         end.

(** A line that parses to a value with neither the done marker nor a
    truthy [audio_base64] changes nothing, in either implementation. *)
Lemma unrecognised_line_ignored sid now line data event payload w s :
  JSON_parse line = Some data ->
  member data "event" = inr event -> isDone event = false ->
  member data "audio_base64" = inr payload -> truthyValue payload = false ->
  React.onStreamLine sid now line w = w /\
  Legacy.onStreamLine sid now line s = s.
Proof.
  intros Hp He Hd Ha Ht.
  unfold React.onStreamLine, Legacy.onStreamLine.
  rewrite Hp, He, Hd, Ha.
  destruct payload as [v|]; [rewrite Ht; simpl|];
    split; cases; reflexivity.
Qed.

(** [member] fails on [null] and on nothing else. *)
Lemma member_defined data key :
  data <> JNull -> exists v, member data key = inr v.
Proof.
  intros Hn. destruct data; simpl; try (eexists; reflexivity).
  contradiction Hn. reflexivity.
Qed.

(** C3, as the code behaves. The reader calls the handler on every line
    it emits, whatever the handler did with the lines before: nothing a
    line contains stops the stream. A line that parses to a JSON value
    other than [null] -- every such value can be asked for [event] and
    [audio_base64] -- carrying neither the done marker nor a truthy
    audio payload is ignored without a trace, in both implementations.
    In the legacy handler a line that is not JSON, and the line [null],
    on which reading [data.event] throws, are caught and appended to the
    stream log as a [Parse error] entry. On these two kinds of line the
    React handler changes nothing in the component: it only lets the
    exception go, as the rejection of a promise that nobody holds. *)
Theorem line_handler_recovers :
  (forall body sid now w,
      streamResponseLines (Some body) (React.onStreamLine sid now) w =
      (fold_left (fun w line => React.onStreamLine sid now line w)
         (emittedLines body) w, failure body)) /\
  (forall body sid now s,
      streamTextResponse body (Legacy.onStreamLine sid now) s =
      (fold_left (fun s line => Legacy.onStreamLine sid now line s)
         (emittedLinesLegacy body) s, failure body)) /\
  (forall data key, data <> JNull -> exists v, member data key = inr v) /\
  (forall sid now line data event payload w s,
      JSON_parse line = Some data ->
      member data "event" = inr event -> isDone event = false ->
      member data "audio_base64" = inr payload ->
      truthyValue payload = false ->
      React.onStreamLine sid now line w = w /\
      Legacy.onStreamLine sid now line s = s) /\
  (forall sid now line session s,
      Legacy.findSession sid (Legacy.sessions s) = Some session ->
      JSON_parse line = None ->
      Legacy.onStreamLine sid now line s =
      Legacy.appendLog
        (lit "Parse error: " ++ errorText SyntaxError ++ [newline]) s) /\
  (forall sid now line session s,
      Legacy.findSession sid (Legacy.sessions s) = Some session ->
      JSON_parse line = Some JNull ->
      Legacy.onStreamLine sid now line s =
      Legacy.appendLog
        (lit "Parse error: " ++ errorText TypeError ++ [newline]) s) /\
  (forall sid now line session w,
      React.findSession sid (React.sessions w) = Some session ->
      (JSON_parse line = None ->
       React.onStreamLine sid now line w = React.reject SyntaxError w) /\
      (JSON_parse line = Some JNull ->
       React.onStreamLine sid now line w = React.reject TypeError w)).
Proof.
  split; [|split; [|split; [|split; [|split; [|split]]]]].
  - intros. apply streamResponseLines_fold.
  - intros. apply streamTextResponse_fold.
  - apply member_defined.
  - intros sid now line data event payload w s.
    apply unrecognised_line_ignored.
  - intros sid now line session s Hs Hp.
    unfold Legacy.onStreamLine. rewrite Hs, Hp. reflexivity.
  - intros sid now line session s Hs Hp.
    unfold Legacy.onStreamLine. rewrite Hs, Hp. reflexivity.
  - intros sid now line session w Hs. split; intros Hp;
      unfold React.onStreamLine; rewrite Hs, Hp; reflexivity.
Qed.

(** C8, as the code behaves. When a done record arrives, the React
    handler sets the inference status to [done]; if a latency record
    exists (an audio line came before), its total becomes
    [inference_ms] when that field is present and not null, and the
    rounded elapsed time otherwise; if none exists, none is made. The
    legacy handler shows the elapsed time and "Done.", whatever the
    record carries. *)
Theorem done_record :
  (forall sid now line fields session w,
      React.findSession sid (React.sessions w) = Some session ->
      JSON_parse line = Some (JObject fields) ->
      isDone (field (lit "event") fields) = true ->
      let w' := React.onStreamLine sid now line w in
      let measured :=
        JNumber (inject_Z (Math_round (now - React.startTime session))) in
      React.inferenceStatus w' = React.done /\
      React.latency w' =
        match React.latency w with
        | Some prev =>
            Some {| React.ttfa := React.ttfa prev;
                    React.total :=
                      match field (lit "inference_ms") fields with
                      | None | Some JNull => measured
                      | Some reported => reported
                      end |}
        | None => None
        end) /\
  (forall sid now line fields session s,
      Legacy.findSession sid (Legacy.sessions s) = Some session ->
      JSON_parse line = Some (JObject fields) ->
      isDone (field (lit "event") fields) = true ->
      let s' := Legacy.onStreamLine sid now line s in
      Legacy.streamStatus s' = lit "Done." /\
      Legacy.streamTiming s' =
        lit "Total: " ++ toFixed (now - Legacy.start session) 0 ++ lit " ms").
Proof.
  split.
  - intros sid now line fields session w Hs Hp Hd.
    unfold React.onStreamLine. rewrite Hs, Hp. unfold member. rewrite Hd.
    unfold React.onDone. simpl. split; [reflexivity|].
    destruct (React.latency w); [|reflexivity].
    unfold nullish.
    destruct (field (lit "inference_ms") fields) as [[| | | | |]|];
      reflexivity.
  - intros sid now line fields session s Hs Hp Hd.
    unfold Legacy.onStreamLine. rewrite Hs, Hp. unfold member. rewrite Hd.
    unfold Legacy.onDone. simpl. split; reflexivity.
Qed.

Lemma onDecodeFailed_rest k w :
  React.inferenceStatus (React.onDecodeFailed k w) = React.inferenceStatus w /\
  React.sessions (React.onDecodeFailed k w) = React.sessions w.
Proof.
  unfold React.onDecodeFailed, React.reject. cases; simpl; auto.
Qed.

(** A chunk whose payload fails to decode -- [atob] throws or
    [decodeAudioData] rejects -- starts no source and leaves
    [nextStartTime] and the inference status as they were, and a done
    record that follows still sets the status to [done]. The legacy
    handler catches either failure and appends a [Parse error] entry to
    the stream log. *)
Lemma undecodable_chunk_dropped :
  (forall k w,
      let w' := React.onDecodeFailed k w in
      React.scheduled w' = React.scheduled w /\
      React.nextStartTimeRef w' = React.nextStartTimeRef w /\
      React.inferenceStatus w' = React.inferenceStatus w) /\
  (forall sid now line fields payload session w,
      React.findSession sid (React.sessions w) = Some session ->
      JSON_parse line = Some (JObject fields) ->
      isDone (field (lit "event") fields) = false ->
      field (lit "audio_base64") fields = Some payload ->
      truthyValue (Some payload) = true ->
      atob payload = None ->
      let w' := React.onStreamLine sid now line w in
      React.scheduled w' = React.scheduled w /\
      React.nextStartTimeRef w' = React.nextStartTimeRef w /\
      React.pending w' = React.pending w /\
      React.inferenceStatus w' = React.inferenceStatus w) /\
  (forall k sid now line fields session w,
      React.findSession sid (React.sessions w) = Some session ->
      JSON_parse line = Some (JObject fields) ->
      isDone (field (lit "event") fields) = true ->
      React.inferenceStatus
        (React.onStreamLine sid now line (React.onDecodeFailed k w)) =
      React.done) /\
  (forall k s p,
      nth_error (Legacy.pending s) k = Some p ->
      let s' := Legacy.onDecodeFailed k s in
      Legacy.streamLog s' =
        Legacy.streamLog s ++
        lit "Parse error: " ++ errorText EncodingError ++ [newline] /\
      Legacy.scheduled s' = Legacy.scheduled s /\
      Legacy.nextStart s' = Legacy.nextStart s) /\
  (forall sid now line fields payload session s,
      Legacy.findSession sid (Legacy.sessions s) = Some session ->
      JSON_parse line = Some (JObject fields) ->
      isDone (field (lit "event") fields) = false ->
      field (lit "audio_base64") fields = Some payload ->
      truthyValue (Some payload) = true ->
      atob payload = None ->
      let s' := Legacy.onStreamLine sid now line s in
      Legacy.streamLog s' =
        Legacy.streamLog s ++
        lit "Parse error: " ++ errorText InvalidCharacterError ++ [newline] /\
      Legacy.scheduled s' = Legacy.scheduled s /\
      Legacy.nextStart s' = Legacy.nextStart s /\
      Legacy.pending s' = Legacy.pending s).
Proof.
  split; [|split; [|split; [|split]]].
  - intros k w w'.
    destruct (onDecodeFailed_sameAudio k w) as [_ [B [C _]]].
    destruct (onDecodeFailed_rest k w) as [D _].
    subst w'. rewrite B, C, D. auto.
  - intros sid now line fields payload session w Hs Hp Hd Ha Ht Hb w'.
    destruct (onStreamLine_sameAudio sid now line w) as [_ [B [C _]]].
    fold w' in B, C. rewrite B, C.
    split; [reflexivity|]. split; [reflexivity|].
    subst w'. unfold React.onStreamLine. rewrite Hs, Hp. unfold member.
    rewrite Hd, Ha, Ht. simpl negb. cbv iota.
    unfold React.onAudio. rewrite Hb. unfold React.reject.
    destruct (React.firstChunk session); simpl; auto.
  - intros k sid now line fields session w Hs Hp Hd.
    destruct (onDecodeFailed_rest k w) as [_ E].
    unfold React.onStreamLine. rewrite E, Hs, Hp. unfold member. rewrite Hd.
    reflexivity.
  - intros k s p Hk s'. subst s'. unfold Legacy.onDecodeFailed.
    rewrite Hk. unfold Legacy.caught, Legacy.appendLog. simpl. auto.
  - intros sid now line fields payload session s Hs Hp Hd Ha Ht Hb s'.
    subst s'. unfold Legacy.onStreamLine. rewrite Hs, Hp. unfold member.
    rewrite Hd, Ha, Ht. simpl negb. cbv iota.
    unfold Legacy.onAudio. rewrite Hb.
    unfold Legacy.caught, Legacy.appendLog.
    destruct (Legacy.noFirstChunkTime (Legacy.firstChunkTime session));
      simpl; auto.
Qed.

End Handler.

(* ===================================================================== *)
(** ** The statements at concrete inputs *)
(* ===================================================================== *)

Section Instances.

#[local] Existing Instance Fixture.host.
#[local] Existing Instance Utf8.decoder.

Open Scope Q_scope.

(** A whole stream through the reader, the handler and the scheduler:
    a progress message, two half-second chunks and the done record,
    delivered in reads that cut the lines anywhere. *)
Example stream_end_to_end :
  let bytes := Fixture.bytesOf Fixture.progressLine ++
               Fixture.bytesOf Fixture.audioLine ++
               Fixture.bytesOf Fixture.audioLine ++
               Fixture.bytesOf Fixture.doneLine in
  let body := {| reads := [firstn 30 bytes; firstn 50 (skipn 30 bytes);
                           skipn 80 bytes];
                 failure := None |} in
  let read := fst (streamResponseLines (Some body)
                     (React.onStreamLine 0 120) Fixture.started) in
  let w := React.run read
             [React.Decoded 0 {| duration := 1 # 2 |} (1 # 10) 1000;
              React.Decoded 0 {| duration := 1 # 2 |} (2 # 10) 1001] in
  emittedLines body =
    [Fixture.progressLine; Fixture.audioLine; Fixture.audioLine;
     Fixture.doneLine] /\
  React.unhandled w = [SyntaxError] /\
  React.inferenceStatus w = React.done /\
  React.latency w = Some {| React.ttfa := 120; React.total := JNumber 900 |} /\
  Forall2 Qeq (map startAt (React.scheduled w))
    [15 # 100; (15 # 100) + (1 # 2) - (8 # 1000)].
Proof.
  cbv zeta.
  split; [vm_compute; reflexivity|].
  split; [vm_compute; reflexivity|].
  split; [vm_compute; reflexivity|].
  split; [vm_compute; reflexivity|].
  vm_compute. repeat constructor.
Qed.

Example fixture_streaming_has_pending_decode :
  map decodeSession (React.pending Fixture.streaming) = [0%nat] /\
  React.nextStartTimeRef Fixture.streaming = 0 /\
  React.scheduled Fixture.streaming = [].
Proof. repeat split. Qed.

(** A decode issued before the stop resolves after it. *)
Lemma no_scheduling_after_stop_witness :
  let late := [React.Decoded 0 {| duration := 1 # 2 |} (3 # 10) 1000] in
  let stopped := React.stopInference Fixture.streaming in
  length (React.pending stopped) = 1%nat /\
  React.scheduled (React.run stopped late) = React.scheduled stopped /\
  React.nextStartTimeRef (React.run stopped late) = 0 /\
  React.audioContextRef (React.run stopped late) = None.
Proof.
  cbv zeta. split; [reflexivity|].
  apply (@no_scheduling_after_stop Fixture.host Fixture.streaming
           [React.Decoded 0 {| duration := 1 # 2 |} (3 # 10) 1000]).
  repeat constructor.
Defined.

(** C5 as stated fails once a new session has been started: a decode of
    the stopped session that resolves then finds the new audio context
    and is scheduled, moving [nextStartTime] from 0 to 0.642. *)
Lemma late_decode_scheduled_after_restart :
  let stopped := React.stopInference Fixture.streaming in
  let restarted :=
    React.run stopped
      [React.Start (lit "alvin") (lit "again") ctxRunning 0 5000] in
  let w' := React.step restarted
              (React.Decoded 0 {| duration := 1 # 2 |} (1 # 10) 6000) in
  map decodeSession (React.pending restarted) = [0%nat] /\
  map React.controller (React.sessions restarted) = [1%nat; 0%nat] /\
  React.scheduled restarted = [] /\
  React.nextStartTimeRef restarted == 0 /\
  map (fun p => duration (played p)) (React.scheduled w') = [1 # 2] /\
  React.nextStartTimeRef w' == 642 # 1000.
Proof. cbv zeta. repeat split. Qed.

Lemma nextStartTime_monotone_witness :
  let events := [React.Line 0 130 Fixture.audioLine;
                 React.Decoded 0 {| duration := 1 # 2 |} (3 # 10) 1000;
                 React.Decoded 0 {| duration := 1 # 100 |} (4 # 10) 1001] in
  length (React.scheduled (React.run Fixture.streaming events)) = 2%nat /\
  React.nextStartTimeRef Fixture.streaming <=
  React.nextStartTimeRef (React.run Fixture.streaming events).
Proof.
  cbv zeta. split; [reflexivity|].
  apply (proj2 (@nextStartTime_monotone Fixture.host)).
  repeat constructor; simpl; try discriminate;
    intros buffer E; injection E as <-; unfold Qle; simpl; lia.
Defined.

(** C4 as stated fails for a chunk shorter than the overlap: after a
    one-second chunk, a chunk of 0.004 s moves [nextStartTime] back from
    1.142 to 1.138. *)
Lemma short_chunk_moves_schedule_back :
  let w := React.run Fixture.streaming
             [React.Line 0 130 Fixture.audioLine;
              React.Decoded 0 {| duration := 1 |} (1 # 10) 1000] in
  let w' := React.step w
              (React.Decoded 0 {| duration := 4 # 1000 |} (2 # 10) 1001) in
  length (React.scheduled w) = 1%nat /\
  length (React.scheduled w') = 2%nat /\
  React.nextStartTimeRef w == 1142 # 1000 /\
  React.nextStartTimeRef w' == 1138 # 1000 /\
  React.nextStartTimeRef w' < React.nextStartTimeRef w.
Proof.
  cbv zeta. repeat split; vm_compute; reflexivity.
Qed.

(** Session 0 plays a chunk and is stopped; once the close has settled
    a second session is started, and the first of its chunks to be
    decoded starts at 0.2 + 0.05. *)
Lemma restart_after_stop_witness :
  let played1 := React.run Fixture.streaming
                   [React.Decoded 0 {| duration := 1 # 2 |} (3 # 10) 1000] in
  let stopped :=
    React.onContextClosed (React.run (React.stopRequested played1) []) in
  let started :=
    React.startInference (lit "alvin") (lit "again") ctxRunning (1 # 10) 5000
      stopped in
  let before := React.run started [React.Line 1 5100 Fixture.audioLine] in
  let w' := React.step before
              (React.Decoded 0 {| duration := 1 # 2 |} (2 # 10) 6000) in
  React.nextStartTimeRef stopped = 0 /\
  React.audioContextRef stopped = None /\
  React.pending stopped = [] /\
  map decodeSession (React.pending before) = [1%nat] /\
  map startAt (React.scheduled w') =
    map startAt (React.scheduled stopped) ++
    [Qmax ((2 # 10) + (5 # 100)) (1 # 10)] /\
  Qmax ((2 # 10) + (5 # 100)) (1 # 10) == 25 # 100.
Proof.
  cbv zeta.
  destruct (@restart_after_stop Fixture.host) as [Hstop [_ Hrestart]].
  destruct (Hstop (React.run Fixture.streaming
                     [React.Decoded 0 {| duration := 1 # 2 |} (3 # 10) 1000])
                  []) as [Hz Hc]; [constructor|].
  split; [exact Hz|]. split; [exact Hc|].
  split; [vm_compute; reflexivity|].
  split; [vm_compute; reflexivity|].
  destruct (Hrestart
              (React.onContextClosed
                 (React.run
                    (React.stopRequested
                       (React.run Fixture.streaming
                          [React.Decoded 0 {| duration := 1 # 2 |}
                             (3 # 10) 1000])) []))
              (lit "alvin") (lit "again") ctxRunning (1 # 10) 5000
              [React.Line 1 5100 Fixture.audioLine] 0%nat
              {| duration := 1 # 2 |} (2 # 10) 6000
              {| decodeSession := 1; decodeData := Fixture.audioData;
                 decodeBytes := toBytes (lit "RIFF") |})
    as [_ [_ [_ [_ [Hs Hq]]]]];
    [vm_compute; reflexivity | vm_compute; reflexivity
    | exact Hc | vm_compute; reflexivity
    | constructor; [vm_compute; reflexivity | constructor]
    | vm_compute; reflexivity |].
  split; [exact Hs|].
  rewrite Hq; [reflexivity | unfold Qle; simpl; lia].
Defined.

(** C7 as stated fails when a decode of the stopped session is still in
    flight at the restart. Session 0 is stopped with one decode
    pending; session 1 is started with the clock at 0.1 and issues a
    decode of its own. If that decode resolves first, at 0.2, the first
    chunk of session 1 starts at 0.25. If the decode of session 0
    resolves before it, the first chunk of session 1 starts where the
    stale chunk ends less the overlap: at 10.142 behind a chunk of ten
    seconds, at 1.142 behind a chunk of one. *)
Lemma stale_chunk_delays_restarted_session :
  let stopped :=
    React.run Fixture.streaming [React.StopClicked; React.ContextClosed] in
  let restarted :=
    React.run stopped
      [React.Start (lit "alvin") (lit "again") ctxRunning (1 # 10) 5000;
       React.Line 1 5100 Fixture.audioLine] in
  let own k := React.Decoded k {| duration := 1 # 2 |} (2 # 10) 6001 in
  let stale d := React.Decoded 0 {| duration := d |} (1 # 10) 6000 in
  React.audioContextRef stopped = None /\
  React.nextStartTimeRef stopped = 0 /\
  map decodeSession (React.pending restarted) = [0%nat; 1%nat] /\
  Forall2 Qeq (map startAt (React.scheduled (React.run restarted [own 1%nat])))
    [25 # 100] /\
  Forall2 Qeq
    (map startAt (React.scheduled (React.run restarted [stale 10; own 0%nat])))
    [15 # 100; 10142 # 1000] /\
  Forall2 Qeq
    (map startAt (React.scheduled (React.run restarted [stale 1; own 0%nat])))
    [15 # 100; 1142 # 1000].
Proof.
  cbv zeta. repeat split; vm_compute; repeat constructor.
Qed.

(** A start clicked while [close()] is pending takes the closing
    context for its own; when the close settles, the rest of the stop
    discards it under the new session: the status shows idle, the next
    audio line finds no context to decode with, and nothing is played. *)
Example restart_while_closing :
  let w := React.run Fixture.streaming
             [React.StopClicked;
              React.Start (lit "alvin") (lit "again") ctxRunning (1 # 10) 5000;
              React.ContextClosed;
              React.Line 1 5100 Fixture.audioLine] in
  React.streamAbortRef w = Some 1%nat /\
  liveSessions w = [1%nat] /\
  React.audioContextRef w = None /\
  React.inferenceStatus w = React.idle /\
  React.unhandled w = [TypeError] /\
  map decodeSession (React.pending w) = [0%nat] /\
  React.scheduled w = [].
Proof. cbv zeta. repeat split. Qed.

(** A stream of four lines -- a status record, a progress message, the
    line [null] and the done record -- through both readers and
    handlers. *)
Lemma line_handler_recovers_witness :
  let body := {| reads := [Fixture.bytesOf Fixture.statusLine ++
                           Fixture.bytesOf Fixture.progressLine;
                           Fixture.bytesOf (lit "null") ++
                           Fixture.bytesOf Fixture.doneLine];
                 failure := None |} in
  let lines := [Fixture.statusLine; Fixture.progressLine; lit "null";
                Fixture.doneLine] in
  let parseError e := lit "Parse error: " ++ Fixture.errorMessage e ++ [newline] in
  emittedLines body = lines /\
  streamResponseLines (Some body) (React.onStreamLine 0 130) Fixture.streaming =
    (fold_left (fun w line => React.onStreamLine 0 130 line w) lines
       Fixture.streaming, None) /\
  streamTextResponse body (Legacy.onStreamLine 0 130) Fixture.legacyStreaming =
    (fold_left (fun s line => Legacy.onStreamLine 0 130 line s) lines
       Fixture.legacyStreaming, None) /\
  React.onStreamLine 0 130 Fixture.statusLine Fixture.streaming =
    Fixture.streaming /\
  Legacy.onStreamLine 0 130 Fixture.statusLine Fixture.legacyStreaming =
    Fixture.legacyStreaming /\
  Legacy.onStreamLine 0 130 Fixture.progressLine Fixture.legacyStreaming =
    Legacy.appendLog (parseError SyntaxError) Fixture.legacyStreaming /\
  Legacy.onStreamLine 0 130 (lit "null") Fixture.legacyStreaming =
    Legacy.appendLog (parseError TypeError) Fixture.legacyStreaming /\
  React.onStreamLine 0 130 Fixture.progressLine Fixture.streaming =
    React.reject SyntaxError Fixture.streaming /\
  React.onStreamLine 0 130 (lit "null") Fixture.streaming =
    React.reject TypeError Fixture.streaming.
Proof.
  cbv zeta.
  destruct (@line_handler_recovers Fixture.host Utf8.decoder)
    as [Hreact [Hlegacy [_ [Hignored [Hcaught [Hnull Hthrown]]]]]].
  split; [vm_compute; reflexivity|].
  split; [rewrite Hreact; apply f_equal2; [f_equal; vm_compute; reflexivity | reflexivity]|].
  split; [rewrite Hlegacy; apply f_equal2; [f_equal; vm_compute; reflexivity | reflexivity]|].
  destruct (Hignored 0%nat 130 Fixture.statusLine Fixture.statusData
              None None Fixture.streaming Fixture.legacyStreaming)
    as [Hr Hl]; try reflexivity.
  split; [exact Hr|]. split; [exact Hl|].
  split; [eapply Hcaught; reflexivity|].
  split; [eapply Hnull; reflexivity|].
  split.
  - apply (proj1 (Hthrown 0%nat 130 Fixture.progressLine _
                    Fixture.streaming eq_refl)).
    reflexivity.
  - apply (proj2 (Hthrown 0%nat 130 (lit "null") _
                    Fixture.streaming eq_refl)).
    reflexivity.
Defined.

(** C3 as stated fails on a record that is valid JSON but carries
    neither the done marker nor audio: it is not treated as a log line,
    it leaves no trace at all. *)
Lemma unrecognised_record_not_logged :
  JSON_parse Fixture.statusLine = Some Fixture.statusData /\
  React.step Fixture.streaming (React.Line 0 130 Fixture.statusLine) =
    Fixture.streaming /\
  React.logPanels Fixture.streaming = [] /\
  Legacy.step Fixture.legacyStreaming (Legacy.Line 0 130 Fixture.statusLine) =
    Fixture.legacyStreaming /\
  Legacy.streamLog Fixture.legacyStreaming = [].
Proof. repeat split. Qed.

(** In the React handler a progress message, which is not JSON, makes
    [JSON.parse] throw: the promise of the handler is rejected and
    nothing catches it. The legacy handler catches the same error. *)
Example react_progress_line_throws :
  JSON_parse Fixture.progressLine = None /\
  React.unhandled
    (React.step Fixture.streaming (React.Line 0 130 Fixture.progressLine)) =
    [SyntaxError] /\
  React.logPanels
    (React.step Fixture.streaming (React.Line 0 130 Fixture.progressLine)) = [].
Proof. repeat split. Qed.

Lemma done_record_witness :
  let w' := React.onStreamLine 0 900 Fixture.doneLine Fixture.streaming in
  React.latency Fixture.streaming =
    Some {| React.ttfa := 120; React.total := JNumber 0 |} /\
  React.inferenceStatus w' = React.done /\
  React.latency w' =
    Some {| React.ttfa := 120; React.total := JNumber 900 |}.
Proof.
  cbv zeta. split; [reflexivity|].
  destruct (@done_record Fixture.host) as [Hreact _].
  destruct (Hreact 0%nat 900 Fixture.doneLine
              [(lit "event", JString (lit "done"));
               (lit "inference_ms", JNumber 900)]
              {| React.controller := 0; React.startTime := 0;
                 React.firstChunk := false |}
              Fixture.streaming) as [Hs Hl]; try reflexivity.
  split; [exact Hs | exact Hl].
Defined.

(** C8 as stated fails on a stream whose done record comes before any
    audio line: the record reports 900 ms, the status becomes [done],
    and no total is recorded. *)
Lemma done_before_audio_records_no_total :
  let w' := React.step Fixture.started (React.Line 0 1234 Fixture.doneLine) in
  JSON_parse Fixture.doneLine = Some Fixture.doneData /\
  field (lit "inference_ms")
    [(lit "event", JString (lit "done")); (lit "inference_ms", JNumber 900)] =
    Some (JNumber 900) /\
  React.inferenceStatus w' = React.done /\
  React.latency w' = None.
Proof. repeat split. Qed.

(** The legacy handler shows the elapsed time, 1234 ms, not the 900 ms
    the record reports. *)
Example legacy_done_shows_elapsed_time :
  Legacy.streamTiming
    (Legacy.step Fixture.legacyStarted (Legacy.Line 0 1234 Fixture.doneLine)) =
  lit "Total: 1234 ms".
Proof. reflexivity. Qed.

Example undecodable_chunk_dropped_at_a_line :
  let w' := React.onStreamLine 0 130 Fixture.badAudioLine Fixture.started in
  React.scheduled w' = React.scheduled Fixture.started /\
  React.nextStartTimeRef w' = React.nextStartTimeRef Fixture.started /\
  React.pending w' = React.pending Fixture.started /\
  React.inferenceStatus w' = React.inferenceStatus Fixture.started.
Proof.
  destruct (@undecodable_chunk_dropped Fixture.host) as [_ [Hatob _]].
  apply (Hatob 0%nat 130 Fixture.badAudioLine
           [(lit "audio_base64", JString (lit "<invalid>"))]
           (JString (lit "<invalid>"))
           {| React.controller := 0; React.startTime := 0;
              React.firstChunk := true |});
    reflexivity.
Qed.

(** C9 on the React component. A stream delivers a chunk that is not
    base64 and a chunk that the audio decoder rejects, then the done
    record. Both chunks are dropped, the schedule stays where it was and
    the session ends as done, as the claim says; but nothing reports
    them: no log panel gains an entry and no state of the component
    records the failure, the two exceptions leave as rejections of
    promises that nobody holds. The legacy handler catches the same two
    failures and appends a [Parse error] entry for each. *)
Lemma undecodable_chunk_goes_unreported :
  let w1 := React.step Fixture.started
              (React.Line 0 130 Fixture.badAudioLine) in
  let w2 := React.run w1 [React.Line 0 140 Fixture.audioLine;
                          React.DecodeFailed 0] in
  let w3 := React.step w2 (React.Line 0 900 Fixture.doneLine) in
  let s1 := Legacy.step Fixture.legacyStarted
              (Legacy.Line 0 130 Fixture.badAudioLine) in
  let s2 := Legacy.run s1 [Legacy.Line 0 140 Fixture.audioLine;
                           Legacy.DecodeFailed 0] in
  JSON_parse Fixture.badAudioLine = Some Fixture.badAudioData /\
  atob (JString (lit "<invalid>")) = None /\
  React.scheduled w2 = [] /\
  React.nextStartTimeRef w2 = React.nextStartTimeRef Fixture.started /\
  React.inferenceStatus w2 = React.running /\
  React.inferenceStatus w3 = React.done /\
  React.logPanels w3 = [] /\
  React.inferenceChunks w3 = [] /\
  React.unhandled w3 = [InvalidCharacterError; EncodingError] /\
  Legacy.scheduled s2 = [] /\
  Legacy.streamLog s2 =
    lit "Parse error: " ++ Fixture.errorMessage InvalidCharacterError ++
    [newline] ++
    lit "Parse error: " ++ Fixture.errorMessage EncodingError ++ [newline].
Proof. cbv zeta. repeat split. Qed.

(** C6 on the legacy script: a second click on [streamBtn] while the
    first stream is in flight replaces [state.streamAbort] and calls
    [abort()] on nothing, so the first request goes on and both streams
    schedule on the one context. The React component aborts the first
    controller in the same situation. *)
Lemma legacy_restart_without_abort :
  let again := Legacy.Click (lit "alvin") (lit "again") ctxRunning (1 # 10) 500 in
  let s := Legacy.run Fixture.legacyStreaming [again] in
  let s' := Legacy.run s [Legacy.Line 0 600 Fixture.audioLine;
                          Legacy.Line 1 610 Fixture.audioLine;
                          Legacy.Decoded 0 {| duration := 1 # 2 |} (2 # 10);
                          Legacy.Decoded 0 {| duration := 1 # 2 |} (2 # 10);
                          Legacy.Decoded 0 {| duration := 1 # 2 |} (2 # 10)] in
  Legacy.streamAbort Fixture.legacyStreaming = Some 0%nat /\
  Legacy.streamAbort s = Some 1%nat /\
  Legacy.aborted s = [] /\
  liveSessionsLegacy s = [1%nat; 0%nat] /\
  map decodeSession (Legacy.pending (Legacy.run s
        [Legacy.Line 0 600 Fixture.audioLine;
         Legacy.Line 1 610 Fixture.audioLine])) = [0%nat; 0%nat; 1%nat] /\
  length (Legacy.scheduled s') = 3%nat /\
  (let again' := React.Start (lit "alvin") (lit "again") ctxRunning (1 # 10) 500 in
   React.streamAbortRef Fixture.streaming = Some 0%nat /\
   React.aborted (React.run Fixture.streaming [again']) = [0%nat] /\
   liveSessions (React.run Fixture.streaming [again']) = [1%nat] /\
   React.streamAbortRef (React.run Fixture.streaming [again']) = Some 1%nat).
Proof. cbv zeta. repeat split. Qed.

End Instances.

(* ===================================================================== *)
(** ** More on the line reader *)
(* ===================================================================== *)

Section ReaderShape.
Context `{TextDecoder}.

Lemma splitAtNewlines_none text :
  indexOf text newline = (-1)%Z -> splitAtNewlines text = ([], text).
Proof.
  induction text as [|c text IH]; simpl; [reflexivity|].
  destruct (c =? newline)%N; [discriminate|].
  destruct (indexOf text newline =? -1)%Z eqn:E.
  - intros _. apply Z.eqb_eq in E. rewrite (IH E). reflexivity.
  - intros Hx. pose proof (indexOf_range text newline).
    apply Z.eqb_neq in E. lia.
Qed.

Lemma splitAtNewlines_found text :
  indexOf text newline <> (-1)%Z ->
  splitAtNewlines text =
  (slice text 0 (indexOf text newline) ::
     fst (splitAtNewlines (sliceFrom text (indexOf text newline + 1))),
   snd (splitAtNewlines (sliceFrom text (indexOf text newline + 1)))).
Proof.
  induction text as [|c text IH]; simpl; [congruence|].
  destruct (c =? newline)%N eqn:Ec.
  - intros _. destruct (splitAtNewlines text) as [segs tl] eqn:Es.
    unfold sliceFrom, slice, relIndex. simpl.
    replace (Z.to_nat (Z.min 1 (Z.pos (Pos.of_succ_nat (length text)))))
      with 1%nat by lia.
    simpl. rewrite firstn_all2 by lia. rewrite Es. reflexivity.
  - destruct (indexOf text newline =? -1)%Z eqn:E; [congruence|].
    intros _. apply Z.eqb_neq in E.
    pose proof (indexOf_range text newline) as R.
    rewrite (IH E).
    set (i := indexOf text newline) in *.
    assert (Hs : slice (c :: text) 0 (i + 1) = c :: slice text 0 i).
    { unfold slice, relIndex. simpl length.
      destruct (i + 1 <? 0)%Z eqn:E1; [apply Z.ltb_lt in E1; lia|].
      destruct (i <? 0)%Z eqn:E2; [apply Z.ltb_lt in E2; lia|].
      change (0 <? 0)%Z with false. cbv iota.
      rewrite !Z.min_l by lia. change (Z.to_nat 0) with 0%nat. simpl skipn.
      replace (Z.to_nat (i + 1 - 0)) with (S (Z.to_nat (i - 0))) by lia.
      reflexivity. }
    assert (Hf : sliceFrom (c :: text) (i + 1 + 1) = sliceFrom text (i + 1)).
    { unfold sliceFrom, slice, relIndex. simpl length.
      destruct (i + 1 + 1 <? 0)%Z eqn:E1; [apply Z.ltb_lt in E1; lia|].
      destruct (i + 1 <? 0)%Z eqn:E2; [apply Z.ltb_lt in E2; lia|].
      destruct (Z.of_nat (S (length text)) <? 0)%Z eqn:E3;
        [apply Z.ltb_lt in E3; lia|].
      destruct (Z.of_nat (length text) <? 0)%Z eqn:E4;
        [apply Z.ltb_lt in E4; lia|].
      rewrite !Z.min_id. rewrite !Z.min_l by lia.
      replace (Z.to_nat (i + 1 + 1)) with (S (Z.to_nat (i + 1))) by lia.
      simpl skipn.
      rewrite !firstn_all2; [reflexivity| |]; rewrite length_skipn; lia. }
    rewrite Hs, Hf. reflexivity.
Qed.

(** The inner loop emits the non-empty trimmed segments and keeps the
    tail. *)
Lemma drain_record_split text :
  drain record text [] =
  (trimmedNonEmpty (fst (splitAtNewlines text)), snd (splitAtNewlines text)).
Proof.
  remember (length text) as n eqn:Hn.
  revert text Hn. induction n as [n IH] using lt_wf_ind. intros text Hn.
  rewrite (drain_step record text []). cbv zeta.
  destruct (indexOf text newline =? -1)%Z eqn:E.
  - apply Z.eqb_eq in E. rewrite (splitAtNewlines_none _ E). reflexivity.
  - apply Z.eqb_neq in E.
    pose proof (indexOf_range text newline) as R.
    assert (Hlt : (length (sliceFrom text (indexOf text newline + 1)) < n)%nat)
      by (subst n; apply slice_shorter; lia).
    rewrite drain_record_acc, (IH _ Hlt _ eq_refl).
    rewrite (splitAtNewlines_found _ E). simpl fst. simpl snd.
    unfold trimmedNonEmpty. simpl map. simpl filter.
    destruct (truthy (trim (slice text 0 (indexOf text newline))));
      reflexivity.
Qed.

Lemma trimStart_suffix s :
  exists removed, s = removed ++ trimStart s.
Proof.
  induction s as [|c s [removed IH]]; simpl.
  - exists []. reflexivity.
  - destruct (isWhiteSpace c).
    + exists (c :: removed). simpl. rewrite <- IH. reflexivity.
    + exists []. reflexivity.
Qed.

Lemma trimStart_head s c rest :
  trimStart s = c :: rest -> isWhiteSpace c = false.
Proof.
  induction s as [|x s IH]; simpl; [discriminate|].
  destruct (isWhiteSpace x) eqn:E; [exact IH|].
  intros Heq. injection Heq as <- _. exact E.
Qed.

Lemma trimEnd_prefix s :
  exists removed, s = trimEnd s ++ removed.
Proof.
  destruct (trimStart_suffix (rev s)) as [removed E].
  exists (rev removed). unfold trimEnd.
  rewrite <- rev_app_distr, <- E, rev_involutive. reflexivity.
Qed.

Lemma trimEnd_last s c front :
  trimEnd s = front ++ [c] -> isWhiteSpace c = false.
Proof.
  unfold trimEnd. intros E.
  apply (f_equal (@rev codeunit)) in E.
  rewrite rev_involutive, rev_app_distr in E. simpl in E.
  eapply trimStart_head; exact E.
Qed.

(** What [trim] returns is trimmed. *)
Lemma trim_isTrimmed s : isTrimmed (trim s).
Proof.
  unfold trim. split.
  - intros c rest E.
    destruct (trimEnd_prefix (trimStart s)) as [removed P].
    rewrite E in P. simpl in P. eapply trimStart_head; exact P.
  - intros c front E. eapply trimEnd_last; exact E.
Qed.

(** [trim] takes code units away, it adds none. *)
Lemma trim_incl s c : In c (trim s) -> In c s.
Proof.
  unfold trim. intros Hc.
  destruct (trimEnd_prefix (trimStart s)) as [r1 P1].
  destruct (trimStart_suffix s) as [r2 P2].
  rewrite P2, P1. apply in_or_app. right. apply in_or_app. left. exact Hc.
Qed.

Lemma splitAtNewlines_clean text :
  Forall (fun seg => ~ In newline seg) (fst (splitAtNewlines text)) /\
  ~ In newline (snd (splitAtNewlines text)).
Proof.
  induction text as [|c text [IHs IHt]]; simpl.
  - split; [constructor | intros []].
  - destruct (splitAtNewlines text) as [segs tl]. simpl in IHs, IHt.
    destruct (c =? newline)%N eqn:E.
    + split; [constructor; [intros []|exact IHs] | exact IHt].
    + apply N.eqb_neq in E.
      destruct segs as [|first others]; simpl.
      * split; [constructor|]. intros [Hc | Hc]; [congruence | exact (IHt Hc)].
      * inversion IHs as [|? ? Hf Ho]; subst.
        split; [|exact IHt]. constructor; [|exact Ho].
        intros [Hc | Hc]; [congruence | exact (Hf Hc)].
Qed.

Lemma emittedLines_shape body :
  emittedLines body =
  trimmedNonEmpty
    (fst (splitAtNewlines (decodedText body)) ++
     match failure body with
     | None => [snd (splitAtNewlines (decodedText body))]
     | Some _ => []
     end).
Proof.
  unfold emittedLines, streamResponseLines, decodedText.
  rewrite pump_concat by reflexivity. simpl app.
  rewrite drain_record_split.
  set (parts := splitAtNewlines (snd (decode decoderInit (concat (reads body))))).
  unfold trimmedNonEmpty. rewrite map_app, filter_app.
  destruct (failure body); simpl.
  - rewrite app_nil_r. reflexivity.
  - destruct (truthy (trim (snd parts))); simpl;
      [reflexivity | rewrite app_nil_r; reflexivity].
Qed.

Lemma emittedLines_legacy_same body :
  emittedLinesLegacy body = emittedLines body.
Proof. reflexivity. Qed.

(** X1. What the reader emits is exactly this: the text decoded from all
    the reads is cut at its newlines; every segment that a newline ends
    is trimmed and emitted unless it is then empty, in order; when the
    stream ends normally the tail after the last newline is treated the
    same way, and when a read fails the tail is dropped. Both readers. *)
Theorem reader_emits_trimmed_segments body :
  let segments := fst (splitAtNewlines (decodedText body)) in
  let tail := snd (splitAtNewlines (decodedText body)) in
  let expected :=
    trimmedNonEmpty
      (segments ++ match failure body with None => [tail] | Some _ => [] end) in
  emittedLines body = expected /\ emittedLinesLegacy body = expected.
Proof.
  cbv zeta. split; exact (emittedLines_shape body).
Qed.

(** X2. No line handed to the callback is empty, none contains a
    newline, and none starts or ends with white space. *)
Theorem emitted_lines_are_clean body line :
  In line (emittedLines body) \/ In line (emittedLinesLegacy body) ->
  line <> [] /\ ~ In newline line /\ isTrimmed line.
Proof.
  change (emittedLinesLegacy body) with (emittedLines body).
  rewrite emittedLines_shape.
  intros [Hin | Hin]; unfold trimmedNonEmpty in Hin;
    apply filter_In in Hin; destruct Hin as [Hm Ht];
    apply in_map_iff in Hm; destruct Hm as [seg [<- Hseg]];
    (split; [intros E; rewrite E in Ht; discriminate|]);
    (split; [|apply trim_isTrimmed]);
    intros Hn; apply trim_incl in Hn;
    destruct (splitAtNewlines_clean (decodedText body)) as [Hs Htl];
    apply in_app_or in Hseg; destruct Hseg as [Hseg | Hseg];
    try (rewrite Forall_forall in Hs; exact (Hs _ Hseg Hn));
    destruct (failure body); simpl in Hseg;
    try contradiction;
    destruct Hseg as [<- | []]; exact (Htl Hn).
Qed.

(** X3. A failed read costs at most the unfinished last line: every
    line completed before the failure has been handed over, in the same
    order as if the stream had ended normally there, and which error it
    was makes no difference. *)
Theorem failed_read_drops_only_the_tail values e :
  let tail := snd (splitAtNewlines
                     (decodedText {| reads := values; failure := None |})) in
  emittedLines {| reads := values; failure := None |} =
  emittedLines {| reads := values; failure := Some e |} ++
  trimmedNonEmpty [tail].
Proof.
  cbv zeta. rewrite !emittedLines_shape. unfold decodedText. simpl.
  unfold trimmedNonEmpty. rewrite app_nil_r, map_app, filter_app.
  reflexivity.
Qed.

End ReaderShape.

(* ===================================================================== *)
(** ** More on the scheduler *)
(* ===================================================================== *)

Section SchedulerOrder.

Open Scope Q_scope.

Lemma spaced_cons overlap p q l :
  spaced overlap (p :: q :: l) <->
  startAt p + duration (played p) - overlap <= startAt q /\
  spaced overlap (q :: l).
Proof. reflexivity. Qed.

Lemma safeAttack_bounds buffer :
  2 # 1000 <= duration buffer ->
  0 <= React.safeAttack buffer /\ React.safeAttack buffer <= duration buffer.
Proof.
  intros Hd. unfold React.safeAttack, React.attack, React.fadeFloor.
  assert (Hx : 4 * (duration buffer / 4) == duration buffer) by field.
  set (x := duration buffer / 4) in *. clearbody x.
  destruct (Q.max_spec (2 # 1000) x) as [[H1 E1] | [H1 E1]];
    destruct (Q.min_spec (1 # 100) (Qmax (2 # 1000) x)) as [[H2 E2] | [H2 E2]];
    rewrite E2; rewrite ?E1; rewrite E1 in H2; split; lra.
Qed.

(** X5. For a chunk of at least 2 ms the four automation events of its
    gain envelope are in time order and stay inside the chunk: gain 0 at
    the start, full volume reached no later than the point from which it
    is held, and gain 0 again exactly at the end of the chunk. *)
Theorem envelope_is_ordered w ctx buffer t :
  React.audioContextRef w = Some ctx ->
  2 # 1000 <= duration buffer ->
  exists p,
    React.scheduled (React.scheduleBuffer buffer t w) =
      React.scheduled w ++ [p] /\
    map eventValue (envelope p) = [0; 1; 1; 0] /\
    nondecreasing (map eventTime (envelope p)) /\
    hd 0 (map eventTime (envelope p)) = startAt p /\
    last (map eventTime (envelope p)) 0 = startAt p + duration buffer.
Proof.
  intros Hctx Hd.
  eexists. split; [eapply scheduleBuffer_envelope; exact Hctx|].
  split; [reflexivity|]. split; [|split; reflexivity].
  cbv [envelope React.gainEnvelope map eventTime nondecreasing].
  set (s := Qmax (t + (5 # 100)) (React.nextStartTimeRef w)).
  destruct (safeAttack_bounds buffer Hd) as [Ha0 Had].
  assert (Hr : React.safeRelease buffer == React.safeAttack buffer)
    by reflexivity.
  split; [lra|]. split; [apply Q.le_max_l|]. split; [|exact I].
  apply Q.max_lub; lra.
Qed.

End SchedulerOrder.

(* ===================================================================== *)
(** ** More on the two life cycles *)
(* ===================================================================== *)

Section MoreLifecycle.
Context `{Host}.

Open Scope Q_scope.

Ltac cases :=
  repeat match goal with
         | |- context [match ?x with _ => _ end] => destruct x eqn:?
         | |- context [if ?x then _ else _] => destruct x eqn:?
         end.

(** The audio side of the legacy state. *)
Lemma legacy_onStreamLine_audio sid now line s :
  Legacy.audioCtx (Legacy.onStreamLine sid now line s) = Legacy.audioCtx s /\
  Legacy.nextStart (Legacy.onStreamLine sid now line s) = Legacy.nextStart s /\
  Legacy.scheduled (Legacy.onStreamLine sid now line s) = Legacy.scheduled s.
Proof.
  unfold Legacy.onStreamLine, Legacy.onDone, Legacy.onAudio, Legacy.caught,
    Legacy.appendLog.
  cases; simpl; auto.
Qed.

Lemma legacy_scheduleBuffer_monotone buffer t s :
  0 <= duration buffer ->
  Legacy.nextStart s <= Legacy.nextStart (Legacy.scheduleBuffer buffer t s).
Proof.
  intros Hd. unfold Legacy.scheduleBuffer.
  destruct (Legacy.audioCtx s); simpl; [|apply Qle_refl].
  pose proof (Q.le_max_l (Legacy.nextStart s) (t + (5 # 100))). lra.
Qed.

Lemma legacy_step_monotone s e :
  legacyWithinSession e ->
  Legacy.nextStart s <= Legacy.nextStart (Legacy.step s e).
Proof.
  intros He. destruct e; simpl in *; try contradiction.
  - destruct (legacy_onStreamLine_audio sid now line s) as [_ [B _]].
    rewrite B. apply Qle_refl.
  - unfold Legacy.onDecoded.
    destruct (nth_error (Legacy.pending s) k); [|apply Qle_refl].
    unfold Legacy.appendLog. simpl.
    apply (legacy_scheduleBuffer_monotone buffer currentTime
             (Legacy.setPending (removeNth k (Legacy.pending s)) s) He).
  - unfold Legacy.onDecodeFailed, Legacy.caught, Legacy.appendLog.
    cases; simpl; apply Qle_refl.
  - unfold Legacy.onStreamError. cases; simpl; apply Qle_refl.
  - unfold Legacy.stopStream, Legacy.abort. cases; simpl; apply Qle_refl.
Qed.

Lemma subsequence_refl {A : Type} (l : list A) : subsequence l l.
Proof. induction l; constructor; assumption. Qed.

(** What an event other than a start does to the sources started: it
    starts none, leaving the schedule where it was unless it leaves no
    context at all; or it is a decode that resolves and it starts one
    source for its buffer, at [max(currentTime + 0.05, nextStartTime)],
    moving the schedule to the end of that source less the overlap. *)
Lemma step_starts w e :
  React.isStart e = false ->
  (React.scheduled (React.step w e) = React.scheduled w /\
   decodes [e] = [] /\
   (React.nextStartTimeRef (React.step w e) = React.nextStartTimeRef w \/
    React.audioContextRef (React.step w e) = None)) \/
  (React.scheduled (React.step w e) = React.scheduled w /\
   React.nextStartTimeRef (React.step w e) = React.nextStartTimeRef w /\
   exists c, decodes [e] = [c]) \/
  (exists p t,
     decodes [e] = [(played p, t)] /\
     React.scheduled (React.step w e) = React.scheduled w ++ [p] /\
     startAt p = Qmax (t + (5 # 100)) (React.nextStartTimeRef w) /\
     React.nextStartTimeRef (React.step w e) =
       startAt p + duration (played p) - (8 # 1000)).
Proof.
  intros Hs. destruct e; simpl in Hs; try discriminate.
  - left. destruct (onStreamLine_sameAudio sid now line w) as [_ [B [C _]]].
    simpl. auto.
  - simpl React.step. unfold React.onDecoded.
    destruct (nth_error (React.pending w) k) as [pd|];
      [|right; left; simpl; eauto].
    destruct (React.audioContextRef w) as [ctx|] eqn:Hctx.
    + right. right.
      assert (Hlive : React.audioContextRef
                        (React.setPending (removeNth k (React.pending w)) w) =
                      Some ctx) by exact Hctx.
      rewrite (scheduleBuffer_live buffer currentTime _ Hlive). simpl.
      eexists. exists currentTime.
      split; [|split; [reflexivity|split; reflexivity]]. reflexivity.
    + right. left.
      assert (Hnull : React.audioContextRef
                        (React.setPending (removeNth k (React.pending w)) w) =
                      None) by exact Hctx.
      rewrite (scheduleBuffer_null buffer currentTime _ Hnull). simpl. eauto.
  - left. destruct (onDecodeFailed_sameAudio k w) as [_ [B [C _]]].
    simpl. auto.
  - left. destruct (onStreamError_sameAudio err w) as [_ [B [C _]]].
    simpl. auto.
  - left. destruct (stopInference_audio w) as [A [_ C]].
    split; [exact C|]. split; [reflexivity|]. right. exact A.
  - left. simpl.
    unfold React.stopRequested, React.resetAudio, React.abort, React.reject.
    cases; simpl; auto.
  - left. simpl. unfold React.onContextClosed, React.resetAudio.
    cases; simpl; auto.
Qed.

Lemma silent_run_scheduled events : forall w,
  noStart events -> React.audioContextRef w = None ->
  React.scheduled (React.run w events) = React.scheduled w.
Proof.
  induction events as [|e events IH]; intros w Hn Hc; [reflexivity|].
  inversion Hn as [|? ? He Hrest]; subst.
  destruct (silent_step w e He Hc) as [A [B _]].
  unfold React.run. simpl fold_left.
  fold (React.run (React.step w e) events).
  rewrite (IH _ Hrest A). exact B.
Qed.

Lemma run_cons_events w e events :
  React.run w (e :: events) = React.run (React.step w e) events.
Proof. reflexivity. Qed.

Lemma decodes_cons e events : decodes (e :: events) = decodes [e] ++ decodes events.
Proof. unfold decodes. simpl. rewrite app_nil_r. reflexivity. Qed.

Lemma run_ordered events : forall w,
  noStart events ->
  exists news fed,
    React.scheduled (React.run w events) = React.scheduled w ++ news /\
    subsequence fed (decodes events) /\
    map played news = map fst fed /\
    Forall2 (fun p c => snd c + (5 # 100) <= startAt p) news fed /\
    spaced (8 # 1000) news /\
    startsFrom (React.nextStartTimeRef w) news.
Proof.
  induction events as [|e events IH]; intros w Hn.
  - exists [], []. simpl. rewrite app_nil_r.
    repeat split; constructor.
  - inversion Hn as [|? ? He Hrest]; subst.
    rewrite run_cons_events, decodes_cons.
    destruct (IH (React.step w e) Hrest)
      as [news [fed [Hs [Hsub [Hp [Hf [Hsp Hfrom]]]]]]].
    destruct (step_starts w e He)
      as [[A [D [B | B]]] | [[A [B [c D]]] | [p [t [D [A [Hat B]]]]]]].
    + exists news, fed. rewrite D. simpl app.
      rewrite Hs, A, <- B. auto 10.
    + exists [], []. rewrite D. simpl app.
      rewrite (silent_run_scheduled _ Hrest B), A, app_nil_r.
      repeat split; try constructor.
      clear. induction (decodes events); constructor; assumption.
    + exists news, fed. rewrite D. simpl app.
      rewrite Hs, A, <- B.
      repeat split; auto. constructor. exact Hsub.
    + exists (p :: news), ((played p, t) :: fed). rewrite D. simpl app.
      split; [rewrite Hs, A, <- app_assoc; reflexivity|].
      split; [constructor; exact Hsub|].
      split; [simpl; rewrite Hp; reflexivity|].
      split; [constructor; [simpl; rewrite Hat; apply Q.le_max_l | exact Hf]|].
      split.
      * destruct news as [|q news]; [exact I|].
        apply spaced_cons. split; [|exact Hsp].
        simpl in Hfrom. rewrite B in Hfrom. exact Hfrom.
      * simpl. rewrite Hat. apply Q.le_max_r.
Qed.

Lemma legacy_step_starts s e :
  match e with Legacy.Click _ _ _ _ _ => False | _ => True end ->
  (Legacy.scheduled (Legacy.step s e) = Legacy.scheduled s /\
   Legacy.nextStart (Legacy.step s e) = Legacy.nextStart s /\
   (legacyDecodes [e] = [] \/ exists c, legacyDecodes [e] = [c])) \/
  (exists p t,
     legacyDecodes [e] = [(played p, t)] /\
     Legacy.scheduled (Legacy.step s e) = Legacy.scheduled s ++ [p] /\
     startAt p = Qmax (Legacy.nextStart s) (t + (5 # 100)) /\
     Legacy.nextStart (Legacy.step s e) = startAt p + duration (played p)).
Proof.
  intros He. destruct e; simpl in He; try contradiction.
  - left. destruct (legacy_onStreamLine_audio sid now line s) as [_ [B C]].
    simpl. auto.
  - simpl Legacy.step. unfold Legacy.onDecoded.
    destruct (nth_error (Legacy.pending s) k) as [pd|];
      [|left; simpl; eauto].
    unfold Legacy.scheduleBuffer, Legacy.appendLog. simpl.
    destruct (Legacy.audioCtx s) as [ctx|]; simpl.
    + right. eexists. exists currentTime.
      split; [|split; [reflexivity|split; reflexivity]]. reflexivity.
    + left. eauto.
  - left. simpl. unfold Legacy.onDecodeFailed, Legacy.caught, Legacy.appendLog.
    cases; simpl; auto.
  - left. simpl. unfold Legacy.onStreamError. cases; simpl; auto.
  - left. simpl. unfold Legacy.stopStream, Legacy.abort. cases; simpl; auto.
Qed.

Lemma legacy_run_ordered events : forall s,
  noClick events ->
  exists news fed,
    Legacy.scheduled (Legacy.run s events) = Legacy.scheduled s ++ news /\
    subsequence fed (legacyDecodes events) /\
    map played news = map fst fed /\
    Forall2 (fun p c => snd c + (5 # 100) <= startAt p) news fed /\
    spaced 0 news /\
    startsFrom (Legacy.nextStart s) news.
Proof.
  induction events as [|e events IH]; intros s Hn.
  - exists [], []. simpl. rewrite app_nil_r.
    repeat split; constructor.
  - inversion Hn as [|? ? He Hrest]; subst.
    change (Legacy.run s (e :: events))
      with (Legacy.run (Legacy.step s e) events).
    replace (legacyDecodes (e :: events))
      with (legacyDecodes [e] ++ legacyDecodes events)
      by (unfold legacyDecodes; simpl; rewrite app_nil_r; reflexivity).
    destruct (IH (Legacy.step s e) Hrest)
      as [news [fed [Hs [Hsub [Hp [Hf [Hsp Hfrom]]]]]]].
    destruct (legacy_step_starts s e He)
      as [[A [B [D | [c D]]]] | [p [t [D [A [Hat B]]]]]].
    + exists news, fed. rewrite D. simpl app. rewrite Hs, A, <- B. auto 10.
    + exists news, fed. rewrite D. simpl app. rewrite Hs, A, <- B.
      repeat split; auto. constructor. exact Hsub.
    + exists (p :: news), ((played p, t) :: fed). rewrite D. simpl app.
      split; [rewrite Hs, A, <- app_assoc; reflexivity|].
      split; [constructor; exact Hsub|].
      split; [simpl; rewrite Hp; reflexivity|].
      split; [constructor; [simpl; rewrite Hat; apply Q.le_max_r | exact Hf]|].
      split.
      * destruct news as [|q news]; [exact I|].
        apply spaced_cons. split; [|exact Hsp].
        simpl in Hfrom. rewrite B in Hfrom. lra.
      * simpl. rewrite Hat. apply Q.le_max_l.
Qed.

(** X4. Between two session starts the chunks play in order without
    piling up. Over any events of the React component other than a
    start -- lines, decodes that resolve or reject, stream errors,
    stops -- the sources started are started one per resolved decode,
    in the order in which the decodes resolve; none starts earlier than
    50 ms after the clock reading at which it was scheduled; and two
    consecutive ones overlap by at most 8 ms, whatever their durations
    and the clock. The same holds in the legacy script between two
    clicks on the stream button, with no overlap at all. *)
Theorem chunks_play_in_order_without_pileup :
  (forall w events,
      noStart events ->
      exists news fed,
        React.scheduled (React.run w events) = React.scheduled w ++ news /\
        subsequence fed (decodes events) /\
        map played news = map fst fed /\
        Forall2 (fun p c => snd c + (5 # 100) <= startAt p) news fed /\
        spaced (8 # 1000) news) /\
  (forall s events,
      noClick events ->
      exists news fed,
        Legacy.scheduled (Legacy.run s events) = Legacy.scheduled s ++ news /\
        subsequence fed (legacyDecodes events) /\
        map played news = map fst fed /\
        Forall2 (fun p c => snd c + (5 # 100) <= startAt p) news fed /\
        spaced 0 news).
Proof.
  split.
  - intros w events Hn.
    destruct (run_ordered w Hn) as [news [fed [A [B [C [D [E _]]]]]]].
    exists news, fed. auto.
  - intros s events Hn.
    destruct (legacy_run_ordered s Hn) as [news [fed [A [B [C [D [E _]]]]]]].
    exists news, fed. auto.
Qed.

(** X6. In the legacy script [state.nextStart] never moves back between
    two clicks on the stream button: not for a short chunk, and not when
    the stream is stopped, since stopping leaves the schedule alone. *)
Theorem legacy_schedule_never_moves_back s events :
  Forall legacyWithinSession events ->
  Legacy.nextStart s <= Legacy.nextStart (Legacy.run s events).
Proof.
  revert s. induction events as [|e events IH]; intros s Hall.
  - apply Qle_refl.
  - inversion Hall as [|? ? He Hrest]; subst.
    unfold Legacy.run. simpl fold_left.
    fold (Legacy.run (Legacy.step s e) events).
    apply Qle_trans with (Legacy.nextStart (Legacy.step s e)).
    + apply legacy_step_monotone. exact He.
    + apply IH. exact Hrest.
Qed.

(** X7. Stopping the legacy stream aborts the stored controller and
    forgets it, so a second stop aborts nothing; it leaves the audio
    context, the schedule and the decodes in flight as they are, so a
    decode that resolves after the stop is still started, at
    [max(nextStart, currentTime + 0.05)]. *)
Theorem legacy_stop_leaves_audio_running s :
  let stopped := Legacy.stopStream s in
  Legacy.streamAbort stopped = None /\
  (forall c, Legacy.streamAbort s = Some c ->
             Legacy.aborted stopped = c :: Legacy.aborted s) /\
  Legacy.stopStream stopped = stopped /\
  Legacy.audioCtx stopped = Legacy.audioCtx s /\
  Legacy.nextStart stopped = Legacy.nextStart s /\
  Legacy.pending stopped = Legacy.pending s /\
  (forall k p buffer t ctx,
      Legacy.audioCtx s = Some ctx ->
      nth_error (Legacy.pending s) k = Some p ->
      Legacy.scheduled (Legacy.onDecoded k buffer t stopped) =
      Legacy.scheduled s ++
      [{| played := buffer;
          startAt := Qmax (Legacy.nextStart s) (t + (5 # 100));
          envelope := [] |}]).
Proof.
  cbv zeta.
  destruct s as [abortRef ctx0 next log status timing made ctrls gone sess
                 pend sched].
  unfold Legacy.stopStream, Legacy.abort. simpl.
  destruct abortRef as [c0|]; simpl;
    (split; [reflexivity|]);
    (split; [intros c E; first [injection E as <-; reflexivity | discriminate]|]);
    (split; [reflexivity|]); (split; [reflexivity|]);
    (split; [reflexivity|]); (split; [reflexivity|]);
    intros k p buffer t ctx Hctx Hk; subst ctx0;
    unfold Legacy.onDecoded, Legacy.scheduleBuffer, Legacy.appendLog;
    simpl; rewrite Hk; reflexivity.
Qed.

(** X8. After [ensureAudioContext] an audio context exists and is not
    suspended. A context that exists is kept; one is created only when
    there is none. Calling it again changes nothing, and it never touches
    the schedule or what has been started. *)
Theorem audio_context_is_ensured fresh w :
  let w' := React.ensureAudioContext fresh w in
  (exists ctx,
      React.audioContextRef w' = Some ctx /\
      contextState ctx <> ctxSuspended /\
      contextId ctx = match React.audioContextRef w with
                      | Some old => contextId old
                      | None => React.created w
                      end) /\
  React.created w' = match React.audioContextRef w with
                     | Some _ => React.created w
                     | None => S (React.created w)
                     end /\
  (forall fresh', React.ensureAudioContext fresh' w' = w') /\
  React.nextStartTimeRef w' = React.nextStartTimeRef w /\
  React.scheduled w' = React.scheduled w /\
  React.pending w' = React.pending w.
Proof.
  cbv zeta.
  destruct w as [ctx0 next abortRef status chunks lat logs made ctrls
                 gone sess pend sched unh].
  unfold React.ensureAudioContext. simpl.
  destruct ctx0 as [[id st]|]; [destruct st | destruct fresh]; simpl;
    (split; [eexists; split; [reflexivity|]; split;
             [discriminate | reflexivity]|]);
    repeat split; intros [| |]; reflexivity.
Qed.

Lemma findSession_clearFirstChunk sid l session :
  React.findSession sid l = Some session ->
  React.findSession sid (React.clearFirstChunk sid l) =
  Some {| React.controller := React.controller session;
          React.startTime := React.startTime session;
          React.firstChunk := false |}.
Proof.
  induction l as [|x l IH]; simpl; [discriminate|].
  destruct (React.controller x =? sid)%nat eqn:E; simpl.
  - intros Hx. injection Hx as <-. rewrite E. reflexivity.
  - rewrite E. exact IH.
Qed.

(** X9. The time to first audio is taken when the first line with a
    truthy [audio_base64] of a session arrives: before the payload is
    decoded, and whether or not it then decodes. From then on no line of
    that session changes it; a done record only fills in the total. *)
Theorem time_to_first_audio_is_taken_once sid now line fields payload
    session w :
  React.findSession sid (React.sessions w) = Some session ->
  JSON_parse line = Some (JObject fields) ->
  let w' := React.onStreamLine sid now line w in
  (isDone (field (lit "event") fields) = false ->
   field (lit "audio_base64") fields = Some payload ->
   truthyValue (Some payload) = true ->
   React.firstChunk session = true ->
   React.latency w' =
     Some {| React.ttfa := Math_round (now - React.startTime session);
             React.total := JNumber 0 |} /\
   exists session',
     React.findSession sid (React.sessions w') = Some session' /\
     React.firstChunk session' = false) /\
  (React.firstChunk session = false ->
   forall l, React.latency w = Some l ->
   exists l', React.latency w' = Some l' /\ React.ttfa l' = React.ttfa l).
Proof.
  intros Hs Hp w'. subst w'. unfold React.onStreamLine.
  rewrite Hs, Hp. unfold member. split.
  - intros Hd Ha Ht Hf. rewrite Hd, Ha, Ht. simpl negb. cbv iota.
    unfold React.onAudio. rewrite Hf.
    rewrite (findSession_controller sid (React.sessions w) Hs).
    pose proof (findSession_clearFirstChunk sid (React.sessions w) Hs) as Hc.
    unfold React.reject.
    destruct (atob payload); [destruct (React.audioContextRef _)|]; simpl;
      (split; [reflexivity | eexists; split; [exact Hc | reflexivity]]).
  - intros Hf l Hl.
    destruct (isDone (field (lit "event") fields)).
    + unfold React.onDone. simpl. rewrite Hl. eexists. split; reflexivity.
    + destruct (field (lit "audio_base64") fields) as [v|];
        [|exists l; split; [exact Hl | reflexivity]].
      destruct (negb (truthyValue (Some v)));
        [exists l; split; [exact Hl | reflexivity]|].
      unfold React.onAudio, React.reject. rewrite Hf.
      destruct (atob v); [destruct (React.audioContextRef w)|]; simpl;
        exists l; split; try exact Hl; reflexivity.
Qed.

Lemma onStreamLine_lists sid now line w :
  React.inferenceChunks (React.onStreamLine sid now line w) =
    React.inferenceChunks w.
Proof.
  unfold React.onStreamLine, React.onDone, React.onAudio, React.reject.
  cases; simpl; auto.
Qed.

Lemma quiet_step_lists w e :
  React.isStart e = false ->
  exists sources entries,
    React.scheduled (React.step w e) = React.scheduled w ++ sources /\
    React.inferenceChunks (React.step w e) =
      React.inferenceChunks w ++ entries /\
    (length sources <= length entries)%nat.
Proof.
  intros Hs. destruct e; simpl in *; try discriminate.
  - exists [], [].
    destruct (onStreamLine_sameAudio sid now line w) as [_ [_ [C _]]].
    rewrite C, onStreamLine_lists, !app_nil_r. auto.
  - unfold React.onDecoded.
    destruct (nth_error (React.pending w) k);
      [|exists [], []; rewrite !app_nil_r; auto].
    unfold React.scheduleBuffer. simpl.
    destruct (React.audioContextRef w); simpl.
    + eexists. eexists.
      split; [reflexivity|]. split; [reflexivity|]. simpl. lia.
    + exists []. eexists. rewrite app_nil_r.
      split; [reflexivity|]. split; [reflexivity|]. simpl. lia.
  - exists [], [].
    unfold React.onDecodeFailed, React.reject.
    cases; simpl; rewrite !app_nil_r; auto.
  - exists [], []. unfold React.onStreamError.
    cases; simpl; rewrite !app_nil_r; auto.
  - exists [], [].
    unfold React.stopInference, React.onContextClosed, React.stopRequested,
      React.resetAudio, React.abort, React.reject.
    cases; simpl; rewrite !app_nil_r; auto.
  - exists [], [].
    unfold React.stopRequested, React.resetAudio, React.abort, React.reject.
    cases; simpl; rewrite !app_nil_r; auto.
  - exists [], []. unfold React.onContextClosed, React.resetAudio.
    cases; simpl; rewrite !app_nil_r; auto.
Qed.

(** X10. Every decode that resolves adds one entry to the chunk list,
    with the duration of the buffer, also when nothing is started for it
    because the audio context is gone. So between two starts both the
    chunk list and the list of started sources only grow, and the chunk
    list grows by at least as many entries as sources are started: it
    can count chunks that never played, never the other way round. *)
Theorem chunk_list_counts_every_decode :
  (forall k p buffer t date w,
      nth_error (React.pending w) k = Some p ->
      let w' := React.onDecoded k buffer t date w in
      React.inferenceChunks w' =
        React.inferenceChunks w ++
        [{| React.index := match decodeData p with
                           | JObject fields => field (lit "chunk_index") fields
                           | _ => None
                           end;
            React.chunkDuration := duration buffer;
            React.receivedAt := date |}] /\
      React.pending w' = removeNth k (React.pending w) /\
      (React.audioContextRef w = None ->
       React.scheduled w' = React.scheduled w)) /\
  (forall events w,
      noStart events ->
      exists sources entries,
        React.scheduled (React.run w events) = React.scheduled w ++ sources /\
        React.inferenceChunks (React.run w events) =
          React.inferenceChunks w ++ entries /\
        (length sources <= length entries)%nat).
Proof.
  split.
  - intros k p buffer t date w Hk w'. subst w'. unfold React.onDecoded.
    rewrite Hk. unfold React.scheduleBuffer. simpl.
    assert (Hi : match member (decodeData p) "chunk_index" with
                 | inl _ => None
                 | inr v => v
                 end =
                 match decodeData p with
                 | JObject fields => field (lit "chunk_index") fields
                 | _ => None
                 end) by (destruct (decodeData p); reflexivity).
    destruct (React.audioContextRef w); simpl; rewrite Hi;
      repeat split; try reflexivity; discriminate.
  - induction events as [|e events IH]; intros w Hn.
    + exists [], []. simpl. rewrite !app_nil_r. auto.
    + inversion Hn as [|? ? He Hrest]; subst.
      unfold React.run. simpl fold_left.
      fold (React.run (React.step w e) events).
      destruct (quiet_step_lists w e He) as [s1 [c1 [A1 [B1 L1]]]].
      destruct (IH (React.step w e) Hrest) as [s2 [c2 [A2 [B2 L2]]]].
      exists (s1 ++ s2), (c1 ++ c2).
      rewrite A2, B2, A1, B1, <- !app_assoc, !length_app.
      repeat split. lia.
Qed.

Lemma step_keeps_out_of_error w e :
  match e with
  | React.StreamError err => isAbortError err = true
  | _ => True
  end ->
  React.inferenceStatus w <> React.error ->
  React.inferenceStatus (React.step w e) <> React.error.
Proof.
  intros He Hw. destruct e; simpl.
  - unfold React.startInference, React.ensureAudioContext, React.abort.
    cases; simpl; try exact Hw; discriminate.
  - unfold React.onStreamLine, React.onDone, React.onAudio, React.reject.
    cases; simpl; try exact Hw; discriminate.
  - unfold React.onDecoded, React.scheduleBuffer.
    cases; simpl; exact Hw.
  - unfold React.onDecodeFailed, React.reject. cases; simpl; exact Hw.
  - unfold React.onStreamError. rewrite He. exact Hw.
  - unfold React.stopInference, React.onContextClosed, React.stopRequested,
      React.resetAudio, React.abort, React.reject.
    cases; simpl; try exact Hw; discriminate.
  - unfold React.stopRequested, React.resetAudio, React.abort, React.reject.
    cases; simpl; try exact Hw; discriminate.
  - unfold React.onContextClosed, React.resetAudio.
    cases; simpl; try exact Hw; discriminate.
Qed.

(** X11. The inference step shows an error only for a failure of the
    transport that is not an abort. Neither the [AbortError] that a stop
    or a restart provokes, nor anything that goes wrong inside the line
    handler -- a line that is not JSON, a payload that does not decode,
    a missing audio context -- ever sets the status to [error]. *)
Theorem only_transport_failures_show_as_error w events :
  onlyAborts events ->
  React.inferenceStatus w <> React.error ->
  React.inferenceStatus (React.run w events) <> React.error.
Proof.
  revert w. induction events as [|e events IH]; intros w Ho Hw; [exact Hw|].
  inversion Ho as [|? ? He Hrest]; subst.
  unfold React.run. simpl fold_left.
  fold (React.run (React.step w e) events).
  apply IH; [exact Hrest|]. apply step_keeps_out_of_error; assumption.
Qed.

End MoreLifecycle.

(* ===================================================================== *)
(** ** The steps of the component *)
(* ===================================================================== *)

Section Steps.
Context `{Host}.

Open Scope Z_scope.

Ltac cases :=
  repeat match goal with
         | |- context [match ?x with _ => _ end] => destruct x eqn:?
         | |- context [if ?x then _ else _] => destruct x eqn:?
         end.

Lemma canProceedTo_range n s :
  Workflow.canProceedTo n s = true -> 1 <= n <= 4.
Proof.
  unfold Workflow.canProceedTo.
  destruct (n =? 1) eqn:E1; [apply Z.eqb_eq in E1; lia|].
  destruct (n =? 2) eqn:E2; [apply Z.eqb_eq in E2; lia|].
  destruct (n =? 3) eqn:E3; [apply Z.eqb_eq in E3; lia|].
  destruct (n =? 4) eqn:E4; [apply Z.eqb_eq in E4; lia|].
  discriminate.
Qed.

Lemma canProceedTo_setActiveStep n k s :
  Workflow.canProceedTo n (Workflow.setActiveStep k s) =
  Workflow.canProceedTo n s.
Proof. reflexivity. Qed.

Lemma step_keeps_range s e :
  1 <= Workflow.activeStep s <= 4 ->
  1 <= Workflow.activeStep (Workflow.step s e) <= 4.
Proof.
  intros Hs. destruct e; simpl; try exact Hs; try lia.
  - unfold Workflow.selectProfile. simpl.
    destruct (Workflow.has_profile item); lia.
  - unfold Workflow.clickStep.
    destruct (Workflow.canProceedTo step s) eqn:E; [|exact Hs].
    simpl. exact (canProceedTo_range step s E).
  - unfold Workflow.previous.
    destruct (Workflow.activeStep s >? 1) eqn:E; [|exact Hs].
    simpl. apply Z.gtb_lt in E. lia.
  - unfold Workflow.next.
    destruct (Workflow.canProceedTo (Workflow.activeStep s + 1) s &&
              (Workflow.activeStep s <? 4)) eqn:E; [|exact Hs].
    simpl. apply andb_prop in E. destruct E as [_ E].
    apply Z.ltb_lt in E. lia.
  - unfold Workflow.handleUpload. cases; exact Hs.
  - unfold Workflow.startPreprocess. cases; exact Hs.
  - unfold Workflow.onPreprocessLine. cases; exact Hs.
  - unfold Workflow.startTraining. cases; exact Hs.
  - unfold Workflow.onTrainLine. cases; exact Hs.
Qed.

(** X12. Whatever the user and the server do, the active step is one of
    the four steps: a step button asked for any other number does
    nothing, "Previous" stops at 1 and "Next Stage" at 4. *)
Theorem active_step_stays_in_range events :
  1 <= Workflow.activeStep (Workflow.run Workflow.initial events) <= 4.
Proof.
  assert (G : forall s, 1 <= Workflow.activeStep s <= 4 ->
                        1 <= Workflow.activeStep (Workflow.run s events) <= 4).
  { induction events as [|e events IH]; intros s Hs; [exact Hs|].
    unfold Workflow.run. simpl fold_left.
    fold (Workflow.run (Workflow.step s e) events).
    apply IH. apply step_keeps_range. exact Hs. }
  apply G. simpl. lia.
Qed.

(** X13. The step buttons and "Next Stage" open a step only when
    [canProceedTo] allows it at that moment; a preprocess that ends well
    always opens step 3 and a training that ends well step 4, since each
    sets the status that the gate of its next step tests. *)
Theorem navigation_respects_the_gate :
  (forall n s,
      let s' := Workflow.clickStep n s in
      s' = s \/
      (Workflow.activeStep s' = n /\ Workflow.canProceedTo n s' = true)) /\
  (forall s,
      let s' := Workflow.next s in
      s' = s \/
      (Workflow.activeStep s' = Workflow.activeStep s + 1 /\
       Workflow.canProceedTo (Workflow.activeStep s') s' = true)) /\
  (forall s,
      Workflow.activeStep (Workflow.onPreprocessed s) = 3 /\
      Workflow.canProceedTo 3 (Workflow.onPreprocessed s) = true) /\
  (forall s,
      Workflow.activeStep (Workflow.onTrained s) = 4 /\
      Workflow.canProceedTo 4 (Workflow.onTrained s) = true).
Proof.
  split; [|split; [|split]].
  - intros n s. cbv zeta. unfold Workflow.clickStep.
    destruct (Workflow.canProceedTo n s) eqn:E; [right | left; reflexivity].
    split; [reflexivity | exact E].
  - intros s. cbv zeta. unfold Workflow.next.
    destruct (Workflow.canProceedTo (Workflow.activeStep s + 1) s &&
              (Workflow.activeStep s <? 4)) eqn:E; [right | left; reflexivity].
    apply andb_prop in E. destruct E as [E _].
    split; [reflexivity | exact E].
  - intros s. split; reflexivity.
  - intros s. split; reflexivity.
Qed.

Lemma quiet_keeps_no_upload s e :
  notUploaded e ->
  Workflow.lastUploadedFilename s = None ->
  Workflow.lastUploadedFilename (Workflow.step s e) = None.
Proof.
  intros He Hs. destruct e; simpl in *; try contradiction; try exact Hs;
    try reflexivity.
  - unfold Workflow.clickStep. cases; exact Hs.
  - unfold Workflow.previous. cases; exact Hs.
  - unfold Workflow.next. cases; exact Hs.
  - unfold Workflow.handleUpload. cases; exact Hs.
  - unfold Workflow.startPreprocess. rewrite Hs.
    rewrite orb_true_r. exact Hs.
  - unfold Workflow.onPreprocessLine. cases; exact Hs.
  - unfold Workflow.startTraining. cases; exact Hs.
  - unfold Workflow.onTrainLine. cases; exact Hs.
Qed.

(** X14. Picking an existing profile forgets the uploaded file, and
    until an upload has succeeded again "Commence Preprocessing" does
    nothing, whatever else happens in between: no status change, no log
    entry. *)
Theorem no_preprocess_without_upload item s events stamp :
  Forall notUploaded events ->
  let s' := Workflow.run (Workflow.selectProfile item s) events in
  Workflow.lastUploadedFilename s' = None /\
  Workflow.startPreprocess stamp s' = s'.
Proof.
  intros Hall s'.
  assert (Hn : Workflow.lastUploadedFilename s' = None).
  { subst s'.
    assert (G : forall t, Workflow.lastUploadedFilename t = None ->
                          Workflow.lastUploadedFilename (Workflow.run t events)
                          = None).
    { induction events as [|e events IH]; intros t Ht; [exact Ht|].
      inversion Hall as [|? ? He Hrest]; subst.
      unfold Workflow.run. simpl fold_left.
      fold (Workflow.run (Workflow.step t e) events).
      apply (IH Hrest). apply quiet_keeps_no_upload; assumption. }
    apply G. reflexivity. }
  split; [exact Hn|].
  unfold Workflow.startPreprocess. rewrite Hn. rewrite orb_true_r.
  reflexivity.
Qed.

Lemma run_cons s e events :
  Workflow.run s (e :: events) = Workflow.run (Workflow.step s e) events.
Proof. reflexivity. Qed.

Lemma onTrainLine_logs profileName stamp line s :
  Workflow.trainLogs (Workflow.onTrainLine profileName stamp line s) =
  Workflow.trainLogs s ++
  [Workflow.createLog stamp line (Workflow.lineLevel line)].
Proof. unfold Workflow.onTrainLine. cases; reflexivity. Qed.

Lemma onPreprocessLine_logs stamp line s :
  Workflow.preprocessLogs (Workflow.onPreprocessLine stamp line s) =
  Workflow.preprocessLogs s ++
  [Workflow.createLog stamp line (Workflow.lineLevel line)].
Proof. unfold Workflow.onPreprocessLine. cases; reflexivity. Qed.

(** X15. The log panel of a step shows every line of the stream once,
    in the order of arrival and word for word, after what it showed
    before; a line is marked as an error exactly when it contains
    "Error". Lines that also update the statistics are logged like the
    others. *)
Theorem log_panels_show_every_line :
  (forall lines s,
      Workflow.preprocessLogs (Workflow.run s (preprocessEvents lines)) =
      Workflow.preprocessLogs s ++ lineEntries lines) /\
  (forall profileName lines s,
      Workflow.trainLogs (Workflow.run s (trainEvents profileName lines)) =
      Workflow.trainLogs s ++ lineEntries lines) /\
  (forall stamp line,
      Workflow.message (Workflow.createLog stamp line (Workflow.lineLevel line))
        = line /\
      (Workflow.level (Workflow.createLog stamp line (Workflow.lineLevel line))
         = React.errorLevel <->
       Text.includes line (lit "Error") = true)).
Proof.
  split; [|split].
  - induction lines as [|[stamp line] lines IH]; intros s.
    + simpl. rewrite app_nil_r. reflexivity.
    + unfold preprocessEvents. simpl map. rewrite run_cons.
      fold (preprocessEvents lines). rewrite IH. simpl Workflow.step.
      rewrite onPreprocessLine_logs, <- app_assoc. reflexivity.
  - intros profileName.
    induction lines as [|[stamp line] lines IH]; intros s.
    + simpl. rewrite app_nil_r. reflexivity.
    + unfold trainEvents. simpl map. rewrite run_cons.
      fold (trainEvents profileName lines). rewrite IH. simpl Workflow.step.
      rewrite onTrainLine_logs, <- app_assoc. reflexivity.
  - intros stamp line. split; [reflexivity|].
    unfold Workflow.lineLevel. simpl.
    destruct (Text.includes line (lit "Error")); split; intros E;
      try reflexivity; discriminate.
Qed.

(** An integer below [2^53] in absolute value is a double. *)
Lemma round_safe z : Double.safe z -> Double.round z = Double.Finite z.
Proof.
  unfold Double.safe. intros Hz. unfold Double.round.
  assert (He : Z.max 0 (Z.log2 (Z.abs z) + 1 - 53) = 0).
  { destruct (Z.eq_dec (Z.abs z) 0) as [E | E].
    - rewrite E. reflexivity.
    - assert (Hl : Z.log2 (Z.abs z) < 53).
      { apply Z.log2_lt_pow2; [pose proof (Z.abs_nonneg z); lia | exact Hz]. }
      apply Z.max_l. lia. }
  rewrite He. unfold Double.dropBits.
  change (0 <=? 0) with true. cbv iota.
  rewrite Z.pow_0_r, Z.mul_1_r.
  destruct (2 ^ 1024 <=? Z.abs z) eqn:E.
  - apply Z.leb_le in E.
    assert (2 ^ 53 < 2 ^ 1024) by (apply Z.pow_lt_mono_r; lia). lia.
  - f_equal. destruct z; reflexivity.
Qed.

Lemma isCount_safe n : isCount n -> Double.safe n.
Proof. unfold isCount, Double.safe. lia. Qed.

Lemma addStep_exact b n :
  0 <= b -> 0 <= n -> isCount (b + n) ->
  addStep (Double.Finite b) (Double.Finite n) = Double.Finite (b + n).
Proof.
  intros Hb Hn Hc. unfold addStep. simpl.
  destruct (b =? 0) eqn:E; simpl.
  - apply Z.eqb_eq in E. subst b. reflexivity.
  - apply round_safe. apply isCount_safe. exact Hc.
Qed.

Lemma addSteps_exact ns : forall b,
  0 <= b -> Forall (fun n => 0 <= n) ns -> isCount (b + sumZ ns) ->
  fold_left addStep (map Double.Finite ns) (Double.Finite b) =
  Double.Finite (b + sumZ ns).
Proof.
  induction ns as [|n ns IH]; intros b Hb Hns Hc; simpl.
  - f_equal. lia.
  - inversion Hns as [|? ? Hn Hrest]; subst.
    assert (Hsum : 0 <= sumZ ns).
    { clear - Hrest. induction Hrest; simpl; lia. }
    simpl in Hc. unfold isCount in Hc.
    rewrite addStep_exact; [|lia|exact Hn|unfold isCount; lia].
    rewrite IH; [f_equal; lia | lia | exact Hrest | unfold isCount; lia].
Qed.

Lemma digitsValue_acc g : forall acc,
  Forall (fun c => Text.isDigit c = true) g -> 0 <= acc ->
  0 <= fold_left (fun n c => 10 * n + (Z.of_N c - 48)) g acc.
Proof.
  induction g as [|c g IH]; intros acc Hg Hacc; cbn [fold_left];
    [exact Hacc|].
  inversion Hg as [|? ? Hc Hrest]; subst.
  apply IH; [exact Hrest|].
  unfold Text.isDigit in Hc. apply andb_prop in Hc. destruct Hc as [Hc _].
  apply N.leb_le in Hc. lia.
Qed.

(** [Number] of a numeral below [2^53] is the integer it writes. *)
Lemma Number_exact g :
  isNumeral g -> Text.digitsValue g < 2 ^ 53 ->
  isCount (Text.digitsValue g) /\
  Text.Number g = Double.Finite (Text.digitsValue g).
Proof.
  intros [_ Hg] Hlt.
  assert (H0 : 0 <= Text.digitsValue g)
    by (apply digitsValue_acc; [exact Hg | lia]).
  split; [unfold isCount; lia|].
  unfold Text.Number. apply round_safe. unfold Double.safe. lia.
Qed.

Lemma onTrainLine_stats profileName stamp line s :
  match epochReport line with
  | None =>
      Workflow.trainStats (Workflow.onTrainLine profileName stamp line s) =
      Workflow.trainStats s
  | Some (current, total, step) =>
      Workflow.trainStats (Workflow.onTrainLine profileName stamp line s) =
      Some {| Workflow.currentEpoch := current;
              Workflow.totalEpochs := total;
              Workflow.steps := addStep (stepsSoFar s) step;
              Workflow.eta :=
                numberText (Workflow.epochsLeft total current) ++
                lit " epochs";
              Workflow.gpuMemory := lit "GPU active";
              Workflow.bestCheckpoint :=
                lit "outputs/training/" ++ profileName |}
  end.
Proof.
  unfold epochReport, Workflow.onTrainLine.
  destruct (Text.search Workflow.epochPattern line)
    as [[|a [|b [|c [|d [|? ?]]]]]|]; try reflexivity.
  simpl. unfold stepsSoFar, addStep.
  destruct (Workflow.trainStats s) as [prev|]; reflexivity.
Qed.

Lemma lastOf_none {A : Type} (l : list A) : lastOf l = None -> l = [].
Proof.
  destruct l as [|x l]; [reflexivity|]. simpl.
  destruct (lastOf l); discriminate.
Qed.

Lemma train_lines_stats profileName lines : forall s,
  let s' := Workflow.run s (trainEvents profileName lines) in
  let found := reports epochReport (map snd lines) in
  match lastOf found with
  | None => Workflow.trainStats s' = Workflow.trainStats s
  | Some (current, total, _) =>
      exists stats,
        Workflow.trainStats s' = Some stats /\
        Workflow.currentEpoch stats = current /\
        Workflow.totalEpochs stats = total /\
        Workflow.steps stats =
          fold_left addStep (map snd found) (stepsSoFar s) /\
        Workflow.eta stats =
          numberText (Workflow.epochsLeft total current) ++ lit " epochs" /\
        Workflow.bestCheckpoint stats = lit "outputs/training/" ++ profileName
  end.
Proof.
  induction lines as [|[stamp line] lines IH]; intros s; cbv zeta.
  - reflexivity.
  - unfold trainEvents. simpl map. rewrite run_cons.
    fold (trainEvents profileName lines). simpl Workflow.step.
    pose proof (onTrainLine_stats profileName stamp line s) as H1.
    specialize (IH (Workflow.onTrainLine profileName stamp line s)).
    cbv zeta in IH. simpl reports.
    destruct (epochReport line) as [[[current total] step]|].
    + simpl lastOf. simpl map. simpl fold_left.
      destruct (lastOf (reports epochReport (map snd lines)))
        as [[[c2 t2] st2]|] eqn:El.
      * destruct IH as [stats [A [B [C [D [E F]]]]]].
        exists stats. repeat split; try assumption.
        rewrite D. unfold stepsSoFar at 1. rewrite H1. reflexivity.
      * apply lastOf_none in El. rewrite El.
        eexists. split; [rewrite IH; exact H1|]. simpl.
        repeat split.
    + destruct (lastOf (reports epochReport (map snd lines)))
        as [[[c2 t2] st2]|].
      * destruct IH as [stats [A [B [C [D [E F]]]]]].
        exists stats. repeat split; try assumption.
        rewrite D. unfold stepsSoFar. rewrite H1. reflexivity.
      * rewrite IH. exact H1.
Qed.

Lemma epochsLeft_exact c t :
  isCount c -> isCount t ->
  Workflow.epochsLeft (Double.Finite t) (Double.Finite c) =
  Double.Finite (Z.max 0 (t - c)).
Proof.
  unfold isCount. intros Hc Ht. unfold Workflow.epochsLeft, Double.sub.
  simpl Double.opp. simpl Double.add.
  rewrite round_safe; [reflexivity | unfold Double.safe; lia].
Qed.

(** X16. While a training stream is read, the statistics show the epoch
    numbers of the last line that reported them and, as steps, the step
    numbers of all reporting lines added one by one, as doubles, to what
    was counted before (a count of zero is replaced, not added to); the
    epochs left are [Math.max(0, total - current)]. Lines that report
    nothing leave the statistics alone. As long as the numbers stay
    below [2^53] no rounding takes place: the steps are the exact sum,
    and the epochs left the exact difference, or zero when that is
    negative. *)
Theorem training_statistics_accumulate profileName lines s :
  let s' := Workflow.run s (trainEvents profileName lines) in
  let found := reports epochReport (map snd lines) in
  match lastOf found with
  | None => Workflow.trainStats s' = Workflow.trainStats s
  | Some (current, total, _) =>
      exists stats,
        Workflow.trainStats s' = Some stats /\
        Workflow.currentEpoch stats = current /\
        Workflow.totalEpochs stats = total /\
        Workflow.steps stats =
          fold_left addStep (map snd found) (stepsSoFar s) /\
        Workflow.eta stats =
          numberText (Workflow.epochsLeft total current) ++ lit " epochs" /\
        (forall before ns,
            stepsSoFar s = Double.Finite before -> 0 <= before ->
            map snd found = map Double.Finite ns ->
            Forall (fun n => 0 <= n) ns ->
            isCount (before + sumZ ns) ->
            Workflow.steps stats = Double.Finite (before + sumZ ns)) /\
        (forall c t,
            current = Double.Finite c -> total = Double.Finite t ->
            isCount c -> isCount t ->
            Workflow.epochsLeft total current =
            Double.Finite (Z.max 0 (t - c)))
  end.
Proof.
  cbv zeta.
  pose proof (train_lines_stats profileName lines s) as G. cbv zeta in G.
  destruct (lastOf (reports epochReport (map snd lines)))
    as [[[current total] step]|]; [|exact G].
  destruct G as [stats [A [B [C [D [E F]]]]]].
  exists stats. repeat split; try assumption.
  - intros before ns Hb H0 Hm Hns Hc.
    rewrite D, Hb, Hm. apply addSteps_exact; assumption.
  - intros c t -> -> Hc Ht. apply epochsLeft_exact; assumption.
Qed.

Lemma onPreprocessLine_stats stamp line s :
  match segmentsReport line with
  | None =>
      Workflow.preprocessStats (Workflow.onPreprocessLine stamp line s) =
      Workflow.preprocessStats s
  | Some (merged, kept) =>
      Workflow.preprocessStats (Workflow.onPreprocessLine stamp line s) =
      Some {| Workflow.statsDuration := Workflow.emDash;
              Workflow.segmentsKept := kept;
              Workflow.segmentsFiltered := Double.sub merged kept;
              Workflow.avgClipLength := Workflow.emDash;
              Workflow.sampleRate := lit "24 kHz" |}
  end.
Proof.
  unfold segmentsReport, Workflow.onPreprocessLine.
  destruct (Text.search Workflow.segmentsPattern line)
    as [[|a [|b [|c [|? ?]]]]|]; reflexivity.
Qed.

Lemma filtered_exact m k :
  isCount m -> isCount k ->
  Double.sub (Double.Finite m) (Double.Finite k) = Double.Finite (m - k) /\
  Double.add (Double.Finite k) (Double.Finite (m - k)) = Double.Finite m.
Proof.
  unfold isCount. intros Hm Hk. unfold Double.sub. simpl.
  split.
  - rewrite round_safe; [f_equal; lia | unfold Double.safe; lia].
  - replace (k + (m - k)) with m by lia.
    apply round_safe. unfold Double.safe. lia.
Qed.

(** X17. While a preprocess stream is read, the statistics are those of
    the last line that reported segment counts: the kept count as
    reported, and as filtered count the double [merged - kept]. Other
    lines leave them alone. As long as both counts are below [2^53] the
    filtered count is the exact difference (negative when a line reports
    more kept than merged), and kept plus filtered gives the merged
    count back. *)
Theorem preprocess_statistics_follow_last_report lines : forall s,
  let s' := Workflow.run s (preprocessEvents lines) in
  match lastOf (reports segmentsReport (map snd lines)) with
  | None => Workflow.preprocessStats s' = Workflow.preprocessStats s
  | Some (merged, kept) =>
      exists stats,
        Workflow.preprocessStats s' = Some stats /\
        Workflow.segmentsKept stats = kept /\
        Workflow.segmentsFiltered stats = Double.sub merged kept /\
        (forall m k,
            merged = Double.Finite m -> kept = Double.Finite k ->
            isCount m -> isCount k ->
            Workflow.segmentsFiltered stats = Double.Finite (m - k) /\
            Double.add (Workflow.segmentsKept stats)
                       (Workflow.segmentsFiltered stats) = merged)
  end.
Proof.
  assert (Hexact : forall merged kept m k,
    merged = Double.Finite m -> kept = Double.Finite k ->
    isCount m -> isCount k ->
    Double.sub merged kept = Double.Finite (m - k) /\
    Double.add kept (Double.sub merged kept) = merged).
  { intros merged kept m k -> -> Hm Hk.
    destruct (filtered_exact Hm Hk) as [A B]. rewrite A. auto. }
  induction lines as [|[stamp line] lines IH]; intros s; cbv zeta.
  - reflexivity.
  - unfold preprocessEvents. simpl map. rewrite run_cons.
    fold (preprocessEvents lines). simpl Workflow.step.
    pose proof (onPreprocessLine_stats stamp line s) as H1.
    specialize (IH (Workflow.onPreprocessLine stamp line s)).
    cbv zeta in IH. simpl reports.
    destruct (segmentsReport line) as [[merged kept]|].
    + simpl lastOf.
      destruct (lastOf (reports segmentsReport (map snd lines)))
        as [[m2 k2]|]; [exact IH|].
      eexists. split; [rewrite IH; exact H1|]. simpl.
      split; [reflexivity|]. split; [reflexivity|].
      intros m k Hm Hk Cm Ck. exact (Hexact _ _ _ _ Hm Hk Cm Ck).
    + destruct (lastOf (reports segmentsReport (map snd lines)))
        as [[m2 k2]|]; [exact IH|].
      rewrite IH. exact H1.
Qed.

Lemma isPrefix_split p : forall s,
  Text.isPrefix p s = true -> s = p ++ skipn (length p) s.
Proof.
  induction p as [|x p IH]; intros s; simpl; [reflexivity|].
  destruct s as [|y s]; [discriminate|].
  intros E. apply andb_prop in E. destruct E as [E1 E2].
  apply N.eqb_eq in E1. subst y. rewrite <- (IH s E2). reflexivity.
Qed.

Lemma takeDigits_split s :
  s = fst (Text.takeDigits s) ++ snd (Text.takeDigits s) /\
  Forall (fun c => Text.isDigit c = true) (fst (Text.takeDigits s)).
Proof.
  induction s as [|c s [IH1 IH2]]; simpl; [split; [reflexivity|constructor]|].
  destruct (Text.isDigit c) eqn:E; [|split; [reflexivity|constructor]].
  destruct (Text.takeDigits s) as [ds rest]. simpl in *.
  split; [rewrite <- IH1; reflexivity | constructor; assumption].
Qed.

Lemma matchAt_sound pattern : forall s groups,
  Text.matchAt pattern s = Some groups ->
  Forall isNumeral groups /\
  exists after, s = render pattern groups ++ after.
Proof.
  induction pattern as [|[text|] pattern IH]; intros s groups; simpl.
  - intros E. injection E as <-. split; [constructor|].
    exists s. reflexivity.
  - destruct (Text.isPrefix (lit text) s) eqn:E; [|discriminate].
    intros Hm. destruct (IH _ _ Hm) as [Hg [after Ha]].
    split; [exact Hg|]. exists after.
    rewrite (isPrefix_split _ _ E) at 1. rewrite Ha, <- app_assoc.
    reflexivity.
  - pose proof (takeDigits_split s) as [Hs Hd].
    destruct (Text.takeDigits s) as [[|d ds] rest]; [discriminate|].
    simpl in Hs, Hd.
    destruct (Text.matchAt pattern rest) as [gs|] eqn:Hm; [|discriminate].
    intros E. injection E as <-.
    destruct (IH _ _ Hm) as [Hg [after Ha]].
    split.
    + constructor; [|exact Hg]. split; [discriminate | exact Hd].
    + exists after. rewrite Hs, Ha. simpl. rewrite <- app_assoc. reflexivity.
Qed.

Lemma search_sound pattern s : forall groups,
  Text.search pattern s = Some groups ->
  Forall isNumeral groups /\
  exists before after, s = before ++ render pattern groups ++ after.
Proof.
  induction s as [|c s IH]; intros groups; simpl.
  - destruct (Text.matchAt pattern []) as [gs|] eqn:Hm; [|discriminate].
    intros E. injection E as <-.
    destruct (matchAt_sound _ _ Hm) as [Hg [after Ha]].
    split; [exact Hg|]. exists [], after. exact Ha.
  - destruct (Text.matchAt pattern (c :: s)) as [gs|] eqn:Hm.
    + intros E. injection E as <-.
      destruct (matchAt_sound _ _ Hm) as [Hg [after Ha]].
      split; [exact Hg|]. exists [], after. exact Ha.
    + intros E. destruct (IH _ E) as [Hg [before [after Ha]]].
      split; [exact Hg|]. exists (c :: before), after.
      rewrite Ha. reflexivity.
Qed.

(** X18. The statistics are taken only from lines of the expected form.
    A line changes the training statistics only if it contains
    "Epoch [a/b], Step [c/d]" with four non-empty runs of digits, and
    then the numbers taken are [Number] of a, b and c; a line changes
    the preprocess statistics only if it contains
    "Segments: raw=r merged=m kept=k" likewise. [Number] of a run of
    digits that writes an integer below [2^53] is that integer; beyond,
    it is the double nearest to it. *)
Theorem statistics_come_from_well_formed_lines :
  (forall line current total step,
      epochReport line = Some (current, total, step) ->
      exists before a b c d after,
        line = before ++ lit "Epoch [" ++ a ++ lit "/" ++ b ++
               lit "], Step [" ++ c ++ lit "/" ++ d ++ lit "]" ++ after /\
        Forall isNumeral [a; b; c; d] /\
        current = Text.Number a /\ total = Text.Number b /\
        step = Text.Number c) /\
  (forall line merged kept,
      segmentsReport line = Some (merged, kept) ->
      exists before r m k after,
        line = before ++ lit "Segments: raw=" ++ r ++ lit " merged=" ++ m ++
               lit " kept=" ++ k ++ after /\
        Forall isNumeral [r; m; k] /\
        merged = Text.Number m /\ kept = Text.Number k) /\
  (forall g,
      isNumeral g ->
      Text.Number g = Double.round (Text.digitsValue g) /\
      0 <= Text.digitsValue g /\
      (Text.digitsValue g < 2 ^ 53 ->
       Text.Number g = Double.Finite (Text.digitsValue g))) /\
  (forall profileName stamp line s,
      epochReport line = None ->
      Workflow.trainStats (Workflow.onTrainLine profileName stamp line s) =
      Workflow.trainStats s) /\
  (forall stamp line s,
      segmentsReport line = None ->
      Workflow.preprocessStats (Workflow.onPreprocessLine stamp line s) =
      Workflow.preprocessStats s).
Proof.
  split; [|split; [|split; [|split]]].
  - intros line current total step. unfold epochReport.
    destruct (Text.search Workflow.epochPattern line)
      as [[|a [|b [|c [|d [|? ?]]]]]|] eqn:E; try discriminate.
    intros R. injection R as <- <- <-.
    destruct (search_sound _ _ E) as [Hg [before [after Ha]]].
    exists before, a, b, c, d, after.
    split; [|split; [exact Hg | repeat split]].
    rewrite Ha. unfold Workflow.epochPattern, Workflow.segmentsPattern.
    cbn [render]. rewrite <- !app_assoc. reflexivity.
  - intros line merged kept. unfold segmentsReport.
    destruct (Text.search Workflow.segmentsPattern line)
      as [[|r [|m [|k [|? ?]]]]|] eqn:E; try discriminate.
    intros R. injection R as <- <-.
    destruct (search_sound _ _ E) as [Hg [before [after Ha]]].
    exists before, r, m, k, after.
    split; [|split; [exact Hg | repeat split]].
    rewrite Ha. unfold Workflow.epochPattern, Workflow.segmentsPattern.
    cbn [render]. rewrite <- !app_assoc. reflexivity.
  - intros g Hg. split; [reflexivity|]. split.
    + apply digitsValue_acc; [exact (proj2 Hg) | lia].
    + intros Hlt. exact (proj2 (Number_exact Hg Hlt)).
  - intros profileName stamp line s E.
    pose proof (onTrainLine_stats profileName stamp line s) as G.
    rewrite E in G. exact G.
  - intros stamp line s E.
    pose proof (onPreprocessLine_stats stamp line s) as G.
    rewrite E in G. exact G.
Qed.

(** X19. Both start handlers refuse empty input and then touch nothing
    else: the React one when the profile name or the text is empty, the
    legacy one when either is empty once trimmed, leaving its message.
    The React one does not trim: any text that is not empty, blank or
    not, starts a session. *)
Theorem start_handlers_refuse_empty_input :
  (forall profileName inferenceText fresh t now w,
      profileName = [] \/ inferenceText = [] ->
      React.startInference profileName inferenceText fresh t now w = w) /\
  (forall inferProfile inferText fresh t now s,
      trim inferProfile = [] \/ trim inferText = [] ->
      Legacy.streamClick inferProfile inferText fresh t now s =
      Legacy.setStreamStatus (lit "Provide profile name and text.") s) /\
  (forall profileName inferenceText fresh t now w,
      profileName <> [] -> inferenceText <> [] ->
      let w' := React.startInference profileName inferenceText fresh t now w in
      React.inferenceStatus w' = React.running /\
      React.streamAbortRef w' = Some (React.controllers w) /\
      React.sessions w' =
        {| React.controller := React.controllers w;
           React.startTime := now; React.firstChunk := true |}
        :: React.sessions w).
Proof.
  split; [|split].
  - intros profileName inferenceText fresh t now w [E | E];
      unfold React.startInference; rewrite E; simpl;
      [reflexivity | rewrite orb_true_r; reflexivity].
  - intros inferProfile inferText fresh t now s [E | E];
      unfold Legacy.streamClick; rewrite E; simpl;
      [reflexivity | rewrite orb_true_r; reflexivity].
  - intros profileName inferenceText fresh t now w Hp Ht.
    destruct profileName as [|p0 pn]; [congruence|].
    destruct inferenceText as [|t0 tx]; [congruence|].
    destruct w as [ctx0 next abortRef status chunks lat logs made ctrls
                   gone sess pend sched unh].
    unfold React.startInference, React.ensureAudioContext, React.abort.
    simpl.
    destruct ctx0 as [[id st]|]; [destruct st | destruct fresh]; simpl;
      destruct abortRef; simpl; repeat split.
Qed.

End Steps.

(* ===================================================================== *)
(** ** The further statements at concrete inputs *)
(* ===================================================================== *)

Section MoreInstances.

#[local] Existing Instance Fixture.host.
#[local] Existing Instance Utf8.decoder.

Open Scope Q_scope.

(** "  hi \n\n x": two lines and a blank one. *)
Lemma emitted_lines_are_clean_witness :
  let body := {| reads := [Utf8.ascii "  hi "; [x0a; x0a]; Utf8.ascii " x"];
                 failure := None |} in
  emittedLines body = [lit "hi"; lit "x"] /\
  (lit "hi" <> [] /\ ~ In newline (lit "hi") /\ isTrimmed (lit "hi")).
Proof.
  cbv zeta. split; [vm_compute; reflexivity|].
  apply (@emitted_lines_are_clean Utf8.decoder
           {| reads := [Utf8.ascii "  hi "; [x0a; x0a]; Utf8.ascii " x"];
              failure := None |}).
  left. vm_compute. left. reflexivity.
Defined.

Example failed_read_example :
  let values := [Utf8.ascii "one"; [x0a]; Utf8.ascii "two"] in
  emittedLines {| reads := values; failure := Some NetworkError |} =
    [lit "one"] /\
  emittedLines {| reads := values; failure := None |} =
    [lit "one"; lit "two"].
Proof. split; vm_compute; reflexivity. Qed.

(** A session plays two chunks, the second of one millisecond; it is
    stopped, and a decode that resolves afterwards starts nothing. *)
Lemma chunks_play_in_order_witness :
  let events := [React.Line 0 130 Fixture.audioLine;
                 React.Line 0 140 Fixture.audioLine;
                 React.Decoded 0 {| duration := 1 # 2 |} (1 # 10) 1000;
                 React.Decoded 0 {| duration := 1 # 1000 |} (2 # 10) 1001;
                 React.StopClicked;
                 React.ContextClosed;
                 React.Decoded 0 {| duration := 1 # 2 |} 3 1002] in
  length (React.scheduled (React.run Fixture.streaming events)) = 2%nat /\
  exists news fed,
    React.scheduled (React.run Fixture.streaming events) =
      React.scheduled Fixture.streaming ++ news /\
    subsequence fed (decodes events) /\
    map played news = map fst fed /\
    Forall2 (fun p c => snd c + (5 # 100) <= startAt p) news fed /\
    spaced (8 # 1000) news.
Proof.
  cbv zeta. split; [vm_compute; reflexivity|].
  apply (proj1 (@chunks_play_in_order_without_pileup Fixture.host)).
  repeat constructor.
Defined.

(** A second start on the same context is where the order ends: the
    schedule goes back to the clock, and the first chunk of the new
    session starts inside the ten-second chunk that is still playing. *)
Example restart_on_the_same_context_piles_up :
  let w := React.run Fixture.streaming
             [React.Decoded 0 {| duration := 10 |} 0 1000;
              React.Line 0 11000 Fixture.doneLine;
              React.Start (lit "alvin") (lit "again") ctxRunning 1 12000;
              React.Line 1 12100 Fixture.audioLine;
              React.Decoded 0 {| duration := 1 # 2 |} 1 12200] in
  Forall2 Qeq (map startAt (React.scheduled w)) [5 # 100; 105 # 100] /\
  map (fun p => duration (played p)) (React.scheduled w) = [10; 1 # 2].
Proof. cbv zeta. split; vm_compute; repeat constructor. Qed.

Lemma envelope_is_ordered_witness :
  let w := React.setAudioContext (Some Fixture.liveContext) React.initial in
  let buffer := {| duration := 3 # 1000 |} in
  exists p,
    React.scheduled (React.scheduleBuffer buffer 0 w) = React.scheduled w ++ [p] /\
    map eventValue (envelope p) = [0; 1; 1; 0] /\
    nondecreasing (map eventTime (envelope p)) /\
    hd 0 (map eventTime (envelope p)) = startAt p /\
    last (map eventTime (envelope p)) 0 = startAt p + duration buffer.
Proof.
  cbv zeta.
  apply (@envelope_is_ordered
           (React.setAudioContext (Some Fixture.liveContext) React.initial)
           Fixture.liveContext {| duration := 3 # 1000 |} 0).
  - reflexivity.
  - unfold Qle. simpl. lia.
Defined.

(** Below 2 ms the hold point of the envelope lies after the end of the
    chunk. *)
Example envelope_of_a_one_millisecond_chunk :
  let w := React.setAudioContext (Some Fixture.liveContext) React.initial in
  Forall2 (Forall2 Qeq)
    (map (fun p => map eventTime (envelope p))
       (React.scheduled (React.scheduleBuffer {| duration := 1 # 1000 |} 0 w)))
    [[50 # 1000; 52 # 1000; 52 # 1000; 51 # 1000]].
Proof. vm_compute. repeat constructor. Qed.

Lemma legacy_schedule_never_moves_back_witness :
  let events := [Legacy.Decoded 0 {| duration := 1 # 1000 |} (1 # 10);
                 Legacy.Stop;
                 Legacy.Line 0 200 Fixture.audioLine;
                 Legacy.Decoded 0 {| duration := 0 |} (2 # 10)] in
  length (Legacy.scheduled (Legacy.run Fixture.legacyStreaming events)) = 2%nat /\
  Legacy.nextStart Fixture.legacyStreaming <=
  Legacy.nextStart (Legacy.run Fixture.legacyStreaming events).
Proof.
  cbv zeta. split; [reflexivity|].
  apply (@legacy_schedule_never_moves_back Fixture.host).
  repeat constructor; simpl; unfold Qle; simpl; lia.
Defined.

Lemma legacy_stop_leaves_audio_running_witness :
  let stopped := Legacy.stopStream Fixture.legacyStreaming in
  Legacy.aborted stopped = [0%nat] /\
  Legacy.scheduled
    (Legacy.onDecoded 0 {| duration := 1 # 2 |} (3 # 10) stopped) =
  Legacy.scheduled Fixture.legacyStreaming ++
  [{| played := {| duration := 1 # 2 |};
      startAt := Qmax (Legacy.nextStart Fixture.legacyStreaming)
                      ((3 # 10) + (5 # 100));
      envelope := [] |}].
Proof.
  cbv zeta.
  destruct (@legacy_stop_leaves_audio_running Fixture.host
              Fixture.legacyStreaming) as [_ [Ha [_ [_ [_ [_ Hd]]]]]].
  split.
  - apply (Ha 0%nat). reflexivity.
  - eapply Hd; reflexivity.
Defined.

Lemma time_to_first_audio_witness :
  let w' := React.onStreamLine 0 120 Fixture.badAudioLine Fixture.started in
  React.latency Fixture.started = None /\
  React.scheduled w' = [] /\
  React.latency w' = Some {| React.ttfa := 120; React.total := JNumber 0 |}.
Proof.
  cbv zeta. split; [reflexivity|]. split; [reflexivity|].
  destruct (@time_to_first_audio_is_taken_once Fixture.host 0%nat 120
              Fixture.badAudioLine
              [(lit "audio_base64", JString (lit "<invalid>"))]
              (JString (lit "<invalid>"))
              {| React.controller := 0; React.startTime := 0;
                 React.firstChunk := true |}
              Fixture.started eq_refl eq_refl) as [Hfirst _].
  exact (proj1 (Hfirst eq_refl eq_refl eq_refl eq_refl)).
Defined.

Lemma chunk_list_counts_every_decode_witness :
  let stopped := React.stopInference Fixture.streaming in
  let w' := React.onDecoded 0 {| duration := 1 # 2 |} (3 # 10) 1000 stopped in
  React.scheduled w' = React.scheduled stopped /\
  map React.chunkDuration (React.inferenceChunks w') = [1 # 2].
Proof.
  cbv zeta.
  destruct (proj1 (@chunk_list_counts_every_decode Fixture.host)
              0%nat
              {| decodeSession := 0; decodeData := Fixture.audioData;
                 decodeBytes := toBytes (lit "RIFF") |}
              {| duration := 1 # 2 |} (3 # 10) 1000
              (React.stopInference Fixture.streaming) eq_refl)
    as [Hc [_ Hs]].
  split; [apply Hs; reflexivity|]. rewrite Hc. reflexivity.
Defined.

Lemma only_transport_failures_witness :
  let events := [React.Line 0 130 Fixture.progressLine;
                 React.Line 0 140 Fixture.badAudioLine;
                 React.DecodeFailed 0;
                 React.Stop;
                 React.StreamError AbortError] in
  length (React.unhandled (React.run Fixture.streaming events)) = 3%nat /\
  React.inferenceStatus (React.run Fixture.streaming events) <> React.error.
Proof.
  cbv zeta. split; [reflexivity|].
  apply (@only_transport_failures_show_as_error Fixture.host).
  - repeat constructor.
  - discriminate.
Defined.

End MoreInstances.

Section StepInstances.

#[local] Existing Instance Fixture.host.

Open Scope Z_scope.

(** "Previous" is not gated: from step 4 of a profile that has a model
    but no data it opens step 3, which the gate of step 3 refuses. *)
Example previous_is_not_gated :
  let s := Workflow.run Workflow.initial
             [Workflow.ProfilesLoaded (Some [Samples.modelOnly]);
              Workflow.SelectProfile Samples.modelOnly;
              Workflow.Previous] in
  Workflow.activeStep s = 3 /\ Workflow.canProceedTo 3 s = false.
Proof. split; reflexivity. Qed.

Lemma no_preprocess_without_upload_witness :
  let events := [Workflow.Upload None;
                 Workflow.StartPreprocess Samples.stamp;
                 Workflow.ClickStep 2;
                 Workflow.UploadFailed Samples.stamp NetworkError] in
  let s := Workflow.run
             (Workflow.selectProfile Samples.trained
                (Workflow.onUploaded
                   {| Workflow.fileName := lit "take1.wav";
                      Workflow.fileBytes := 1048576 |}
                   (Some (lit "take1.wav")) Workflow.initial))
             events in
  Workflow.activeStep s = 2 /\
  Workflow.startPreprocess Samples.stamp s = s.
Proof.
  cbv zeta. split; [reflexivity|].
  apply (@no_preprocess_without_upload Fixture.host).
  repeat constructor.
Defined.

Example training_statistics_example :
  let lines := [(Samples.stamp, Samples.epochLine);
                (Samples.stamp, Samples.errorLine);
                (Samples.stamp, Samples.laterEpochLine)] in
  let s := Workflow.run
             (Workflow.startTraining Samples.stamp
                (Workflow.typeName (lit "alvin") Workflow.initial))
             (trainEvents (lit "alvin") lines) in
  option_map (fun t => (Workflow.currentEpoch t, Workflow.totalEpochs t,
                        Workflow.steps t, Workflow.eta t))
             (Workflow.trainStats s) =
    Some (Double.Finite 4, Double.Finite 25, Double.Finite 200,
          lit "21 epochs") /\
  map Workflow.level (Workflow.trainLogs s) =
    [React.info; React.info; React.errorLevel; React.info].
Proof. split; vm_compute; reflexivity. Qed.

Lemma training_statistics_accumulate_witness :
  let lines := [(Samples.stamp, Samples.epochLine);
                (Samples.stamp, Samples.errorLine);
                (Samples.stamp, Samples.laterEpochLine)] in
  let s := Workflow.startTraining Samples.stamp
             (Workflow.typeName (lit "alvin") Workflow.initial) in
  exists stats,
    Workflow.trainStats (Workflow.run s (trainEvents (lit "alvin") lines)) =
      Some stats /\
    Workflow.currentEpoch stats = Double.Finite 4 /\
    Workflow.totalEpochs stats = Double.Finite 25 /\
    Workflow.steps stats = Double.Finite (0 + sumZ [120; 80]) /\
    Workflow.epochsLeft (Double.Finite 25) (Double.Finite 4) =
      Double.Finite (Z.max 0 (25 - 4)).
Proof.
  cbv zeta.
  pose proof (@training_statistics_accumulate Fixture.host (lit "alvin")
                [(Samples.stamp, Samples.epochLine);
                 (Samples.stamp, Samples.errorLine);
                 (Samples.stamp, Samples.laterEpochLine)]
                (Workflow.startTraining Samples.stamp
                   (Workflow.typeName (lit "alvin") Workflow.initial))) as G.
  cbv zeta in G.
  assert (El : reports epochReport
                 (map snd [(Samples.stamp, Samples.epochLine);
                           (Samples.stamp, Samples.errorLine);
                           (Samples.stamp, Samples.laterEpochLine)]) =
               [(Double.Finite 3, Double.Finite 25, Double.Finite 120);
                (Double.Finite 4, Double.Finite 25, Double.Finite 80)])
    by (vm_compute; reflexivity).
  rewrite El in G. simpl lastOf in G.
  destruct G as [stats [A [B [C [_ [_ [Hsum Hleft]]]]]]].
  exists stats. split; [exact A|]. split; [exact B|]. split; [exact C|].
  split.
  - apply Hsum.
    + reflexivity.
    + lia.
    + reflexivity.
    + repeat constructor; lia.
    + unfold isCount. simpl. lia.
  - apply Hleft; try reflexivity; unfold isCount; lia.
Defined.

(** A step number of [2^53 + 1] is read as [2^53]. *)
Example step_beyond_exact_doubles :
  epochReport Samples.hugeEpochLine =
    Some (Double.Finite 1, Double.Finite 2, Double.Finite 9007199254740992) /\
  Text.digitsValue (lit "9007199254740993") = 9007199254740993.
Proof. split; vm_compute; reflexivity. Qed.

Lemma preprocess_statistics_follow_last_report_witness :
  let lines := [(Samples.stamp, Samples.errorLine);
                (Samples.stamp, Samples.segmentsLine)] in
  let s := Workflow.run Workflow.initial (preprocessEvents lines) in
  exists stats,
    Workflow.preprocessStats s = Some stats /\
    Workflow.segmentsKept stats = Double.Finite 8 /\
    Workflow.segmentsFiltered stats = Double.Finite (10 - 8) /\
    Double.add (Workflow.segmentsKept stats)
               (Workflow.segmentsFiltered stats) = Double.Finite 10.
Proof.
  cbv zeta.
  pose proof (@preprocess_statistics_follow_last_report Fixture.host
                [(Samples.stamp, Samples.errorLine);
                 (Samples.stamp, Samples.segmentsLine)]
                Workflow.initial) as G.
  cbv zeta in G.
  assert (El : reports segmentsReport
                 (map snd [(Samples.stamp, Samples.errorLine);
                           (Samples.stamp, Samples.segmentsLine)]) =
               [(Double.Finite 10, Double.Finite 8)])
    by (vm_compute; reflexivity).
  rewrite El in G. simpl lastOf in G.
  destruct G as [stats [A [B [_ Hexact]]]].
  destruct (Hexact 10 8) as [C D];
    try reflexivity; try (unfold isCount; lia).
  exists stats. auto.
Defined.

(** With a kept count of [10^20] the filtered count is [1 - 10^20]
    rounded, which is [-10^20], and kept plus filtered is 0, not the
    merged count 1. *)
Example filtered_count_beyond_exact_doubles :
  let s := Workflow.run Workflow.initial
             (preprocessEvents [(Samples.stamp, Samples.hugeSegmentsLine)]) in
  option_map (fun t => (Workflow.segmentsKept t, Workflow.segmentsFiltered t,
                        Double.add (Workflow.segmentsKept t)
                                   (Workflow.segmentsFiltered t)))
             (Workflow.preprocessStats s) =
  Some (Double.Finite (10 ^ 20), Double.Finite (- 10 ^ 20), Double.Finite 0).
Proof. vm_compute. reflexivity. Qed.

Lemma statistics_come_from_well_formed_lines_witness :
  epochReport Samples.epochLine =
    Some (Double.Finite 3, Double.Finite 25, Double.Finite 120) /\
  (exists before a b c d after,
    Samples.epochLine =
      before ++ lit "Epoch [" ++ a ++ lit "/" ++ b ++
      lit "], Step [" ++ c ++ lit "/" ++ d ++ lit "]" ++ after /\
    Forall isNumeral [a; b; c; d] /\
    Double.Finite 3 = Text.Number a /\ Double.Finite 25 = Text.Number b /\
    Double.Finite 120 = Text.Number c) /\
  Text.Number (lit "120") = Double.Finite (Text.digitsValue (lit "120")).
Proof.
  destruct (@statistics_come_from_well_formed_lines Fixture.host)
    as [Hepoch [_ [Hnumber _]]].
  split; [vm_compute; reflexivity|]. split.
  - apply Hepoch. vm_compute. reflexivity.
  - apply Hnumber.
    + split; [discriminate | repeat constructor].
    + vm_compute. reflexivity.
Defined.

Lemma start_handlers_refuse_empty_input_witness :
  React.startInference (lit "alvin") [] ctxRunning 0 0 Fixture.streaming =
    Fixture.streaming /\
  Legacy.streamClick (lit "alvin") (lit "   ") ctxRunning 0 0
    Fixture.legacyStreaming =
    Legacy.setStreamStatus (lit "Provide profile name and text.")
      Fixture.legacyStreaming /\
  React.inferenceStatus
    (React.startInference (lit "alvin") (lit "   ") ctxRunning 0 0
       Fixture.streaming) = React.running.
Proof.
  destruct start_handlers_refuse_empty_input as [Hr [Hl Hs]].
  split; [apply Hr; right; reflexivity|].
  split; [apply Hl; right; reflexivity|].
  destruct (Hs (lit "alvin") (lit "   ") ctxRunning 0%Q 0%Q Fixture.streaming)
    as [Ho _]; [discriminate | discriminate | exact Ho].
Defined.

End StepInstances.
